(** * ansibug: the debuggee-side breakpoint registry

    A shallow embedding of [src/ansibug/_debuggee.py]: the line
    classification tables ([_source_info]), the registered breakpoints
    ([_breakpoints]), the path mappings and the send queue of
    [AnsibleDebugger], with the properties of the breakpoint resolution
    that the specification states about them. *)

From Stdlib Require Import ZArith Lia.
From stdpp Require Import gmap strings list.

Local Open Scope Z_scope.

(** ** Python values *)

(** Python's list indexing, with negative indices counted from the end and
    [IndexError] (here [None]) outside [-len, len). *)
Module Py.

Definition len {A} (l : list A) : Z := Z.of_nat (length l).

(** [l[i]] *)
Definition getitem {A} (l : list A) (i : Z) : option A :=
  if 0 <=? i then l !! Z.to_nat i
  else if - len l <=? i then l !! Z.to_nat (len l + i)
  else None.

(** [l[i] = x] *)
Definition setitem {A} (l : list A) (i : Z) (x : A) : option (list A) :=
  if 0 <=? i then
    if i <? len l then Some (<[Z.to_nat i := x]> l) else None
  else if - len l <=? i then Some (<[Z.to_nat (len l + i) := x]> l)
  else None.

(** [[x] * n]: empty when [n <= 0]. *)
Definition repeat {A} (x : A) (n : Z) : list A := replicate (Z.to_nat n) x.

(** [s.startswith(p)] *)
Fixpoint startswith (s p : string) {struct p} : bool :=
  match p with
  | EmptyString => true
  | String c p' =>
      match s with
      | EmptyString => false
      | String d s' => if Ascii.eqb c d then startswith s' p' else false
      end
  end.

(** [s[n:]] for [n >= 0] *)
Fixpoint slice_from (s : string) (n : nat) {struct n} : string :=
  match n with
  | O => s
  | S n' =>
      match s with
      | EmptyString => EmptyString
      | String _ s' => slice_from s' n'
      end
  end.

(** A [dict] keeps its keys in insertion order; [d[k] = v] replaces the
    value of a key that is present and appends a new key otherwise. *)
Fixpoint dict_set {V} (d : list (Z * V)) (k : Z) (v : V) : list (Z * V) :=
  match d with
  | [] => [(k, v)]
  | (k', v') :: d' =>
      if k' =? k then (k', v) :: d' else (k', v') :: dict_set d' k v
  end.

End Py.

(** ** Data model *)

Record PathMapping := {
  local_root : string;
  remote_root : string;
}.

Record DebugConfiguration := {
  path_mappings : list PathMapping;
}.

(** Modelled from the spec: the [dap] codec is not part of the sources; the
    records below carry the fields of [dap.Source], [dap.SourceBreakpoint]
    and [dap.Breakpoint] that the debuggee reads or writes (an omitted
    optional field is [None]). *)
Module Source.
Record t := mk {
  name : option string;
  path : option string;
}.
End Source.

Module SourceBreakpoint.
Record t := mk {
  line : Z;
  column : option Z;
}.
End SourceBreakpoint.

Module Breakpoint.
Record t := mk {
  id : Z;
  verified : bool;
  message : option string;
  source : Source.t;
  line : option Z;
  end_line : option Z;
}.
End Breakpoint.

Module AnsibleLineBreakpoint.
Record t := mk {
  id : Z;
  source : Source.t;
  source_breakpoint : SourceBreakpoint.t;
  breakpoint : Breakpoint.t;
  actual_path : string;
  source_path : string;
}.
End AnsibleLineBreakpoint.

(** Modelled from the spec: the messages of the [dap] codec that the
    breakpoint registry receives and sends. *)
Record SetBreakpointsRequest := {
  seq : Z;
  req_source : Source.t;
  req_breakpoints : list SourceBreakpoint.t;
  source_modified : bool;
}.

Inductive ProtocolMessage :=
| SetBreakpointsResponse (request_seq : Z) (breakpoints : list Breakpoint.t)
| BreakpointEvent (reason : string) (bp : Breakpoint.t)
| ConfigurationDoneResponse (request_seq : Z)
| ErrorResponse (command : string) (request_seq : Z) (message : string).

(** The part of [AnsibleDebugger] that the registry owns.  The send queue
    holds [None] for the end-of-session marker that [connection_closed]
    posts. *)
Record AnsibleDebugger := {
  _debug_config : DebugConfiguration;
  _send_queue : list (option ProtocolMessage);
  _send_queue_active : bool;
  _breakpoints : list (Z * AnsibleLineBreakpoint.t);
  _breakpoint_counter : Z;
  _source_info : gmap string (list (option Z));
}.

(** [AnsibleDebugger.__init__] *)
Definition init : AnsibleDebugger := {|
  _debug_config := {| path_mappings := [] |};
  _send_queue := [];
  _send_queue_active := false;
  _breakpoints := [];
  _breakpoint_counter := 1;
  _source_info := ∅;
|}.

(** Field updates of the debugger object. *)
Definition with_debug_config (st : AnsibleDebugger) (c : DebugConfiguration) :=
  {| _debug_config := c;
     _send_queue := _send_queue st;
     _send_queue_active := _send_queue_active st;
     _breakpoints := _breakpoints st;
     _breakpoint_counter := _breakpoint_counter st;
     _source_info := _source_info st |}.

Definition with_send_queue (st : AnsibleDebugger)
    (q : list (option ProtocolMessage)) (active : bool) :=
  {| _debug_config := _debug_config st;
     _send_queue := q;
     _send_queue_active := active;
     _breakpoints := _breakpoints st;
     _breakpoint_counter := _breakpoint_counter st;
     _source_info := _source_info st |}.

Definition with_breakpoints (st : AnsibleDebugger)
    (bps : list (Z * AnsibleLineBreakpoint.t)) :=
  {| _debug_config := _debug_config st;
     _send_queue := _send_queue st;
     _send_queue_active := _send_queue_active st;
     _breakpoints := bps;
     _breakpoint_counter := _breakpoint_counter st;
     _source_info := _source_info st |}.

Definition with_breakpoint_counter (st : AnsibleDebugger) (c : Z) :=
  {| _debug_config := _debug_config st;
     _send_queue := _send_queue st;
     _send_queue_active := _send_queue_active st;
     _breakpoints := _breakpoints st;
     _breakpoint_counter := c;
     _source_info := _source_info st |}.

Definition with_source_info (st : AnsibleDebugger)
    (si : gmap string (list (option Z))) :=
  {| _debug_config := _debug_config st;
     _send_queue := _send_queue st;
     _send_queue_active := _send_queue_active st;
     _breakpoints := _breakpoints st;
     _breakpoint_counter := _breakpoint_counter st;
     _source_info := si |}.

Definition with_breakpoint (b : AnsibleLineBreakpoint.t) (bp : Breakpoint.t) :=
  AnsibleLineBreakpoint.mk
    (AnsibleLineBreakpoint.id b)
    (AnsibleLineBreakpoint.source b)
    (AnsibleLineBreakpoint.source_breakpoint b)
    bp
    (AnsibleLineBreakpoint.actual_path b)
    (AnsibleLineBreakpoint.source_path b).

(** ** Methods that change the debugger: state and exceptions

    A method takes the debugger and gives back the debugger as the call
    left it, with its result: a value, a Python exception, or [OutOfFuel]
    when a [while] loop of the model was cut short (never the case for the
    loops below, see [resolve_terminates]). *)

Inductive exn := IndexError.

Inductive outcome (A : Type) :=
| Ok (a : A)
| Raise (e : exn)
| OutOfFuel.
Arguments Ok {A} a.
Arguments Raise {A} e.
Arguments OutOfFuel {A}.

Definition M (A : Type) : Type := AnsibleDebugger → outcome A * AnsibleDebugger.

Definition ret {A} (a : A) : M A := fun st => (Ok a, st).

Definition bind {A B} (m : M A) (k : A → M B) : M B := fun st =>
  match m st with
  | (Ok a, st') => k a st'
  | (Raise e, st') => (Raise e, st')
  | (OutOfFuel, st') => (OutOfFuel, st')
  end.

Definition lift {A} (o : outcome A) : M A := fun st => (o, st).
Definition get : M AnsibleDebugger := fun st => (Ok st, st).
Definition modify (f : AnsibleDebugger → AnsibleDebugger) : M unit :=
  fun st => (Ok tt, f st).

Notation "'let*' x ':=' m 'in' k" := (bind m (fun x => k))
  (at level 10, x pattern, m at level 100, k at level 200).
Notation "m '>>' k" := (bind m (fun _ => k))
  (at level 100, k at level 200, right associativity).

(** ** Breakpoint resolution

    The block that [register_path_breakpoint] and the set-breakpoints
    handler both contain (the source repeats it, with the note
    "Put into common location to share with SetBreakpointRequest"). *)

(** [while line_type is None: start_line -= 1; line_type = T[start_line]] *)
Fixpoint scan_back (fuel : nat) (T : list (option Z)) (start_line : Z)
    (line_type : option Z) : outcome (Z * Z) :=
  match line_type with
  | Some v => Ok (start_line, v)
  | None =>
      match fuel with
      | O => OutOfFuel
      | S fuel' =>
          match Py.getitem T (start_line - 1) with
          | None => Raise IndexError
          | Some line_type' => scan_back fuel' T (start_line - 1) line_type'
          end
      end
  end.

(** [while end_line < len(T) and T[end_line] is None: end_line += 1] *)
Fixpoint scan_fwd (fuel : nat) (T : list (option Z)) (end_line : Z)
    : outcome Z :=
  if end_line <? Py.len T then
    match Py.getitem T end_line with
    | None => Raise IndexError
    | Some (Some _) => Ok end_line
    | Some None =>
        match fuel with
        | O => OutOfFuel
        | S fuel' => scan_fwd fuel' T (end_line + 1)
        end
    end
  else Ok end_line.

Definition cannot_set_here : string := "Breakpoint cannot be set here.".

Record Resolved := {
  r_verified : bool;
  r_msg : option string;
  r_start : Z;
  r_end : Z;
}.

Definition resolve (file_lines : list (option Z)) (line : Z)
    : outcome Resolved :=
  let fuel := S (2 * length file_lines)%nat in
  let start_line := Z.min line (Py.len file_lines - 1) in
  let end_line := start_line + 1 in
  match Py.getitem file_lines start_line with
  | None => Raise IndexError
  | Some line_type =>
      match scan_back fuel file_lines start_line line_type with
      | Raise e => Raise e
      | OutOfFuel => OutOfFuel
      | Ok (start_line, line_type) =>
          match scan_fwd fuel file_lines end_line with
          | Raise e => Raise e
          | OutOfFuel => OutOfFuel
          | Ok end_line =>
              let end_line := Z.min (end_line - 1) (Py.len file_lines) in
              if line_type =? 0 then
                Ok {| r_verified := false; r_msg := Some cannot_set_here;
                      r_start := start_line; r_end := end_line |}
              else
                Ok {| r_verified := true; r_msg := None;
                      r_start := start_line; r_end := end_line |}
          end
      end
  end.

(** ** The registry methods *)

(** [AnsibleDebugger.send] *)
Definition send (msg : option ProtocolMessage) : M unit := fun st =>
  if _send_queue_active st
  then (Ok tt, with_send_queue st (_send_queue st ++ [msg]) true)
  else (Ok tt, st).

(** [b.breakpoint.line is None or b.breakpoint.line <= line], and the same
    for [end_line] with [>=]. *)
Definition line_matches (bp : Breakpoint.t) (line : Z) : bool :=
  match Breakpoint.line bp with None => true | Some l => l <=? line end
  && match Breakpoint.end_line bp with None => true | Some e => line <=? e end.

(** [AnsibleDebugger.get_breakpoint] *)
Definition get_breakpoint (st : AnsibleDebugger) (path : string) (line : Z)
    : option AnsibleLineBreakpoint.t :=
  if negb (_send_queue_active st) then None
  else
    List.find
      (fun b => bool_decide (AnsibleLineBreakpoint.actual_path b = path)
                && line_matches (AnsibleLineBreakpoint.breakpoint b) line)
      (map snd (_breakpoints st)).

(** [AnsibleDebugger.convert_to_client_path], on the configured mappings. *)
Fixpoint convert_path_mappings (mappings : list PathMapping) (path : string)
    : string :=
  match mappings with
  | [] => path
  | mapping :: rest =>
      if Py.startswith path (remote_root mapping)
      then local_root mapping
           +:+ Py.slice_from path (String.length (remote_root mapping))
      else convert_path_mappings rest path
  end.

Definition convert_to_client_path (st : AnsibleDebugger) (path : string)
    : string :=
  convert_path_mappings (path_mappings (_debug_config st)) path.

(** The client to runtime translation at the head of the set-breakpoints
    handler: the first mapping whose [local_root] starts the path. *)
Fixpoint convert_to_actual_path (mappings : list PathMapping)
    (actual_path : string) : string :=
  match mappings with
  | [] => actual_path
  | mapping :: rest =>
      if Py.startswith actual_path (local_root mapping)
      then remote_root mapping
           +:+ Py.slice_from actual_path (String.length (local_root mapping))
      else convert_to_actual_path rest actual_path
  end.

Definition not_loaded : string :=
  "File has not been loaded by Ansible, cannot detect breakpoints yet.".
Definition modified_source : string :=
  "Cannot set breakpoint on a modified source.".

(** The test and the new [dap.Breakpoint] of the loop of
    [register_path_breakpoint]: the stored state differs from the resolved
    one in [verified], [line] or [end_line]. *)
Definition changed (old : Breakpoint.t) (r : Resolved) : bool :=
  negb (bool_decide (Breakpoint.verified old = r_verified r))
  || negb (bool_decide (Breakpoint.line old = Some (r_start r)))
  || negb (bool_decide (Breakpoint.end_line old = Some (r_end r))).

Definition resolved_breakpoint (b : AnsibleLineBreakpoint.t) (r : Resolved)
    : Breakpoint.t :=
  Breakpoint.mk (AnsibleLineBreakpoint.id b) (r_verified r) (r_msg r)
    (AnsibleLineBreakpoint.source b) (Some (r_start r)) (Some (r_end r)).

(** The [for breakpoint in self._breakpoints.values()] loop of
    [register_path_breakpoint]; [i] is the position in the dictionary of
    the breakpoint object that the iteration updates in place. *)
Fixpoint reresolve_loop (path : string) (file_lines : list (option Z))
    (i : nat) (todo : list (Z * AnsibleLineBreakpoint.t)) : M unit :=
  match todo with
  | [] => ret tt
  | (k, b) :: rest =>
      if bool_decide (AnsibleLineBreakpoint.actual_path b ≠ path)
      then reresolve_loop path file_lines (S i) rest
      else
        let source_breakpoint := AnsibleLineBreakpoint.source_breakpoint b in
        let* r := lift (resolve file_lines
                          (SourceBreakpoint.line source_breakpoint)) in
        (if changed (AnsibleLineBreakpoint.breakpoint b) r then
           let bp := resolved_breakpoint b r in
           modify (fun st =>
             with_breakpoints st
               (<[i := (k, with_breakpoint b bp)]> (_breakpoints st))) >>
           send (Some (BreakpointEvent "changed" bp))
         else ret tt) >>
        reresolve_loop path file_lines (S i) rest
  end.

(** [AnsibleDebugger.register_path_breakpoint] *)
Definition register_path_breakpoint (path : string) (line bp_type : Z)
    : M unit := fun st =>
  let file_lines := default [Some 0] (_source_info st !! path) in
  let file_lines :=
    file_lines ++ Py.repeat None (1 + line - Py.len file_lines) in
  match Py.setitem file_lines line (Some bp_type) with
  | None =>
      (Raise IndexError,
       with_source_info st (<[path := file_lines]> (_source_info st)))
  | Some file_lines =>
      let st := with_source_info st (<[path := file_lines]> (_source_info st)) in
      reresolve_loop path file_lines 0 (_breakpoints st) st
  end.

(** The [for source_breakpoint in msg.breakpoints] loop of the
    set-breakpoints handler. *)
Fixpoint set_breakpoints_loop (msg : SetBreakpointsRequest)
    (source_path actual_path : string)
    (source_info : option (list (option Z)))
    (todo : list SourceBreakpoint.t) (breakpoint_info : list Breakpoint.t)
    : M (list Breakpoint.t) :=
  match todo with
  | [] => ret breakpoint_info
  | source_breakpoint :: rest =>
      let* st := get in
      let bp_id := _breakpoint_counter st in
      modify (fun st => with_breakpoint_counter st (_breakpoint_counter st + 1)) >>
      if source_modified msg then
        let bp := Breakpoint.mk bp_id false (Some modified_source)
                    (req_source msg) None None in
        set_breakpoints_loop msg source_path actual_path source_info rest
          (breakpoint_info ++ [bp])
      else
        let* bp :=
          match source_info with
          | None | Some [] =>
              ret (Breakpoint.mk bp_id false (Some not_loaded) (req_source msg)
                     (Some (SourceBreakpoint.line source_breakpoint)) None)
          | Some source_info =>
              let* r := lift (resolve source_info
                                (SourceBreakpoint.line source_breakpoint)) in
              ret (Breakpoint.mk bp_id (r_verified r) (r_msg r)
                     (req_source msg) (Some (r_start r)) (Some (r_end r)))
          end in
        modify (fun st =>
          with_breakpoints st
            (Py.dict_set (_breakpoints st) bp_id
               (AnsibleLineBreakpoint.mk bp_id (req_source msg)
                  source_breakpoint bp actual_path source_path))) >>
        set_breakpoints_loop msg source_path actual_path source_info rest
          (breakpoint_info ++ [bp])
  end.

(** The set-breakpoints handler up to the construction of its response. *)
Definition set_breakpoints (msg : SetBreakpointsRequest) : M ProtocolMessage :=
  let source_path := default EmptyString (Source.path (req_source msg)) in
  let* st := get in
  let actual_path :=
    convert_to_actual_path (path_mappings (_debug_config st)) source_path in
  let source_info := _source_info st !! actual_path in
  modify (fun st =>
    with_breakpoints st
      (filter (fun kb : Z * AnsibleLineBreakpoint.t =>
                 AnsibleLineBreakpoint.source_path kb.2 ≠ source_path)
         (_breakpoints st))) >>
  let* breakpoint_info :=
    set_breakpoints_loop msg source_path actual_path source_info
      (req_breakpoints msg) [] in
  ret (SetBreakpointsResponse (seq msg) breakpoint_info).

(** [AnsibleDebugger.process_message] for a [SetBreakpointsRequest]. *)
Definition process_message (msg : SetBreakpointsRequest) : M unit :=
  let* resp := set_breakpoints msg in
  send (Some resp).

(** ** Runs of the debugger

    What can happen to the registry between two calls: the runtime feeds a
    line classification ([register_path_breakpoint]); the client sends a
    set-breakpoints request ([DAProtocol.on_msg_received]); another handler
    or the strategy sends a message ([send]); an output event of the debug
    adapter replaces the path mappings; a transport session opens
    ([DAProtocol.connection_made]); the receive task takes a message off
    the queue; the receive task ends and, in its [finally] block, empties
    the queue and switches it off. *)

Inductive op :=
| OpRegister (path : string) (line bp_type : Z)
| OpSetBreakpoints (msg : SetBreakpointsRequest)
| OpSend (msg : option ProtocolMessage)
| OpDebugConfig (c : DebugConfiguration)
| OpConnectionMade
| OpDequeue
| OpSessionEnd.

(** [DAProtocol.on_msg_received] for a set-breakpoints request: an exception
    of the handler is answered with an error response. *)
Definition error_response (msg : SetBreakpointsRequest) : ProtocolMessage :=
  ErrorResponse "setBreakpoints" (seq msg)
    "Unknown error: IndexError('list index out of range')".

Definition on_msg_received (msg : SetBreakpointsRequest)
    (st : AnsibleDebugger) : AnsibleDebugger :=
  match process_message msg st with
  | (Ok _, st') => st'
  | (_, st') => snd (send (Some (error_response msg)) st')
  end.

Definition step (o : op) (st : AnsibleDebugger) : AnsibleDebugger :=
  match o with
  | OpRegister path line bp_type =>
      snd (register_path_breakpoint path line bp_type st)
  | OpSetBreakpoints msg => on_msg_received msg st
  | OpSend msg => snd (send msg st)
  | OpDebugConfig c => with_debug_config st c
  | OpConnectionMade => with_send_queue st (_send_queue st) true
  | OpDequeue => with_send_queue st (tail (_send_queue st)) (_send_queue_active st)
  | OpSessionEnd => with_send_queue st [] false
  end.

Definition run (ops : list op) (st : AnsibleDebugger) : AnsibleDebugger :=
  fold_left (fun st o => step o st) ops st.

Definition reachable (st : AnsibleDebugger) : Prop :=
  ∃ ops, st = run ops init.

(** ** Invariants of the registry *)

(** Slot 0 of a table holds a classification, never a continuation. *)
Definition table_ok (T : list (option Z)) : Prop :=
  ∃ v rest, T = Some v :: rest.


(** The table of a path as [register_path_breakpoint] sees it after
    [setdefault]: a path without a table starts from [[0]]. *)
Definition table_of (st : AnsibleDebugger) (path : string) : list (option Z) :=
  default [Some 0] (_source_info st !! path).

(** Between the bounds [lo] and [hi] no breakpoint id is stored; below the
    counter every id is the key of its entry and of its [dap.Breakpoint];
    the keys of the dictionary are distinct; every table starts with a
    classified slot. *)
Record inv (lo hi : Z) (st : AnsibleDebugger) : Prop := {
  inv_tables : ∀ p T, _source_info st !! p = Some T → table_ok T;
  inv_counter : hi ≤ _breakpoint_counter st;
  inv_keys :
    Forall (fun kb : Z * AnsibleLineBreakpoint.t =>
              kb.1 = AnsibleLineBreakpoint.id kb.2
              ∧ Breakpoint.id (AnsibleLineBreakpoint.breakpoint kb.2) = kb.1
              ∧ kb.1 < _breakpoint_counter st
              ∧ ¬ (lo ≤ kb.1 < hi))
      (_breakpoints st);
  inv_nodup : NoDup (_breakpoints st).*1;
}.

(** A stored breakpoint answers a query for [line] of [path]: the test of
    [get_breakpoint]. *)
Definition matches (path : string) (line : Z) (b : AnsibleLineBreakpoint.t)
    : Prop :=
  AnsibleLineBreakpoint.actual_path b = path
  ∧ (∀ l, Breakpoint.line (AnsibleLineBreakpoint.breakpoint b) = Some l →
          l ≤ line)
  ∧ (∀ e, Breakpoint.end_line (AnsibleLineBreakpoint.breakpoint b) = Some e →
          line ≤ e).

(** What the loop of [register_path_breakpoint] leaves of a stored entry,
    and the event it sends for it, when the resolution of its line gives
    [r]. *)
Definition reresolved (path : string) (T : list (option Z))
    (kb : Z * AnsibleLineBreakpoint.t) : Z * AnsibleLineBreakpoint.t :=
  if bool_decide (AnsibleLineBreakpoint.actual_path kb.2 ≠ path) then kb
  else
    match resolve T (SourceBreakpoint.line
                       (AnsibleLineBreakpoint.source_breakpoint kb.2)) with
    | Ok r =>
        if changed (AnsibleLineBreakpoint.breakpoint kb.2) r
        then (kb.1, with_breakpoint kb.2 (resolved_breakpoint kb.2 r))
        else kb
    | _ => kb
    end.

Definition changed_events (path : string) (T : list (option Z))
    (kb : Z * AnsibleLineBreakpoint.t) : list (option ProtocolMessage) :=
  if bool_decide (AnsibleLineBreakpoint.actual_path kb.2 ≠ path) then []
  else
    match resolve T (SourceBreakpoint.line
                       (AnsibleLineBreakpoint.source_breakpoint kb.2)) with
    | Ok r =>
        if changed (AnsibleLineBreakpoint.breakpoint kb.2) r
        then [Some (BreakpointEvent "changed" (resolved_breakpoint kb.2 r))]
        else []
    | _ => []
    end.

(** The response entry of the set-breakpoints handler for one requested
    line, when its resolution raises nothing. *)
Definition classified (msg : SetBreakpointsRequest)
    (source_info : option (list (option Z))) (bp_id : Z)
    (sb : SourceBreakpoint.t) : Breakpoint.t :=
  if source_modified msg then
    Breakpoint.mk bp_id false (Some modified_source) (req_source msg) None None
  else
    match source_info with
    | None | Some [] =>
        Breakpoint.mk bp_id false (Some not_loaded) (req_source msg)
          (Some (SourceBreakpoint.line sb)) None
    | Some T =>
        match resolve T (SourceBreakpoint.line sb) with
        | Ok r =>
            Breakpoint.mk bp_id (r_verified r) (r_msg r) (req_source msg)
              (Some (r_start r)) (Some (r_end r))
        | _ => Breakpoint.mk bp_id false None (req_source msg) None None
        end
    end.

Definition resolvable (source_info : option (list (option Z)))
    (sb : SourceBreakpoint.t) : Prop :=
  match source_info with
  | None | Some [] => True
  | Some T => ∃ r, resolve T (SourceBreakpoint.line sb) = Ok r
  end.

(** The client path and the runtime path of a request. *)
Definition request_source_path (msg : SetBreakpointsRequest) : string :=
  default EmptyString (Source.path (req_source msg)).

Definition request_actual_path (st : AnsibleDebugger)
    (msg : SetBreakpointsRequest) : string :=
  convert_to_actual_path (path_mappings (_debug_config st))
    (request_source_path msg).

(** Two entries of the dictionary are the same breakpoint object, up to the
    [dap.Breakpoint] it holds, which carries the object's id if it was
    rewritten. *)
Definition same_identity (kb kb' : Z * AnsibleLineBreakpoint.t) : Prop :=
  kb'.1 = kb.1
  ∧ AnsibleLineBreakpoint.id kb'.2 = AnsibleLineBreakpoint.id kb.2
  ∧ AnsibleLineBreakpoint.source_path kb'.2
    = AnsibleLineBreakpoint.source_path kb.2
  ∧ AnsibleLineBreakpoint.actual_path kb'.2
    = AnsibleLineBreakpoint.actual_path kb.2
  ∧ AnsibleLineBreakpoint.source_breakpoint kb'.2
    = AnsibleLineBreakpoint.source_breakpoint kb.2
  ∧ (AnsibleLineBreakpoint.breakpoint kb'.2
     = AnsibleLineBreakpoint.breakpoint kb.2
     ∨ Breakpoint.id (AnsibleLineBreakpoint.breakpoint kb'.2)
       = AnsibleLineBreakpoint.id kb.2).

(** The table that [register_path_breakpoint] writes for [path]: the old
    one extended with continuations up to [line], then [line] assigned (an
    assignment that raises leaves the extended table). *)
Definition extended (T : list (option Z)) (line : Z) : list (option Z) :=
  T ++ Py.repeat None (1 + line - Py.len T).

Definition registered (T : list (option Z)) (line bp_type : Z)
    : list (option Z) :=
  default (extended T line) (Py.setitem (extended T line) line (Some bp_type)).

(** The entry that the set-breakpoints handler stores for a requested line
    under the id [bp_id]. *)
Definition stored (msg : SetBreakpointsRequest)
    (source_info : option (list (option Z))) (source_path actual_path : string)
    (bp_id : Z) (sb : SourceBreakpoint.t) : Z * AnsibleLineBreakpoint.t :=
  (bp_id,
   AnsibleLineBreakpoint.mk bp_id (req_source msg) sb
     (classified msg source_info bp_id sb) actual_path source_path).

(** A new entry of the dictionary: its key is a fresh id between [lo] and
    [hi], the id of the entry and of its [dap.Breakpoint], and it belongs
    to the two paths of the request. *)
Definition fresh_entry (lo hi : Z) (source_path actual_path : string)
    (kb : Z * AnsibleLineBreakpoint.t) : Prop :=
  lo ≤ kb.1 < hi
  ∧ kb.1 = AnsibleLineBreakpoint.id kb.2
  ∧ Breakpoint.id (AnsibleLineBreakpoint.breakpoint kb.2) = kb.1
  ∧ AnsibleLineBreakpoint.source_path kb.2 = source_path
  ∧ AnsibleLineBreakpoint.actual_path kb.2 = actual_path.

(** The registrations of the example of the specification: line 0 invalid,
    line 3 the start of a valid range, line 5 invalid. *)
Definition example_registrations : list (Z * Z) := [(0, 0); (3, 1); (5, 0)].

Definition register_all (path : string) (regs : list (Z * Z)) : list op :=
  map (fun lk : Z * Z => OpRegister path lk.1 lk.2) regs.

Definition example_table : list (option Z) :=
  [Some 0; None; None; Some 1; None; Some 0].

(** A request of the client for the lines [lines] of the file [path]. *)
Definition request (path : string) (lines : list Z) (modified : bool)
    : SetBreakpointsRequest :=
  {| seq := 7;
     req_source := Source.mk None (Some path);
     req_breakpoints := map (fun l => SourceBreakpoint.mk l None) lines;
     source_modified := modified |}.

(** ** Further parts of the debuggee *)

(** [r] is the run of the table around slot [m]: it starts at a classified
    slot at or before [m], which decides the verified flag and the message,
    continues over continuation slots to its end at or after [m], and the
    slot after its end, if the table has one, is classified. *)
Definition is_run (T : list (option Z)) (m : Z) (r : Resolved) : Prop :=
  0 ≤ r_start r ≤ m
  ∧ m ≤ r_end r < Py.len T
  ∧ (∃ v, T !! Z.to_nat (r_start r) = Some (Some v)
          ∧ r_verified r = negb (v =? 0)
          ∧ r_msg r = (if v =? 0 then Some cannot_set_here else None))
  ∧ (∀ j, r_start r < j ≤ r_end r → T !! Z.to_nat j = Some None)
  ∧ (r_end r + 1 < Py.len T →
     ∃ w, T !! Z.to_nat (r_end r + 1) = Some (Some w)).

(** A message is the "changed" event of a breakpoint stored in [bps] for
    the runtime path [path], carrying the state that is stored. *)
Definition changed_event_of (path : string)
    (bps : list (Z * AnsibleLineBreakpoint.t))
    (m : option ProtocolMessage) : Prop :=
  ∃ k b,
    m = Some (BreakpointEvent "changed" (AnsibleLineBreakpoint.breakpoint b))
    ∧ (k, b) ∈ bps
    ∧ AnsibleLineBreakpoint.actual_path b = path
    ∧ Breakpoint.id (AnsibleLineBreakpoint.breakpoint b)
      = AnsibleLineBreakpoint.id b.

(** What a step of a run takes off the send queue and what it puts on
    it. *)
Definition dequeued (o : op) (st : AnsibleDebugger)
    : list (option ProtocolMessage) :=
  match o with
  | OpDequeue => take 1 (_send_queue st)
  | _ => []
  end.

Definition enqueued (o : op) (st : AnsibleDebugger)
    : list (option ProtocolMessage) :=
  match o with
  | OpDequeue | OpSessionEnd => []
  | _ => drop (length (_send_queue st)) (_send_queue (step o st))
  end.

Fixpoint trace (f : op → AnsibleDebugger → list (option ProtocolMessage))
    (ops : list op) (st : AnsibleDebugger) : list (option ProtocolMessage) :=
  match ops with
  | [] => []
  | o :: ops' => f o st ++ trace f ops' (step o st)
  end.

Definition is_session_end (o : op) : Prop :=
  match o with OpSessionEnd => True | _ => False end.

Definition is_connection_made (o : op) : Prop :=
  match o with OpConnectionMade => True | _ => False end.

(** The three id counters of [AnsibleDebugger] and their allocators
    [next_thread_id], [next_stackframe_id] and [next_variable_id]: each
    returns its counter and moves it forward. *)
Record IdCounters := {
  _thread_counter : Z;
  _stackframe_counter : Z;
  _variable_counter : Z;
}.

(** The counters as [AnsibleDebugger.__init__] sets them: 1 is always the
    main thread. *)
Definition init_counters : IdCounters :=
  {| _thread_counter := 2; _stackframe_counter := 1; _variable_counter := 1 |}.

Definition next_thread_id (c : IdCounters) : Z * IdCounters :=
  let tid := _thread_counter c in
  (tid, {| _thread_counter := _thread_counter c + 1;
           _stackframe_counter := _stackframe_counter c;
           _variable_counter := _variable_counter c |}).

Definition next_stackframe_id (c : IdCounters) : Z * IdCounters :=
  let sfid := _stackframe_counter c in
  (sfid, {| _thread_counter := _thread_counter c;
            _stackframe_counter := _stackframe_counter c + 1;
            _variable_counter := _variable_counter c |}).

Definition next_variable_id (c : IdCounters) : Z * IdCounters :=
  let vid := _variable_counter c in
  (vid, {| _thread_counter := _thread_counter c;
           _stackframe_counter := _stackframe_counter c;
           _variable_counter := _variable_counter c + 1 |}).

(** A sequence of calls of the allocators, in any interleaving, with the
    ids they return. *)
Inductive id_kind := ThreadId | StackFrameId | VariableId.

Global Instance id_kind_eq_dec : EqDecision id_kind.
Proof. solve_decision. Defined.

Definition next_id (k : id_kind) : IdCounters → Z * IdCounters :=
  match k with
  | ThreadId => next_thread_id
  | StackFrameId => next_stackframe_id
  | VariableId => next_variable_id
  end.

Definition counter_of (k : id_kind) (c : IdCounters) : Z :=
  match k with
  | ThreadId => _thread_counter c
  | StackFrameId => _stackframe_counter c
  | VariableId => _variable_counter c
  end.

Fixpoint allocate (calls : list id_kind) (c : IdCounters)
    : list (id_kind * Z) * IdCounters :=
  match calls with
  | [] => ([], c)
  | k :: calls' =>
      let (id, c1) := next_id k c in
      let (ids, c2) := allocate calls' c1 in
      ((k, id) :: ids, c2)
  end.

Definition ids_of (k : id_kind) (ids : list (id_kind * Z)) : list Z :=
  snd <$> filter (fun ki : id_kind * Z => ki.1 = k) ids.

(** Modelled from the spec: the output event of the [dap] codec, of which
    the handler reads the category and whether its data is a
    [DebugConfiguration]. *)
Inductive OutputData :=
| DataDebugConfiguration (c : DebugConfiguration)
| DataOther.

Record OutputEvent := {
  category : string;
  data : OutputData;
}.

(** [DebugConfiguration.OUTPUT_CATEGORY] *)
Definition OUTPUT_CATEGORY : string := "ansibug_debug_configuration".

(** [isinstance(msg.data, DebugConfiguration)] *)
Definition is_debug_configuration (d : OutputData) : bool :=
  match d with DataDebugConfiguration _ => true | DataOther => false end.

(** [AnsibleDebugger.process_message] for an [OutputEvent]. *)
Definition process_output_event (msg : OutputEvent) : M unit := fun st =>
  if bool_decide (category msg ≠ OUTPUT_CATEGORY)
     || negb (is_debug_configuration (data msg))
  then (Ok tt, st)
  else
    match data msg with
    | DataDebugConfiguration c => (Ok tt, with_debug_config st c)
    | DataOther => (Ok tt, st)
    end.

(** The configuration that an output event carries, if the handler takes
    it. *)
Definition accepted (msg : OutputEvent) : option DebugConfiguration :=
  match data msg with
  | DataDebugConfiguration c =>
      if bool_decide (category msg = OUTPUT_CATEGORY) then Some c else None
  | DataOther => None
  end.
(** * Properties *)

(** ** Python indexing *)

Lemma getitem_nonneg {A} (l : list A) (i : Z) :
  0 ≤ i → Py.getitem l i = l !! Z.to_nat i.
Proof.
  intros Hi. unfold Py.getitem.
  destruct (Z.leb_spec 0 i); [done | lia].
Qed.

Lemma getitem_Some_range {A} (l : list A) (i : Z) (x : A) :
  Py.getitem l i = Some x → - Py.len l ≤ i < Py.len l.
Proof.
  unfold Py.getitem, Py.len.
  destruct (Z.leb_spec 0 i).
  - intros Hx%lookup_lt_Some. lia.
  - destruct (Z.leb_spec (- Z.of_nat (length l)) i); [lia | done].
Qed.

Lemma setitem_nonneg {A} (l : list A) (i : Z) (x : A) :
  0 ≤ i < Py.len l → Py.setitem l i x = Some (<[Z.to_nat i := x]> l).
Proof.
  intros Hi. unfold Py.setitem.
  destruct (Z.leb_spec 0 i); [| lia].
  destruct (Z.ltb_spec i (Py.len l)); [done | lia].
Qed.

(** An item assignment writes one slot of the list and keeps its length. *)
Lemma setitem_Some {A} (l l' : list A) (i : Z) (x : A) :
  Py.setitem l i x = Some l' →
  ∃ n : nat, (n < length l)%nat ∧ l' = <[n := x]> l
             ∧ (0 ≤ i → n = Z.to_nat i).
Proof.
  unfold Py.setitem, Py.len.
  destruct (Z.leb_spec 0 i).
  - destruct (Z.ltb_spec i (Z.of_nat (length l))); [| done].
    intros [= <-]. exists (Z.to_nat i). split_and!; [lia | done | done].
  - destruct (Z.leb_spec (- Z.of_nat (length l)) i); [| done].
    intros [= <-]. exists (Z.to_nat (Z.of_nat (length l) + i)).
    split_and!; [lia | done | lia].
Qed.

(** ** The loops of the resolution end *)

Lemma scan_back_fuel (T : list (option Z)) (fuel : nat) :
  ∀ start_line line_type,
    - Py.len T ≤ start_line →
    (Z.to_nat (start_line + Py.len T) < fuel)%nat →
    scan_back fuel T start_line line_type ≠ OutOfFuel.
Proof.
  induction fuel as [| fuel IH]; intros start_line line_type Hlo Hfuel.
  - lia.
  - destruct line_type as [v |]; simpl; [done |].
    destruct (Py.getitem T (start_line - 1)) as [lt' |] eqn:Hget; [| done].
    apply getitem_Some_range in Hget. apply IH; lia.
Qed.

Lemma scan_fwd_fuel (T : list (option Z)) (fuel : nat) :
  ∀ end_line,
    (Z.to_nat (Py.len T - end_line) ≤ fuel)%nat →
    scan_fwd fuel T end_line ≠ OutOfFuel.
Proof.
  induction fuel as [| fuel IH]; intros end_line Hfuel; simpl;
    destruct (Z.ltb_spec end_line (Py.len T)); try done;
    destruct (Py.getitem T end_line) as [[v |] |]; try done.
  - lia.
  - apply IH. lia.
Qed.

(** Every call of the resolution comes back: with a range or with Python's
    [IndexError], never cut short by the fuel of the model. *)
Lemma resolve_terminates (T : list (option Z)) (line : Z) :
  resolve T line ≠ OutOfFuel.
Proof.
  unfold resolve.
  destruct (Py.getitem T _) as [line_type |] eqn:Hget; [| done].
  apply getitem_Some_range in Hget.
  pose proof (scan_back_fuel T (S (2 * length T))
                (Z.min line (Py.len T - 1)) line_type) as Hb.
  destruct (scan_back _ T _ line_type) as [[s v] | e |]; try done.
  - pose proof (scan_fwd_fuel T (S (2 * length T))
                  (Z.min line (Py.len T - 1) + 1)) as Hf.
    destruct (scan_fwd _ T _) as [e' | e |]; try done.
    + by destruct (v =? 0).
    + exfalso. apply Hf; [| done]. unfold Py.len in *. lia.
  - exfalso. apply Hb; [lia | | done]. unfold Py.len in *. lia.
Qed.

(** ** Tables whose slot 0 is classified *)

Lemma table_ok_len (T : list (option Z)) : table_ok T → 1 ≤ Py.len T.
Proof. intros (v & rest & ->). unfold Py.len. simpl. lia. Qed.

Lemma table_ok_app (T T' : list (option Z)) : table_ok T → table_ok (T ++ T').
Proof. intros (v & rest & ->). by exists v, (rest ++ T'). Qed.

Lemma table_ok_insert (T : list (option Z)) (n : nat) (v : Z) :
  table_ok T → table_ok (<[n := Some v]> T).
Proof.
  intros (v0 & rest & ->). destruct n as [| n]; simpl.
  - by exists v, rest.
  - by exists v0, (<[n := Some v]> rest).
Qed.

(** The backward scan from a slot of the table stops at the nearest
    classified slot at or before it, at the latest at slot 0. *)
Lemma scan_back_ok (T : list (option Z)) (fuel : nat) :
  table_ok T →
  ∀ start_line line_type,
    0 ≤ start_line →
    (Z.to_nat start_line ≤ fuel)%nat →
    T !! Z.to_nat start_line = Some line_type →
    ∃ s v,
      scan_back fuel T start_line line_type = Ok (s, v)
      ∧ 0 ≤ s ≤ start_line
      ∧ T !! Z.to_nat s = Some (Some v)
      ∧ ∀ j, s < j ≤ start_line → T !! Z.to_nat j = Some None.
Proof.
  intros HT.
  induction fuel as [| fuel IH]; intros start_line line_type Hlo Hfuel Hget.
  - assert (start_line = 0) as -> by lia.
    destruct HT as (v0 & rest & ->). simpl in Hget. injection Hget as <-.
    exists 0, v0. simpl. split_and!; [done | lia | lia | done | lia].
  - destruct line_type as [v |]; simpl.
    { exists start_line, v. split_and!; [done | lia | lia | done | lia]. }
    assert (start_line ≠ 0) as Hne.
    { intros ->. destruct HT as (v0 & rest & ->). done. }
    rewrite getitem_nonneg by lia.
    destruct (T !! Z.to_nat (start_line - 1)) as [lt' |] eqn:Hget'.
    2:{ apply lookup_ge_None in Hget'. apply lookup_lt_Some in Hget. lia. }
    destruct (IH (start_line - 1) lt') as (s & v & Hs & Hr & Hv & Hnone);
      [lia | lia | done |].
    exists s, v. split_and!; [done | lia | lia | done |].
    intros j Hj. destruct (decide (j = start_line)) as [-> | Hj'];
      [done | apply Hnone; lia].
Qed.

(** The forward scan from a slot stops at the next classified slot, or at
    the end of the table. *)
Lemma scan_fwd_ok (T : list (option Z)) (fuel : nat) :
  ∀ end_line,
    0 ≤ end_line →
    (Z.to_nat (Py.len T - end_line) ≤ fuel)%nat →
    ∃ e,
      scan_fwd fuel T end_line = Ok e
      ∧ end_line ≤ e
      ∧ (end_line ≤ Py.len T → e ≤ Py.len T)
      ∧ (∀ j, end_line ≤ j < e → T !! Z.to_nat j = Some None)
      ∧ (e < Py.len T → ∃ v, T !! Z.to_nat e = Some (Some v)).
Proof.
  induction fuel as [| fuel IH]; intros end_line Hlo Hfuel; simpl;
    destruct (Z.ltb_spec end_line (Py.len T)) as [Hlt | Hge];
    try (exists end_line; split_and!; [done | lia | lia | lia | lia]).
  - lia.
  - rewrite getitem_nonneg by lia.
    destruct (T !! Z.to_nat end_line) as [[v |] |] eqn:Hget.
    + exists end_line. split_and!; [done | lia | lia | lia | by exists v].
    + destruct (IH (end_line + 1)) as (e & He & Hle & Hlen & Hnone & Hcl);
        [lia | lia |].
      exists e. split_and!; [done | lia | lia | | done].
      intros j Hj. destruct (decide (j = end_line)) as [-> | Hj'];
        [done | apply Hnone; lia].
    + apply lookup_ge_None in Hget. unfold Py.len in Hlt. lia.
Qed.

(** What the resolution yields on a table with slot 0 classified, for a
    line that is not negative: the run of the table around the line
    (clamped to the last slot), from its classified slot to the slot before
    the next classified one. *)
Lemma resolve_ok (T : list (option Z)) (line : Z) :
  table_ok T → 0 ≤ line →
  ∃ r v,
    resolve T line = Ok r
    ∧ 0 ≤ r_start r ≤ Z.min line (Py.len T - 1)
    ∧ Z.min line (Py.len T - 1) ≤ r_end r < Py.len T
    ∧ T !! Z.to_nat (r_start r) = Some (Some v)
    ∧ r_verified r = negb (v =? 0)
    ∧ r_msg r = (if v =? 0 then Some cannot_set_here else None)
    ∧ (∀ j, r_start r < j ≤ r_end r → T !! Z.to_nat j = Some None)
    ∧ (r_end r + 1 < Py.len T →
       ∃ w, T !! Z.to_nat (r_end r + 1) = Some (Some w)).
Proof.
  intros HT Hline. pose proof (table_ok_len T HT) as Hlen.
  unfold resolve. set (start0 := Z.min line (Py.len T - 1)).
  assert (0 ≤ start0 < Py.len T) as Hs0 by (subst start0; lia).
  rewrite getitem_nonneg by lia.
  destruct (T !! Z.to_nat start0) as [line_type |] eqn:Hget.
  2:{ apply lookup_ge_None in Hget. unfold Py.len in Hs0. lia. }
  destruct (scan_back_ok T (S (2 * length T)) HT start0 line_type)
    as (s & v & -> & Hsr & Hsv & Hsnone); [lia | | done |].
  { unfold Py.len in Hs0. lia. }
  destruct (scan_fwd_ok T (S (2 * length T)) (start0 + 1))
    as (e & -> & Hle & Helen & Henone & Hecl); [lia | |].
  { unfold Py.len in *. lia. }
  specialize (Helen ltac:(lia)).
  replace (Z.min (e - 1) (Py.len T)) with (e - 1) by lia.
  assert (∀ j, s < j ≤ e - 1 → T !! Z.to_nat j = Some None) as Hrun.
  { intros j Hj. destruct (decide (j ≤ start0));
      [apply Hsnone | apply Henone]; lia. }
  assert (e - 1 + 1 < Py.len T → ∃ w, T !! Z.to_nat (e - 1 + 1) = Some (Some w))
    as Hnext.
  { replace (e - 1 + 1) with e by lia. done. }
  destruct (v =? 0) eqn:Hv; eexists _, v; (split; [reflexivity |]);
    cbn [r_start r_end r_verified r_msg]; rewrite ?Hv;
    (split_and!; [lia | lia | lia | lia | done | done | done | done | done]).
Qed.

(** ** The loop of [register_path_breakpoint] *)

Lemma insert_at_length {A} (l1 l2 : list A) (x y : A) :
  <[length l1 := y]> (l1 ++ x :: l2) = l1 ++ y :: l2.
Proof.
  rewrite insert_app_r_alt by lia. by rewrite Nat.sub_diag.
Qed.

Lemma length_snoc {A} (l : list A) (x : A) : length (l ++ [x]) = S (length l).
Proof. rewrite length_app. simpl. lia. Qed.

(** When the resolution of every breakpoint of the path raises nothing, the
    loop rewrites the stored breakpoints in place and sends the events of
    those that changed, in the order of the dictionary. *)
Lemma reresolve_loop_ok (path : string) (T : list (option Z))
    (todo : list (Z * AnsibleLineBreakpoint.t)) :
  ∀ (before : list (Z * AnsibleLineBreakpoint.t)) (st : AnsibleDebugger),
    _breakpoints st = before ++ todo →
    Forall (fun kb : Z * AnsibleLineBreakpoint.t =>
              AnsibleLineBreakpoint.actual_path kb.2 = path →
              ∃ r, resolve T (SourceBreakpoint.line
                     (AnsibleLineBreakpoint.source_breakpoint kb.2)) = Ok r)
      todo →
    ∃ st',
      reresolve_loop path T (length before) todo st = (Ok tt, st')
      ∧ _breakpoints st' = before ++ map (reresolved path T) todo
      ∧ _send_queue st'
        = _send_queue st
          ++ (if _send_queue_active st
              then flat_map (changed_events path T) todo else [])
      ∧ _send_queue_active st' = _send_queue_active st
      ∧ _breakpoint_counter st' = _breakpoint_counter st
      ∧ _source_info st' = _source_info st
      ∧ _debug_config st' = _debug_config st.
Proof.
  induction todo as [| [k b] rest IH]; intros before st Hbps Hres.
  - exists st. simpl. rewrite Hbps.
    destruct (_send_queue_active st); rewrite !app_nil_r; done.
  - apply Forall_cons in Hres as [Hb Hrest]. simpl in Hb.
    cbn [reresolve_loop map flat_map].
    unfold reresolved at 1, changed_events at 1. cbn [fst snd].
    case_bool_decide as Hpath.
    + destruct (IH (before ++ [(k, b)]) st) as (st' & Hrun & Hb' & Hq & Hrem);
        [by rewrite <- app_assoc | done |].
      rewrite length_snoc in Hrun. exists st'.
      rewrite <- app_assoc in Hb'. done.
    + destruct Hb as [r Hr]; [by destruct (decide
        (AnsibleLineBreakpoint.actual_path b = path)) |].
      rewrite Hr. unfold bind at 1, lift. cbn beta iota.
      destruct (changed (AnsibleLineBreakpoint.breakpoint b) r) eqn:Hch.
      * set (b' := with_breakpoint b (resolved_breakpoint b r)).
        set (st1 := with_breakpoints st (before ++ (k, b') :: rest)).
        set (ev := Some (BreakpointEvent "changed" (resolved_breakpoint b r))).
        set (st2 := if _send_queue_active st
                    then with_send_queue st1 (_send_queue st ++ [ev]) true
                    else st1).
        destruct (IH (before ++ [(k, b')]) st2)
          as (st' & Hrun & Hb' & Hq & Hact & Hrem); [| done |].
        { subst st2 st1. rewrite <- app_assoc.
          by destruct (_send_queue_active st). }
        rewrite length_snoc in Hrun. exists st'.
        split.
        { rewrite <- Hrun. unfold bind, modify, send. cbn beta iota.
          rewrite Hbps, insert_at_length. fold b'. fold st1.
          subst st2. cbn [_send_queue_active with_breakpoints st1].
          by destruct (_send_queue_active st). }
        rewrite <- app_assoc in Hb'. split; [done |].
        subst st2 st1. destruct (_send_queue_active st) eqn:Hactive;
          cbn in Hq, Hact, Hrem; rewrite ?Hactive in *.
        -- rewrite Hq, <- app_assoc. done.
        -- done.
      * destruct (IH (before ++ [(k, b)]) st) as (st' & Hrun & Hb' & Hq & Hrem);
          [by rewrite <- app_assoc | done |].
        rewrite length_snoc in Hrun. exists st'.
        rewrite <- app_assoc in Hb'. split; [| done].
        rewrite <- Hrun. unfold bind, ret. done.
Qed.

Lemma same_identity_refl (kb : Z * AnsibleLineBreakpoint.t) :
  same_identity kb kb.
Proof. unfold same_identity. split_and!; auto. Qed.

Lemma same_identity_all_refl (l : list (Z * AnsibleLineBreakpoint.t)) :
  Forall2 same_identity l l.
Proof. induction l; constructor; auto using same_identity_refl. Qed.

(** However the loop ends, it leaves every entry of the dictionary in its
    place, touches nothing but the [dap.Breakpoint] of an entry and the
    send queue, and is not cut short. *)
Lemma reresolve_loop_frame (path : string) (T : list (option Z))
    (todo : list (Z * AnsibleLineBreakpoint.t)) :
  ∀ (before : list (Z * AnsibleLineBreakpoint.t)) (st st' : AnsibleDebugger)
    (out : outcome unit),
    _breakpoints st = before ++ todo →
    reresolve_loop path T (length before) todo st = (out, st') →
    out ≠ OutOfFuel
    ∧ (∃ todo', _breakpoints st' = before ++ todo'
                ∧ Forall2 same_identity todo todo')
    ∧ _send_queue_active st' = _send_queue_active st
    ∧ _breakpoint_counter st' = _breakpoint_counter st
    ∧ _source_info st' = _source_info st
    ∧ _debug_config st' = _debug_config st.
Proof.
  induction todo as [| [k b] rest IH]; intros before st st' out Hbps Hrun.
  - simpl in Hrun. injection Hrun as <- <-. split; [done |].
    split; [| done]. exists []. split; [done | constructor].
  - cbn [reresolve_loop] in Hrun.
    assert (∀ b' st1,
      _breakpoints st1 = before ++ (k, b') :: rest →
      same_identity (k, b) (k, b') →
      _send_queue_active st1 = _send_queue_active st →
      _breakpoint_counter st1 = _breakpoint_counter st →
      _source_info st1 = _source_info st →
      _debug_config st1 = _debug_config st →
      reresolve_loop path T (S (length before)) rest st1 = (out, st') →
      out ≠ OutOfFuel
      ∧ (∃ todo', _breakpoints st' = before ++ todo'
                  ∧ Forall2 same_identity ((k, b) :: rest) todo')
      ∧ _send_queue_active st' = _send_queue_active st
      ∧ _breakpoint_counter st' = _breakpoint_counter st
      ∧ _source_info st' = _source_info st
      ∧ _debug_config st' = _debug_config st) as Hnext.
    { intros b' st1 Hb1 Hsame Ha Hc Hs Hd Hrun1.
      rewrite <- length_snoc with (x := (k, b')) in Hrun1.
      apply IH in Hrun1 as (Hout & (todo' & Hb' & Hall) & Ha' & Hc' & Hs' & Hd');
        [| by rewrite <- app_assoc].
      split; [done |]. split.
      - exists ((k, b') :: todo'). rewrite <- app_assoc in Hb'.
        split; [done | by constructor].
      - split_and!; congruence. }
    case_bool_decide as Hpath.
    + eapply Hnext; eauto using same_identity_refl.
    + unfold bind at 1, lift in Hrun.
      pose proof (resolve_terminates T (SourceBreakpoint.line
                    (AnsibleLineBreakpoint.source_breakpoint b))) as Hterm.
      destruct (resolve T _) as [r | e |]; [| | done].
      2:{ injection Hrun as <- <-. split; [done |]. split; [| done].
          exists ((k, b) :: rest). split; [done |].
          apply same_identity_all_refl. }
      destruct (changed (AnsibleLineBreakpoint.breakpoint b) r).
      * unfold bind, modify, send in Hrun. cbn beta iota in Hrun.
        rewrite Hbps, insert_at_length in Hrun.
        cbn [_send_queue_active with_breakpoints] in Hrun.
        destruct (_send_queue_active st) eqn:Hactive;
          (eapply Hnext; [| | | | | | exact Hrun]; try done;
           unfold same_identity; cbn; split_and!; auto).
      * unfold bind, ret in Hrun. cbn beta iota in Hrun.
        eapply Hnext; eauto using same_identity_refl.
Qed.

(** ** [register_path_breakpoint] *)

(** The call writes the table of its path, whatever happens in its loop,
    and keeps the other tables, the counter, the configuration and the
    identity of the stored breakpoints. *)
Lemma register_frame (path : string) (line bp_type : Z)
    (st st' : AnsibleDebugger) (out : outcome unit) :
  register_path_breakpoint path line bp_type st = (out, st') →
  out ≠ OutOfFuel
  ∧ _source_info st'
    = <[path := registered (table_of st path) line bp_type]> (_source_info st)
  ∧ Forall2 same_identity (_breakpoints st) (_breakpoints st')
  ∧ _send_queue_active st' = _send_queue_active st
  ∧ _breakpoint_counter st' = _breakpoint_counter st
  ∧ _debug_config st' = _debug_config st.
Proof.
  unfold register_path_breakpoint, registered, extended, table_of.
  destruct (Py.setitem _ line (Some bp_type)) as [T' |] eqn:Hset; simpl.
  - intros Hrun.
    apply (reresolve_loop_frame path T' _ []) in Hrun
      as (Hout & (todo' & Hb & Hall) & Ha & Hc & Hs & Hd); [| done].
    simpl in Hb. rewrite Hb. done.
  - intros [= <- <-]. simpl. split_and!; try done.
    apply same_identity_all_refl.
Qed.

Lemma same_identity_keys (l l' : list (Z * AnsibleLineBreakpoint.t)) :
  Forall2 same_identity l l' → l'.*1 = l.*1.
Proof.
  induction 1 as [| kb kb' l l' Hkb _ IH]; [done |].
  rewrite !fmap_cons. destruct Hkb as [-> _]. by rewrite IH.
Qed.

Lemma registered_ok (T : list (option Z)) (line bp_type : Z) :
  table_ok T → table_ok (registered T line bp_type).
Proof.
  intros HT. unfold registered.
  pose proof (table_ok_app T (Py.repeat None (1 + line - Py.len T)) HT) as Hext.
  fold (extended T line) in Hext.
  destruct (Py.setitem _ line _) as [T' |] eqn:Hset; simpl; [| done].
  apply setitem_Some in Hset as (n & _ & -> & _).
  by apply table_ok_insert.
Qed.

Lemma table_of_ok (lo hi : Z) (st : AnsibleDebugger) (path : string) :
  inv lo hi st → table_ok (table_of st path).
Proof.
  intros Hinv. unfold table_of.
  destruct (_source_info st !! path) as [T |] eqn:HT; simpl.
  - by eapply inv_tables.
  - by exists 0, [].
Qed.

Lemma register_inv (lo hi : Z) (path : string) (line bp_type : Z)
    (st : AnsibleDebugger) :
  inv lo hi st →
  inv lo hi (register_path_breakpoint path line bp_type st).2.
Proof.
  intros Hinv.
  destruct (register_path_breakpoint path line bp_type st) as [out st'] eqn:Hrun.
  apply register_frame in Hrun as (_ & Hs & Hall & _ & Hc & _). cbn [snd].
  split.
  - intros p T. rewrite Hs. intros HT.
    destruct (decide (p = path)) as [-> | Hne].
    + rewrite lookup_insert_eq in HT. injection HT as <-.
      eapply registered_ok, table_of_ok, Hinv.
    + rewrite lookup_insert_ne in HT by done. by eapply inv_tables.
  - rewrite Hc. apply Hinv.
  - rewrite Hc. pose proof (inv_keys _ _ _ Hinv) as Hkeys.
    induction Hall as [| kb kb' l l' Hkb _ IH]; [constructor |].
    apply Forall_cons in Hkeys as [Hk Hkeys].
    constructor; [| by apply IH].
    destruct Hkb as (H1 & H2 & _ & _ & _ & H3).
    destruct Hk as (K1 & K2 & K3 & K4).
    rewrite H1, H2. split_and!; try done.
    destruct H3 as [-> | ->]; congruence.
  - rewrite (same_identity_keys _ _ Hall). apply Hinv.
Qed.

(** ** The loop of the set-breakpoints handler *)

Lemma dict_set_fresh {V} (d : list (Z * V)) (k : Z) (v : V) :
  Forall (fun kv => kv.1 < k) d → Py.dict_set d k v = d ++ [(k, v)].
Proof.
  induction 1 as [| [k' v'] d Hk _ IH]; [done |].
  simpl in *. destruct (Z.eqb_spec k' k); [lia |]. by rewrite IH.
Qed.

Lemma fresh_entry_mono (lo lo' hi : Z) (sp ap : string)
    (l : list (Z * AnsibleLineBreakpoint.t)) :
  lo' ≤ lo → Forall (fresh_entry lo hi sp ap) l →
  Forall (fresh_entry lo' hi sp ap) l.
Proof.
  intros Hlo Hall. eapply Forall_impl; [exact Hall |].
  intros kb (H1 & H2). split; [lia | done].
Qed.

(** However the loop ends, it only appends entries with fresh ids to the
    dictionary and moves the counter forward. *)
Lemma set_breakpoints_loop_frame (msg : SetBreakpointsRequest)
    (sp ap : string) (si : option (list (option Z)))
    (todo : list SourceBreakpoint.t) :
  ∀ (info : list Breakpoint.t) (st st' : AnsibleDebugger)
    (out : outcome (list Breakpoint.t)),
    Forall (fun kb => kb.1 < _breakpoint_counter st) (_breakpoints st) →
    set_breakpoints_loop msg sp ap si todo info st = (out, st') →
    out ≠ OutOfFuel
    ∧ _breakpoint_counter st ≤ _breakpoint_counter st'
    ∧ (∃ added,
         _breakpoints st' = _breakpoints st ++ added
         ∧ Forall (fresh_entry (_breakpoint_counter st)
                     (_breakpoint_counter st') sp ap) added
         ∧ NoDup added.*1)
    ∧ _send_queue st' = _send_queue st
    ∧ _send_queue_active st' = _send_queue_active st
    ∧ _source_info st' = _source_info st
    ∧ _debug_config st' = _debug_config st.
Proof.
  induction todo as [| sb rest IH]; intros info st st' out Hkeys Hrun.
  - simpl in Hrun. injection Hrun as <- <-.
    split; [done |]. split; [lia |]. split; [| done].
    exists []. rewrite app_nil_r. split_and!; [done | constructor | constructor].
  - cbn [set_breakpoints_loop] in Hrun.
    unfold bind at 1 2, get, modify in Hrun. cbn beta iota in Hrun.
    set (c := _breakpoint_counter st) in *.
    set (st1 := with_breakpoint_counter st (c + 1)) in *.
    assert (out ≠ OutOfFuel
            ∧ c + 1 ≤ _breakpoint_counter st'
            ∧ (∃ added,
                 _breakpoints st' = _breakpoints st ++ added
                 ∧ Forall (fresh_entry c (_breakpoint_counter st') sp ap) added
                 ∧ NoDup added.*1)
            ∧ _send_queue st' = _send_queue st
            ∧ _send_queue_active st' = _send_queue_active st
            ∧ _source_info st' = _source_info st
            ∧ _debug_config st' = _debug_config st) as Hgoal.
    2:{ destruct Hgoal as (? & ? & ? & ? & ? & ? & ?).
        split_and!; try done. lia. }
    assert (∀ bp info',
      Breakpoint.id bp = c →
      set_breakpoints_loop msg sp ap si rest info'
        (with_breakpoints st1
           (Py.dict_set (_breakpoints st1) c
              (AnsibleLineBreakpoint.mk c (req_source msg) sb bp ap sp)))
      = (out, st') →
      out ≠ OutOfFuel
      ∧ c + 1 ≤ _breakpoint_counter st'
      ∧ (∃ added,
           _breakpoints st' = _breakpoints st ++ added
           ∧ Forall (fresh_entry c (_breakpoint_counter st') sp ap) added
           ∧ NoDup added.*1)
      ∧ _send_queue st' = _send_queue st
      ∧ _send_queue_active st' = _send_queue_active st
      ∧ _source_info st' = _source_info st
      ∧ _debug_config st' = _debug_config st) as Hstore.
    { intros bp info' Hid Hrun'.
      cbn [_breakpoints st1 with_breakpoint_counter] in Hrun'.
      rewrite dict_set_fresh in Hrun' by done.
      apply IH in Hrun' as (Hout & Hc & (added & Hb & Hfresh & Hnd) & Hrest).
      2:{ cbn. apply Forall_app. split.
          - eapply Forall_impl; [exact Hkeys |]. cbn. fold c. lia.
          - repeat constructor. cbn. lia. }
      cbn in Hc, Hb, Hfresh.
      split; [done |]. split; [done |]. split; [| done].
      eexists (_ :: added). rewrite <- app_assoc in Hb. split; [exact Hb |].
      split.
      - constructor.
        + unfold fresh_entry. cbn. split_and!; try done; lia.
        + eapply fresh_entry_mono; [| exact Hfresh]. lia.
      - rewrite fmap_cons. constructor; [| done]. cbn.
        intros Hin. apply list_elem_of_fmap in Hin as (kb & -> & Hin).
        eapply Forall_forall in Hfresh; [| exact Hin].
        destruct Hfresh as [? _]. lia. }
    destruct (source_modified msg).
    + apply IH in Hrun as (Hout & Hc & (added & Hb & Hfresh & Hnd) & Hrest).
      2:{ cbn. eapply Forall_impl; [exact Hkeys |]. cbn. fold c. lia. }
      cbn in Hc, Hb, Hfresh. split; [done |]. split; [done |].
      split; [| done]. exists added. split_and!; try done.
      eapply fresh_entry_mono; [| exact Hfresh]. lia.
    + unfold bind at 1 in Hrun.
      destruct si as [[| x T] |].
      * unfold ret at 1 in Hrun. unfold bind, modify in Hrun.
        cbn beta iota in Hrun. eapply Hstore; [| exact Hrun]. done.
      * unfold bind at 1, lift in Hrun.
        pose proof (resolve_terminates (x :: T) (SourceBreakpoint.line sb))
          as Hterm.
        destruct (resolve (x :: T) _) as [r | e |]; [| | done].
        -- unfold ret at 1 in Hrun. unfold bind, modify in Hrun.
           cbn beta iota in Hrun. eapply Hstore; [| exact Hrun]. done.
        -- injection Hrun as <- <-. cbn. fold c.
           split; [done |]. split; [lia |]. split; [| done].
           exists []. rewrite app_nil_r.
           split_and!; [done | constructor | constructor].
      * unfold ret at 1 in Hrun. unfold bind, modify in Hrun.
        cbn beta iota in Hrun. eapply Hstore; [| exact Hrun]. done.
Qed.

Lemma imap_shift {A B} (g : Z → A → B) (c : Z) (x : A) (l : list A) :
  imap (fun i : nat => g (c + Z.of_nat i)) (x :: l)
  = g c x :: imap (fun i : nat => g (c + 1 + Z.of_nat i)) l.
Proof.
  rewrite imap_cons. f_equal.
  - f_equal. lia.
  - apply imap_ext. intros i y _. simpl. f_equal. lia.
Qed.

(** When no resolution raises, the loop answers every requested line with
    its classification under the next id, in the order of the request, and
    stores the entries unless the source is modified. *)
Lemma set_breakpoints_loop_ok (msg : SetBreakpointsRequest)
    (sp ap : string) (si : option (list (option Z)))
    (todo : list SourceBreakpoint.t) :
  ∀ (info : list Breakpoint.t) (st : AnsibleDebugger),
    Forall (fun kb => kb.1 < _breakpoint_counter st) (_breakpoints st) →
    (source_modified msg = false → Forall (resolvable si) todo) →
    ∃ st',
      set_breakpoints_loop msg sp ap si todo info st
      = (Ok (info
             ++ imap (fun i : nat =>
                        classified msg si (_breakpoint_counter st + Z.of_nat i))
                  todo),
         st')
      ∧ _breakpoint_counter st'
        = _breakpoint_counter st + Z.of_nat (length todo)
      ∧ _breakpoints st'
        = _breakpoints st
          ++ (if source_modified msg then []
              else imap (fun i : nat =>
                           stored msg si sp ap
                             (_breakpoint_counter st + Z.of_nat i))
                     todo)
      ∧ _send_queue st' = _send_queue st
      ∧ _send_queue_active st' = _send_queue_active st
      ∧ _source_info st' = _source_info st
      ∧ _debug_config st' = _debug_config st.
Proof.
  induction todo as [| sb rest IH]; intros info st Hkeys Hres.
  - exists st. simpl. rewrite !app_nil_r.
    destruct (source_modified msg); rewrite ?app_nil_r;
      split_and!; try done; lia.
  - cbn [set_breakpoints_loop].
    unfold bind at 1 2, get, modify. cbn beta iota.
    set (c := _breakpoint_counter st) in *.
    set (st1 := with_breakpoint_counter st (c + 1)).
    rewrite !imap_shift.
    assert (Z.of_nat (length (sb :: rest)) = 1 + Z.of_nat (length rest))
      as -> by (simpl; lia).
    destruct (source_modified msg) eqn:Hmod.
    + assert (classified msg si c sb
              = Breakpoint.mk c false (Some modified_source) (req_source msg)
                  None None) as Hcl
        by (unfold classified; by rewrite Hmod).
      destruct (IH (info ++ [classified msg si c sb]) st1)
        as (st' & Hrun & Hc & Hb & Hrest); [| done |].
      { cbn. eapply Forall_impl; [exact Hkeys |]. cbn. fold c. lia. }
      exists st'. cbn in Hrun, Hc, Hb.
      rewrite <- app_assoc in Hrun. cbn [app] in Hrun.
      rewrite Hcl in Hrun. rewrite Hcl.
      split; [exact Hrun |]. split; [lia |]. done.
    + specialize (Hres eq_refl). apply Forall_cons in Hres as [Hsb Hres].
      set (st2 := with_breakpoints st1
                    (_breakpoints st ++ [stored msg si sp ap c sb])).
      destruct (IH (info ++ [classified msg si c sb]) st2)
        as (st' & Hrun & Hc & Hb & Hrest); [| done |].
      { cbn. apply Forall_app. split.
        - eapply Forall_impl; [exact Hkeys |]. cbn. fold c. lia.
        - repeat constructor. cbn. lia. }
      exists st'. cbn in Hc, Hb. rewrite <- app_assoc in Hb.
      split; [| split; [lia | done]].
      change (_breakpoint_counter st2) with (c + 1) in Hrun.
      rewrite <- app_assoc in Hrun. cbn [app] in Hrun. rewrite <- Hrun.
      assert (∀ bp, classified msg si c sb = bp →
        bind (modify (fun st =>
                with_breakpoints st
                  (Py.dict_set (_breakpoints st) c
                     (AnsibleLineBreakpoint.mk c (req_source msg) sb bp ap sp))))
          (fun _ => set_breakpoints_loop msg sp ap si rest (info ++ [bp])) st1
        = set_breakpoints_loop msg sp ap si rest
            (info ++ [classified msg si c sb]) st2) as Hstore.
      { intros bp <-. unfold bind, modify. cbn beta iota.
        cbn [_breakpoints st1 with_breakpoint_counter].
        by rewrite dict_set_fresh. }
      unfold bind at 1. unfold classified, resolvable in *.
      rewrite Hmod in *.
      destruct si as [[| x T] |].
      * unfold ret at 1. by apply Hstore.
      * destruct Hsb as [r Hr]. unfold bind at 1, lift. rewrite Hr in *.
        unfold ret at 1. by apply Hstore.
      * unfold ret at 1. by apply Hstore.
Qed.

(** ** The set-breakpoints handler *)

(** However the handler ends, the dictionary it leaves is the old one
    without the entries of the client path of the request, followed by
    entries with fresh ids. *)
Lemma set_breakpoints_frame (msg : SetBreakpointsRequest)
    (st st' : AnsibleDebugger) (out : outcome ProtocolMessage) :
  Forall (fun kb => kb.1 < _breakpoint_counter st) (_breakpoints st) →
  set_breakpoints msg st = (out, st') →
  out ≠ OutOfFuel
  ∧ _breakpoint_counter st ≤ _breakpoint_counter st'
  ∧ (∃ added,
       _breakpoints st'
       = filter (fun kb : Z * AnsibleLineBreakpoint.t =>
                   AnsibleLineBreakpoint.source_path kb.2
                   ≠ request_source_path msg)
           (_breakpoints st) ++ added
       ∧ Forall (fresh_entry (_breakpoint_counter st) (_breakpoint_counter st')
                   (request_source_path msg) (request_actual_path st msg))
           added
       ∧ NoDup added.*1)
  ∧ _send_queue st' = _send_queue st
  ∧ _send_queue_active st' = _send_queue_active st
  ∧ _source_info st' = _source_info st
  ∧ _debug_config st' = _debug_config st.
Proof.
  intros Hkeys. unfold set_breakpoints.
  unfold bind at 1 2, get, modify. cbn beta iota.
  fold (request_source_path msg). fold (request_actual_path st msg).
  unfold bind.
  destruct (set_breakpoints_loop _ _ _ _ _ _ _) as [out1 st1] eqn:Hloop.
  apply set_breakpoints_loop_frame in Hloop
    as (Hout & Hc & Hadd & Hq & Ha & Hs & Hd).
  2:{ cbn. apply Forall_forall. intros kb Hkb%list_elem_of_filter.
      eapply Forall_forall in Hkeys; [exact Hkeys | apply Hkb]. }
  cbn in Hc, Hadd, Hq, Ha, Hs, Hd.
  destruct out1 as [info | e |]; [| | done]; intros [= <- <-]; done.
Qed.

(** [send] only touches the send queue. *)
Lemma send_frame (m : option ProtocolMessage) (st : AnsibleDebugger) :
  (send m st).1 = Ok tt
  ∧ _send_queue (send m st).2
    = _send_queue st ++ (if _send_queue_active st then [m] else [])
  ∧ _send_queue_active (send m st).2 = _send_queue_active st
  ∧ _breakpoints (send m st).2 = _breakpoints st
  ∧ _breakpoint_counter (send m st).2 = _breakpoint_counter st
  ∧ _source_info (send m st).2 = _source_info st
  ∧ _debug_config (send m st).2 = _debug_config st.
Proof.
  unfold send. destruct (_send_queue_active st) eqn:Ha; cbn;
    rewrite ?app_nil_r; done.
Qed.

Lemma on_msg_received_frame (msg : SetBreakpointsRequest)
    (st : AnsibleDebugger) :
  Forall (fun kb => kb.1 < _breakpoint_counter st) (_breakpoints st) →
  ∃ out st1,
    set_breakpoints msg st = (out, st1)
    ∧ _breakpoints (on_msg_received msg st) = _breakpoints st1
    ∧ _breakpoint_counter (on_msg_received msg st) = _breakpoint_counter st1
    ∧ _source_info (on_msg_received msg st) = _source_info st1
    ∧ _debug_config (on_msg_received msg st) = _debug_config st1
    ∧ _send_queue_active (on_msg_received msg st) = _send_queue_active st1.
Proof.
  intros Hkeys. unfold on_msg_received, process_message, bind.
  destruct (set_breakpoints msg st) as [out st1] eqn:Hset.
  exists out, st1. split; [done |].
  apply set_breakpoints_frame in Hset as [Hout _]; [| done].
  destruct out as [resp | e |]; [| | done].
  - pose proof (send_frame (Some resp) st1) as (Hok & _ & ? & ? & ? & ? & ?).
    destruct (send (Some resp) st1) as [o st2]. cbn in *. subst o. done.
  - pose proof (send_frame (Some (error_response msg)) st1)
      as (_ & _ & ? & ? & ? & ? & ?).
    done.
Qed.

(** ** The invariants hold along every run *)

Lemma inv_keys_below (lo hi : Z) (st : AnsibleDebugger) :
  inv lo hi st →
  Forall (fun kb => kb.1 < _breakpoint_counter st) (_breakpoints st).
Proof.
  intros Hinv. eapply Forall_impl; [apply (inv_keys _ _ _ Hinv) |].
  intros kb (_ & _ & Hlt & _). exact Hlt.
Qed.

Lemma on_msg_received_inv (lo hi : Z) (msg : SetBreakpointsRequest)
    (st : AnsibleDebugger) :
  inv lo hi st → inv lo hi (on_msg_received msg st).
Proof.
  intros Hinv. pose proof (inv_keys_below _ _ _ Hinv) as Hbelow.
  destruct (on_msg_received_frame msg st Hbelow)
    as (out & st1 & Hset & Hb & Hc & Hs & _).
  apply set_breakpoints_frame in Hset
    as (_ & Hc1 & (added & Hb1 & Hfresh & Hnd) & _ & _ & Hs1 & _); [| done].
  pose proof (inv_counter _ _ _ Hinv) as Hhi.
  split.
  - intros p T. rewrite Hs, Hs1. apply Hinv.
  - rewrite Hc. lia.
  - rewrite Hb, Hc, Hb1. apply Forall_app. split.
    + apply Forall_forall. intros kb Hkb%list_elem_of_filter.
      pose proof (inv_keys _ _ _ Hinv) as Hkeys.
      eapply Forall_forall in Hkeys; [| apply Hkb].
      destruct Hkeys as (? & ? & ? & ?). split_and!; try done. lia.
    + eapply Forall_impl; [exact Hfresh |].
      intros kb (? & ? & ? & _). split_and!; try done; lia.
  - rewrite Hb, Hb1, fmap_app. apply NoDup_app. split_and!.
    + eapply sublist_NoDup; [apply (inv_nodup _ _ _ Hinv) |].
      apply fmap_sublist, sublist_filter.
    + intros k Hk1 Hk2.
      apply list_elem_of_fmap in Hk1 as (kb1 & -> & Hkb1%list_elem_of_filter).
      apply list_elem_of_fmap in Hk2 as (kb2 & Heq & Hkb2).
      eapply Forall_forall in Hbelow; [| apply Hkb1].
      eapply Forall_forall in Hfresh; [| exact Hkb2].
      destruct Hfresh as [? _]. cbn in Hbelow. lia.
    + done.
Qed.

Lemma step_inv (lo hi : Z) (o : op) (st : AnsibleDebugger) :
  inv lo hi st → inv lo hi (step o st).
Proof.
  intros Hinv. destruct o as [path line bp_type | msg | m | c | | |];
    cbn [step].
  - by apply register_inv.
  - by apply on_msg_received_inv.
  - pose proof (send_frame m st) as (_ & _ & _ & Hb & Hc & Hs & _).
    destruct Hinv as [H1 H2 H3 H4].
    split; rewrite ?Hb, ?Hc, ?Hs; done.
  - destruct Hinv as [H1 H2 H3 H4]. split; done.
  - destruct Hinv as [H1 H2 H3 H4]. split; done.
  - destruct Hinv as [H1 H2 H3 H4]. split; done.
  - destruct Hinv as [H1 H2 H3 H4]. split; done.
Qed.

Lemma run_inv (lo hi : Z) (ops : list op) (st : AnsibleDebugger) :
  inv lo hi st → inv lo hi (run ops st).
Proof.
  revert st. induction ops as [| o ops IH]; intros st Hinv; [done |].
  cbn. apply IH. by apply step_inv.
Qed.

Lemma init_inv : inv 1 1 init.
Proof.
  split; cbn.
  - intros p T. by rewrite lookup_empty.
  - lia.
  - constructor.
  - constructor.
Qed.

Lemma reachable_inv (st : AnsibleDebugger) : reachable st → inv 1 1 st.
Proof. intros [ops ->]. apply run_inv, init_inv. Qed.

Lemma run_app (ops ops' : list op) (st : AnsibleDebugger) :
  run (ops ++ ops') st = run ops' (run ops st).
Proof. unfold run. apply fold_left_app. Qed.

Lemma reachable_run (ops : list op) (st : AnsibleDebugger) :
  reachable st → reachable (run ops st).
Proof.
  intros [ops0 ->]. exists (ops0 ++ ops). by rewrite run_app.
Qed.

(** When no resolution raises, the handler builds the response with the
    classification of every requested line and leaves the dictionary
    without the old entries of the client path, followed by the new ones. *)
Lemma set_breakpoints_ok (msg : SetBreakpointsRequest) (st : AnsibleDebugger) :
  Forall (fun kb => kb.1 < _breakpoint_counter st) (_breakpoints st) →
  (source_modified msg = false →
   Forall (resolvable (_source_info st !! request_actual_path st msg))
     (req_breakpoints msg)) →
  ∃ st',
    set_breakpoints msg st
    = (Ok (SetBreakpointsResponse (seq msg)
             (imap (fun i : nat =>
                      classified msg
                        (_source_info st !! request_actual_path st msg)
                        (_breakpoint_counter st + Z.of_nat i))
                (req_breakpoints msg))),
       st')
    ∧ _breakpoint_counter st'
      = _breakpoint_counter st + Z.of_nat (length (req_breakpoints msg))
    ∧ _breakpoints st'
      = filter (fun kb : Z * AnsibleLineBreakpoint.t =>
                  AnsibleLineBreakpoint.source_path kb.2
                  ≠ request_source_path msg)
          (_breakpoints st)
        ++ (if source_modified msg then []
            else imap (fun i : nat =>
                         stored msg
                           (_source_info st !! request_actual_path st msg)
                           (request_source_path msg)
                           (request_actual_path st msg)
                           (_breakpoint_counter st + Z.of_nat i))
                   (req_breakpoints msg))
    ∧ _send_queue st' = _send_queue st
    ∧ _send_queue_active st' = _send_queue_active st
    ∧ _source_info st' = _source_info st
    ∧ _debug_config st' = _debug_config st.
Proof.
  intros Hkeys Hres. unfold set_breakpoints.
  unfold bind at 1 2, get, modify. cbn beta iota.
  fold (request_source_path msg). fold (request_actual_path st msg).
  unfold bind.
  edestruct (set_breakpoints_loop_ok msg (request_source_path msg)
               (request_actual_path st msg)
               (_source_info st !! request_actual_path st msg)
               (req_breakpoints msg) [])
    as (st' & Hrun & Hrest); [| exact Hres |].
  2:{ rewrite Hrun. exists st'. cbn [app] in *. split; [done |].
      exact Hrest. }
  cbn. apply Forall_forall. intros kb Hkb%list_elem_of_filter.
  eapply Forall_forall in Hkeys; [exact Hkeys | apply Hkb].
Qed.

(** A run of registrations for one path folds [registered] over its table
    and keeps the configuration. *)
Lemma run_register_all (path : string) (regs : list (Z * Z)) :
  ∀ st,
    table_of (run (register_all path regs) st) path
    = fold_left (fun T (lk : Z * Z) => registered T lk.1 lk.2) regs
        (table_of st path)
    ∧ _debug_config (run (register_all path regs) st) = _debug_config st
    ∧ (regs ≠ [] →
       is_Some (_source_info (run (register_all path regs) st) !! path)).
Proof.
  induction regs as [| [l k] regs IH]; intros st; [done |].
  cbn [register_all map run fold_left step fst snd].
  destruct (register_path_breakpoint path l k st) as [out st1] eqn:Hrun.
  apply register_frame in Hrun as (_ & Hs & _ & _ & _ & Hd). cbn [snd].
  destruct (IH st1) as (HT & Hd' & Hsome).
  fold (register_all path regs). fold (run (register_all path regs) st1).
  assert (table_of st1 path = registered (table_of st path) l k) as Ht1.
  { unfold table_of at 1. by rewrite Hs, lookup_insert_eq. }
  rewrite HT, Ht1, Hd', Hd. split; [done |]. split; [done |].
  intros _. destruct regs as [| lk regs]; [| by apply Hsome].
  cbn. rewrite Hs, lookup_insert_eq. by eexists.
Qed.

(** * The claims *)

(** ** The table that a registration writes *)

Lemma registered_nonneg (T : list (option Z)) (line bp_type : Z) :
  0 ≤ line →
  registered T line bp_type
  = <[Z.to_nat line := Some bp_type]>
      (T ++ replicate (S (Z.to_nat line) - length T) None).
Proof.
  intros Hline. unfold registered, extended, Py.repeat, Py.len.
  replace (Z.to_nat (1 + line - Z.of_nat (length T)))
    with (S (Z.to_nat line) - length T)%nat by lia.
  rewrite setitem_nonneg; [done |].
  unfold Py.len. rewrite length_app, length_replicate. lia.
Qed.

(** C2: after [register_path_breakpoint path line kind] with [line >= 1],
    the table of [path] holds [kind] at [line]; slot 0 is the classified
    slot it was ([0], invalid, for a path without a table before the
    call); the slots created between the old end and [line] are
    continuations; the table is not shorter than before; every other slot
    of the old table is unchanged; the tables of other paths are
    untouched. *)
Theorem register_line_table (st : AnsibleDebugger) (path : string)
    (line kind : Z) :
  reachable st → 1 ≤ line →
  ∃ T',
    _source_info (register_path_breakpoint path line kind st).2 !! path
    = Some T'
    ∧ T' !! Z.to_nat line = Some (Some kind)
    ∧ (∃ v, table_of st path !! 0%nat = Some (Some v)
            ∧ T' !! 0%nat = Some (Some v))
    ∧ (_source_info st !! path = None → T' !! 0%nat = Some (Some 0))
    ∧ (length (table_of st path) ≤ length T')%nat
    ∧ length T' = (length (table_of st path) `max` S (Z.to_nat line))%nat
    ∧ (∀ i : nat, (i < length (table_of st path))%nat → i ≠ Z.to_nat line →
                  T' !! i = table_of st path !! i)
    ∧ (∀ i : nat, (length (table_of st path) ≤ i < Z.to_nat line)%nat →
                  T' !! i = Some None)
    ∧ (∀ p, p ≠ path →
            _source_info (register_path_breakpoint path line kind st).2 !! p
            = _source_info st !! p).
Proof.
  intros Hreach Hline. apply reachable_inv in Hreach.
  destruct (register_path_breakpoint path line kind st) as [out st'] eqn:Hrun.
  apply register_frame in Hrun as (_ & Hs & _). cbn [snd].
  rewrite Hs, registered_nonneg by lia.
  pose proof (table_of_ok _ _ st path Hreach) as (v0 & rest & HT).
  set (T := table_of st path) in *.
  set (n := Z.to_nat line).
  assert (0 < n)%nat as Hn by lia.
  eexists. split; [apply lookup_insert_eq |].
  assert (∀ i : nat, i ≠ n →
            <[n := Some kind]> (T ++ replicate (S n - length T) None) !! i
            = (T ++ replicate (S n - length T) None) !! i) as Hother.
  { intros i Hi. by apply list_lookup_insert_ne. }
  split_and!.
  - apply list_lookup_insert_eq. rewrite length_app, length_replicate. lia.
  - exists v0. rewrite Hother by lia. rewrite HT. done.
  - intros Hnone. rewrite Hother by lia.
    subst T. unfold table_of. by rewrite Hnone.
  - rewrite length_insert, length_app. lia.
  - rewrite length_insert, length_app, length_replicate. lia.
  - intros i Hi Hne. rewrite Hother by done. by apply lookup_app_l.
  - intros i Hi. rewrite Hother by lia.
    rewrite lookup_app_r by lia. apply lookup_replicate_2. lia.
  - intros p Hp. by rewrite lookup_insert_ne.
Qed.

Lemma register_line_table_witness :
  reachable init ∧ 1 ≤ 3
  ∧ ∃ T',
      _source_info (register_path_breakpoint "site.yml" 3 1 init).2
        !! "site.yml"%string = Some T'
      ∧ T' !! 3%nat = Some (Some 1)
      ∧ T' !! 0%nat = Some (Some 0).
Proof.
  assert (reachable init) as Hinit by (by exists []).
  split; [exact Hinit |]. split; [lia |].
  destruct (register_line_table init "site.yml" 3 1 Hinit ltac:(lia))
    as (T' & HT & Hline & _ & Hzero & _).
  exists T'. split; [exact HT |]. split; [exact Hline |].
  apply Hzero. reflexivity.
Defined.

(** ** The backward scan ends *)

(** C8: on every table of a reachable debugger, for every requested line
    [L >= 1], the backward scan from [min(L, len(T) - 1)] returns, given
    fuel for the length of the table: it stops at a classified slot
    [s >= 0], with continuations between [s] and the start, because slot 0
    is classified. *)
Theorem backward_scan_terminates (st : AnsibleDebugger) (path : string)
    (T : list (option Z)) (L : Z) :
  reachable st → _source_info st !! path = Some T → 1 ≤ L →
  ∃ line_type s v,
    Py.getitem T (Z.min L (Py.len T - 1)) = Some line_type
    ∧ (∀ fuel, (length T ≤ fuel)%nat →
               scan_back fuel T (Z.min L (Py.len T - 1)) line_type
               = Ok (s, v))
    ∧ 0 ≤ s ≤ Z.min L (Py.len T - 1)
    ∧ T !! Z.to_nat s = Some (Some v)
    ∧ (∀ j, s < j ≤ Z.min L (Py.len T - 1) → T !! Z.to_nat j = Some None)
    ∧ (∃ v0, T !! 0%nat = Some (Some v0)).
Proof.
  intros Hreach HT HL. apply reachable_inv in Hreach.
  pose proof (inv_tables _ _ _ Hreach path T HT) as Hok.
  pose proof (table_ok_len T Hok) as Hlen.
  set (start0 := Z.min L (Py.len T - 1)).
  assert (0 ≤ start0 < Py.len T) as Hs0 by (subst start0; lia).
  rewrite getitem_nonneg by lia.
  destruct (T !! Z.to_nat start0) as [line_type |] eqn:Hget.
  2:{ apply lookup_ge_None in Hget. unfold Py.len in Hs0. lia. }
  destruct (scan_back_ok T (length T) Hok start0 line_type)
    as (s & v & Hscan & Hsr & Hsv & Hnone); [lia | | done |].
  { unfold Py.len in Hs0. lia. }
  exists line_type, s, v. split; [done |]. split.
  - intros fuel Hfuel.
    destruct (scan_back_ok T fuel Hok start0 line_type)
      as (s' & v' & Hscan' & Hsr' & Hsv' & Hnone'); [lia | | done |].
    { unfold Py.len in Hs0. lia. }
    rewrite Hscan'. f_equal.
    assert (s' = s) as ->.
    { destruct (Z.lt_trichotomy s s') as [Hlt | [Heq | Hgt]]; [| done |].
      - specialize (Hnone s' ltac:(lia)). congruence.
      - specialize (Hnone' s ltac:(lia)). congruence. }
    congruence.
  - split; [done |]. split; [done |]. split; [done |].
    destruct Hok as (v0 & rest & ->). by exists v0.
Qed.

Lemma backward_scan_terminates_witness :
  reachable (run [OpRegister "site.yml" 3 1] init)
  ∧ _source_info (run [OpRegister "site.yml" 3 1] init) !! "site.yml"%string
    = Some [Some 0; None; None; Some 1]
  ∧ 1 ≤ 2
  ∧ ∃ line_type s v,
      Py.getitem [Some 0; None; None; Some 1] 2 = Some line_type
      ∧ scan_back 4 [Some 0; None; None; Some 1] 2 line_type = Ok (s, v).
Proof.
  assert (reachable (run [OpRegister "site.yml" 3 1] init)) as Hreach
    by (by exists [OpRegister "site.yml"%string 3 1]).
  assert (_source_info (run [OpRegister "site.yml" 3 1] init)
            !! "site.yml"%string = Some [Some 0; None; None; Some 1]) as HT
    by (vm_compute; reflexivity).
  split; [exact Hreach |]. split; [exact HT |]. split; [lia |].
  destruct (backward_scan_terminates _ "site.yml" _ 2 Hreach HT ltac:(lia))
    as (line_type & s & v & Hget & Hscan & _).
  exists line_type, s, v. split; [exact Hget |].
  apply (Hscan 4%nat). simpl. lia.
Defined.

(** ** The example of the specification *)

Lemma example_registrations_table (regs : list (Z * Z)) :
  regs ≡ₚ example_registrations →
  fold_left (fun T (lk : Z * Z) => registered T lk.1 lk.2) regs [Some 0]
  = example_table.
Proof.
  intros Hperm. symmetry in Hperm.
  apply permutations_Permutation in Hperm.
  vm_compute (permutations _) in Hperm.
  repeat (apply elem_of_cons in Hperm as [-> | Hperm]);
    try (vm_compute; reflexivity).
  by apply elem_of_nil in Hperm.
Qed.

Lemma resolve_example_beyond (L : Z) :
  5 ≤ L →
  resolve example_table L
  = Ok {| r_verified := false; r_msg := Some cannot_set_here;
          r_start := 5; r_end := 5 |}.
Proof.
  intros HL. unfold resolve.
  change (Py.len example_table - 1) with 5.
  replace (Z.min L 5) with 5 by lia. reflexivity.
Qed.

(** C1, as the code has it: on the table that the registrations 0 invalid,
    3 valid start, 5 invalid build for a path, in any order, the
    set-breakpoints handler answers a requested line 1 with the lines 0 to
    2, unverified; a line 3 or 4 with the lines 3 to 4, verified; a line 6
    or more with the line 5, the last slot [len(T) - 1], unverified.  The
    reported end line is the last line of the run: the index of the next
    classified slot (or the length of the table) minus one. *)
Theorem example_resolution (regs : list (Z * Z)) (st0 : AnsibleDebugger)
    (msg : SetBreakpointsRequest) :
  reachable st0 →
  regs ≡ₚ example_registrations →
  _source_info st0 !! request_actual_path st0 msg = None →
  source_modified msg = false →
  Forall (fun sb => 1 ≤ SourceBreakpoint.line sb) (req_breakpoints msg) →
  ∃ entries st',
    set_breakpoints msg
      (run (register_all (request_actual_path st0 msg) regs) st0)
    = (Ok (SetBreakpointsResponse (seq msg) entries), st')
    ∧ length entries = length (req_breakpoints msg)
    ∧ ∀ (i : nat) sb,
        req_breakpoints msg !! i = Some sb →
        ∃ bp,
          entries !! i = Some bp
          ∧ (SourceBreakpoint.line sb = 1 →
             Breakpoint.line bp = Some 0 ∧ Breakpoint.end_line bp = Some 2
             ∧ Breakpoint.verified bp = false)
          ∧ (SourceBreakpoint.line sb = 3 ∨ SourceBreakpoint.line sb = 4 →
             Breakpoint.line bp = Some 3 ∧ Breakpoint.end_line bp = Some 4
             ∧ Breakpoint.verified bp = true)
          ∧ (6 ≤ SourceBreakpoint.line sb →
             Breakpoint.line bp = Some 5
             ∧ Breakpoint.end_line bp = Some (Py.len example_table - 1)
             ∧ Breakpoint.verified bp = false).
Proof.
  intros Hreach Hperm Hnone Hmod Hlines.
  set (p := request_actual_path st0 msg) in *.
  set (st := run (register_all p regs) st0).
  destruct (run_register_all p regs st0) as (HT & Hd & Hsome).
  fold st in HT, Hd, Hsome.
  assert (table_of st0 p = [Some 0]) as Ht0
    by (unfold table_of; by rewrite Hnone).
  rewrite Ht0, example_registrations_table in HT by done.
  assert (regs ≠ []) as Hne.
  { intros ->. by apply Permutation_nil_l in Hperm. }
  destruct (Hsome Hne) as [T HsT].
  assert (T = example_table) as ->.
  { unfold table_of in HT. by rewrite HsT in HT. }
  assert (request_actual_path st msg = p) as Hp.
  { unfold request_actual_path. by rewrite Hd. }
  assert (inv 1 1 st) as Hinv by (apply reachable_inv, reachable_run, Hreach).
  destruct (set_breakpoints_ok msg st) as (st' & Hrun & _).
  { by eapply inv_keys_below. }
  { intros _. rewrite Hp, HsT. eapply Forall_impl; [exact Hlines |].
    intros sb Hsb. cbv beta in Hsb. cbn.
    destruct (resolve_ok example_table (SourceBreakpoint.line sb))
      as (r & _ & Hr & _); [by eexists _, _ | lia |]. by exists r. }
  rewrite Hp, HsT in Hrun.
  eexists _, st'. split; [exact Hrun |]. split; [apply length_imap |].
  intros i sb Hsb. rewrite list_lookup_imap, Hsb. cbn [fmap option_fmap option_map].
  eexists. split; [reflexivity |].
  unfold classified. rewrite Hmod. cbn [example_table].
  fold example_table. split_and!.
  - intros ->. vm_compute. done.
  - intros [-> | ->]; vm_compute; done.
  - intros Hsix. rewrite resolve_example_beyond by lia. done.
Qed.

Lemma example_resolution_witness :
  ∃ entries st',
    set_breakpoints
      {| seq := 7; req_source := Source.mk None (Some "site.yml"%string);
         req_breakpoints := [SourceBreakpoint.mk 1 None;
                             SourceBreakpoint.mk 4 None;
                             SourceBreakpoint.mk 9 None];
         source_modified := false |}
      (run (register_all "site.yml" [(5, 0); (0, 0); (3, 1)]) init)
    = (Ok (SetBreakpointsResponse 7 entries), st')
    ∧ length entries = 3%nat.
Proof.
  destruct (example_resolution [(5, 0); (0, 0); (3, 1)] init
              {| seq := 7; req_source := Source.mk None (Some "site.yml"%string);
                 req_breakpoints := [SourceBreakpoint.mk 1 None;
                                     SourceBreakpoint.mk 4 None;
                                     SourceBreakpoint.mk 9 None];
                 source_modified := false |})
    as (entries & st' & Hrun & Hlen & _).
  - by exists [].
  - apply (Permutation_cons_append [(0, 0); (3, 1)] (5, 0)).
  - reflexivity.
  - reflexivity.
  - repeat constructor; simpl; lia.
  - exists entries, st'. split; [exact Hrun | exact Hlen].
Defined.

(** The claim of an end bound at the next classified slot fails: for the
    requested line 1 the handler reports the end line 2, not 3. *)
Lemma example_resolution_counterexample :
  ∃ bp st',
    set_breakpoints
      {| seq := 7; req_source := Source.mk None (Some "site.yml"%string);
         req_breakpoints := [SourceBreakpoint.mk 1 None];
         source_modified := false |}
      (run (register_all "site.yml" example_registrations) init)
    = (Ok (SetBreakpointsResponse 7 [bp]), st')
    ∧ Breakpoint.line bp = Some 0
    ∧ Breakpoint.verified bp = false
    ∧ Breakpoint.end_line bp = Some 2
    ∧ Breakpoint.end_line bp ≠ Some 3.
Proof.
  eexists _, _. split; [vm_compute; reflexivity |]. by cbn.
Qed.

(** ** Re-resolution after a registration *)

Lemma changed_spec (old : Breakpoint.t) (r : Resolved) :
  changed old r = true
  ↔ Breakpoint.verified old ≠ r_verified r
    ∨ Breakpoint.line old ≠ Some (r_start r)
    ∨ Breakpoint.end_line old ≠ Some (r_end r).
Proof.
  unfold changed. rewrite !orb_true_iff, !negb_true_iff, !bool_decide_eq_false.
  tauto.
Qed.

Lemma changed_false (old : Breakpoint.t) (r : Resolved) :
  changed old r = false
  ↔ Breakpoint.verified old = r_verified r
    ∧ Breakpoint.line old = Some (r_start r)
    ∧ Breakpoint.end_line old = Some (r_end r).
Proof.
  unfold changed. rewrite !orb_false_iff, !negb_false_iff, !bool_decide_eq_true.
  tauto.
Qed.

(** A requested line that is itself a classified slot resolves to the run
    that starts at it. *)
Lemma resolve_classified (T : list (option Z)) (L v : Z) :
  table_ok T → 0 ≤ L → T !! Z.to_nat L = Some (Some v) →
  ∃ r, resolve T L = Ok r
       ∧ r_start r = L ∧ L ≤ r_end r < Py.len T
       ∧ r_verified r = negb (v =? 0)
       ∧ r_msg r = (if v =? 0 then Some cannot_set_here else None).
Proof.
  intros HT HL Hv.
  destruct (resolve_ok T L HT HL)
    as (r & w & Hr & Hs & He & Hw & Hver & Hmsg & Hnone & _).
  assert (L < Py.len T) as Hlt.
  { apply lookup_lt_Some in Hv. unfold Py.len. lia. }
  assert (r_start r = L) as Hstart.
  { destruct (decide (r_start r = L)) as [| Hne]; [done |].
    specialize (Hnone L ltac:(lia)). congruence. }
  rewrite Hstart in Hw. assert (w = v) as -> by congruence.
  exists r. split_and!; try done; lia.
Qed.

(** C3, as the code has it: a registration for [path] with [line >= 0],
    when the stored breakpoints of [path] have requested lines that are not
    negative, returns; it resolves every stored breakpoint of [path]
    against the new table and leaves the others alone; a breakpoint whose
    verified flag, line or end line differs from the resolved ones takes
    the resolved state and a "changed" event with that state is handed to
    [send], which puts it on the queue only while the send queue is active
    and drops it otherwise; a breakpoint that does not differ is left as it
    is and no event is sent for it.  A breakpoint stored as "not loaded"
    for a path without a table becomes verified with the range of its line
    when that line is registered with a type other than 0. *)
Theorem register_reresolves (st : AnsibleDebugger) (path : string)
    (line kind : Z) :
  reachable st → 0 ≤ line →
  Forall (fun kb : Z * AnsibleLineBreakpoint.t =>
            AnsibleLineBreakpoint.actual_path kb.2 = path →
            0 ≤ SourceBreakpoint.line
                  (AnsibleLineBreakpoint.source_breakpoint kb.2))
    (_breakpoints st) →
  ∃ T' st',
    register_path_breakpoint path line kind st = (Ok tt, st')
    ∧ _source_info st' !! path = Some T'
    ∧ _breakpoints st' = map (reresolved path T') (_breakpoints st)
    ∧ _send_queue st'
      = _send_queue st
        ++ (if _send_queue_active st
            then flat_map (changed_events path T') (_breakpoints st) else [])
    ∧ (∀ k b, (k, b) ∈ _breakpoints st →
         AnsibleLineBreakpoint.actual_path b ≠ path →
         reresolved path T' (k, b) = (k, b)
         ∧ changed_events path T' (k, b) = [])
    ∧ (∀ k b, (k, b) ∈ _breakpoints st →
         AnsibleLineBreakpoint.actual_path b = path →
         ∃ r b',
           resolve T' (SourceBreakpoint.line
                         (AnsibleLineBreakpoint.source_breakpoint b)) = Ok r
           ∧ reresolved path T' (k, b) = (k, b')
           ∧ Breakpoint.verified (AnsibleLineBreakpoint.breakpoint b')
             = r_verified r
           ∧ Breakpoint.line (AnsibleLineBreakpoint.breakpoint b')
             = Some (r_start r)
           ∧ Breakpoint.end_line (AnsibleLineBreakpoint.breakpoint b')
             = Some (r_end r)
           ∧ ((changed_events path T' (k, b)
               = [Some (BreakpointEvent "changed"
                          (AnsibleLineBreakpoint.breakpoint b'))]
               ∧ (Breakpoint.verified (AnsibleLineBreakpoint.breakpoint b)
                  ≠ r_verified r
                  ∨ Breakpoint.line (AnsibleLineBreakpoint.breakpoint b)
                    ≠ Some (r_start r)
                  ∨ Breakpoint.end_line (AnsibleLineBreakpoint.breakpoint b)
                    ≠ Some (r_end r)))
              ∨ (changed_events path T' (k, b) = [] ∧ b' = b
                 ∧ Breakpoint.verified (AnsibleLineBreakpoint.breakpoint b)
                   = r_verified r
                 ∧ Breakpoint.line (AnsibleLineBreakpoint.breakpoint b)
                   = Some (r_start r)
                 ∧ Breakpoint.end_line (AnsibleLineBreakpoint.breakpoint b)
                   = Some (r_end r))))
    ∧ (∀ k b, (k, b) ∈ _breakpoints st →
         AnsibleLineBreakpoint.actual_path b = path →
         _source_info st !! path = None →
         AnsibleLineBreakpoint.breakpoint b
         = Breakpoint.mk (AnsibleLineBreakpoint.id b) false (Some not_loaded)
             (AnsibleLineBreakpoint.source b) (Some line) None →
         SourceBreakpoint.line (AnsibleLineBreakpoint.source_breakpoint b)
         = line →
         kind ≠ 0 →
         ∃ b',
           reresolved path T' (k, b) = (k, b')
           ∧ AnsibleLineBreakpoint.breakpoint b'
             = Breakpoint.mk (AnsibleLineBreakpoint.id b) true None
                 (AnsibleLineBreakpoint.source b) (Some line) (Some line)
           ∧ changed_events path T' (k, b)
             = [Some (BreakpointEvent "changed"
                        (AnsibleLineBreakpoint.breakpoint b'))]).
Proof.
  intros Hreach Hline Hlines. apply reachable_inv in Hreach.
  pose proof (table_of_ok _ _ st path Hreach) as Hok0.
  pose proof (registered_ok _ line kind Hok0) as Hok.
  set (T' := registered (table_of st path) line kind) in *.
  assert (Py.setitem (extended (table_of st path) line) line (Some kind)
          = Some T') as Hset.
  { subst T'. rewrite registered_nonneg by done.
    unfold extended, Py.repeat, Py.len.
    replace (Z.to_nat (1 + line - Z.of_nat (length (table_of st path))))
      with (S (Z.to_nat line) - length (table_of st path))%nat by lia.
    apply setitem_nonneg. unfold Py.len.
    rewrite length_app, length_replicate. lia. }
  assert (∀ kb : Z * AnsibleLineBreakpoint.t,
            kb ∈ _breakpoints st →
            AnsibleLineBreakpoint.actual_path kb.2 = path →
            ∃ r, resolve T' (SourceBreakpoint.line
                   (AnsibleLineBreakpoint.source_breakpoint kb.2)) = Ok r)
    as Hres.
  { intros kb Hin Hp. eapply Forall_forall in Hlines; [| exact Hin].
    destruct (resolve_ok T' _ Hok (Hlines Hp)) as (r & _ & Hr & _).
    by exists r. }
  set (st1 := with_source_info st (<[path := T']> (_source_info st))).
  destruct (reresolve_loop_ok path T' (_breakpoints st1) [] st1)
    as (st' & Hrun & Hb & Hq & _ & _ & Hs & _); [done | |].
  { apply Forall_forall. intros kb Hin. by apply Hres. }
  exists T', st'. split.
  { unfold register_path_breakpoint. fold (table_of st path).
    fold (extended (table_of st path) line). rewrite Hset. exact Hrun. }
  split. { rewrite Hs. cbn. apply lookup_insert_eq. }
  split; [exact Hb |]. split; [exact Hq |].
  split; [| split].
  - intros k b _ Hp. unfold reresolved, changed_events. cbn [snd].
    by rewrite bool_decide_eq_true_2.
  - intros k b Hin Hp.
    destruct (Hres (k, b) Hin Hp) as [r Hr]. cbn [snd] in Hr.
    unfold reresolved, changed_events. cbn [fst snd].
    rewrite bool_decide_eq_false_2 by (intros Hne; by apply Hne).
    rewrite Hr.
    destruct (changed (AnsibleLineBreakpoint.breakpoint b) r) eqn:Hch.
    + eexists r, _. split; [done |]. split; [reflexivity |].
      cbn. split_and!; try done. left. split; [done |].
      by apply changed_spec.
    + exists r, b. split; [done |]. split; [reflexivity |].
      apply changed_false in Hch as (H1 & H2 & H3).
      split_and!; try done. right. done.
  - intros k b Hin Hp Hnone Hbp Hsb Hkind.
    assert (T' !! Z.to_nat line = Some (Some kind)) as Hslot.
    { subst T'. rewrite registered_nonneg by done.
      apply list_lookup_insert_eq.
      rewrite length_app, length_replicate. lia. }
    assert (Py.len T' = line + 1) as Hlen.
    { subst T'. rewrite registered_nonneg by done. unfold Py.len.
      rewrite length_insert, length_app, length_replicate.
      unfold table_of. rewrite Hnone. cbn. lia. }
    destruct (resolve_classified T' line kind Hok Hline Hslot)
      as (r & Hr & Hstart & Hend & Hver & Hmsg).
    assert (r_end r = line) as Hend' by lia.
    assert ((kind =? 0) = false) as Hk by (by apply Z.eqb_neq).
    rewrite Hk in Hver, Hmsg. cbn in Hver.
    unfold reresolved, changed_events. cbn [fst snd].
    rewrite bool_decide_eq_false_2 by (intros Hne; by apply Hne).
    rewrite Hsb, Hr.
    assert (changed (AnsibleLineBreakpoint.breakpoint b) r = true) as ->.
    { apply changed_spec. left. rewrite Hbp, Hver. done. }
    eexists. split; [reflexivity |].
    unfold resolved_breakpoint. cbn.
    rewrite Hver, Hmsg, Hstart, Hend'. done.
Qed.

Lemma register_reresolves_witness :
  ∃ T' st',
    register_path_breakpoint "site.yml" 3 1
      (run [OpConnectionMade; OpSetBreakpoints (request "site.yml" [3] false)]
         init)
    = (Ok tt, st')
    ∧ _source_info st' !! "site.yml"%string = Some T'
    ∧ _send_queue st'
      = [Some (SetBreakpointsResponse 7
                 [Breakpoint.mk 1 false (Some not_loaded)
                    (Source.mk None (Some "site.yml"%string)) (Some 3) None]);
         Some (BreakpointEvent "changed"
                 (Breakpoint.mk 1 true None
                    (Source.mk None (Some "site.yml"%string))
                    (Some 3) (Some 3)))].
Proof.
  destruct (register_reresolves
              (run [OpConnectionMade;
                    OpSetBreakpoints (request "site.yml" [3] false)] init)
              "site.yml" 3 1)
    as (T' & st' & Hrun & HT & _ & Hq & _).
  - by eexists.
  - lia.
  - vm_compute. repeat constructor. intros _ Hneg. discriminate Hneg.
  - exists T', st'. split; [exact Hrun |]. split; [exact HT |].
    pose proof Hrun as Hrun'. vm_compute in Hrun'.
    injection Hrun' as <-. reflexivity.
Defined.

(** With the send queue inactive the registration changes the stored
    breakpoint and no event is put on the queue: after the session of the
    client has ended, the breakpoint that was stored as "not loaded"
    becomes verified and the queue stays as it was. *)
Lemma register_reresolves_counterexample :
  ∃ b b' st',
    _breakpoints
      (run [OpConnectionMade; OpSetBreakpoints (request "site.yml" [3] false);
            OpSessionEnd] init)
    = [(1, b)]
    ∧ register_path_breakpoint "site.yml" 3 1
        (run [OpConnectionMade; OpSetBreakpoints (request "site.yml" [3] false);
              OpSessionEnd] init)
      = (Ok tt, st')
    ∧ _breakpoints st' = [(1, b')]
    ∧ Breakpoint.verified (AnsibleLineBreakpoint.breakpoint b) = false
    ∧ Breakpoint.verified (AnsibleLineBreakpoint.breakpoint b') = true
    ∧ Breakpoint.end_line (AnsibleLineBreakpoint.breakpoint b) = None
    ∧ Breakpoint.end_line (AnsibleLineBreakpoint.breakpoint b') = Some 3
    ∧ _send_queue st' = [].
Proof.
  eexists _, _, _. split; [vm_compute; reflexivity |].
  split; [vm_compute; reflexivity |]. cbn. done.
Qed.

(** ** A request replaces the breakpoints of its client path *)

Lemma nodup_keys_unique {A B} (l : list (A * B)) (k : A) (b b' : B) :
  NoDup l.*1 → (k, b) ∈ l → (k, b') ∈ l → b = b'.
Proof.
  induction l as [| [k0 b0] l IH]; intros Hnd H1 H2.
  - by apply elem_of_nil in H1.
  - rewrite fmap_cons in Hnd. apply NoDup_cons in Hnd as [Hnotin Hnd].
    cbn in Hnotin.
    apply elem_of_cons in H1 as [H1 | H1];
      apply elem_of_cons in H2 as [H2 | H2].
    + congruence.
    + injection H1 as -> ->. exfalso. apply Hnotin.
      apply list_elem_of_fmap. by exists (k0, b').
    + injection H2 as -> ->. exfalso. apply Hnotin.
      apply list_elem_of_fmap. by exists (k0, b).
    + by apply IH.
Qed.

Lemma process_message_breakpoints (msg : SetBreakpointsRequest)
    (st : AnsibleDebugger) :
  _breakpoints (process_message msg st).2
  = _breakpoints (set_breakpoints msg st).2
  ∧ _breakpoint_counter (process_message msg st).2
    = _breakpoint_counter (set_breakpoints msg st).2.
Proof.
  unfold process_message, bind.
  destruct (set_breakpoints msg st) as [[resp | e |] st1]; try done.
  pose proof (send_frame (Some resp) st1) as (_ & _ & _ & Hb & Hc & _).
  done.
Qed.

(** C4: whatever the registry of a reachable debugger holds and however the
    handler ends, a set-breakpoints request for the client path [P] removes
    every stored breakpoint whose client path is [P] (its id is no longer a
    key of the dictionary), keeps every stored breakpoint of another client
    path as it is, under its id and in its order, and adds nothing but
    entries of [P] under ids that were not in use. *)
Theorem set_breakpoints_replaces (st : AnsibleDebugger)
    (msg : SetBreakpointsRequest) :
  reachable st →
  (∀ k b, (k, b) ∈ _breakpoints st →
          AnsibleLineBreakpoint.source_path b = request_source_path msg →
          k ∉ fst <$> _breakpoints (process_message msg st).2)
  ∧ (∀ k b, (k, b) ∈ _breakpoints st →
            AnsibleLineBreakpoint.source_path b ≠ request_source_path msg →
            (k, b) ∈ _breakpoints (process_message msg st).2)
  ∧ (∃ added,
       _breakpoints (process_message msg st).2
       = filter (fun kb : Z * AnsibleLineBreakpoint.t =>
                   AnsibleLineBreakpoint.source_path kb.2
                   ≠ request_source_path msg)
           (_breakpoints st) ++ added
       ∧ Forall (fun kb : Z * AnsibleLineBreakpoint.t =>
                   _breakpoint_counter st ≤ kb.1
                   ∧ (kb.1 ∉ fst <$> _breakpoints st)
                   ∧ AnsibleLineBreakpoint.source_path kb.2
                     = request_source_path msg)
           added).
Proof.
  intros Hreach. apply reachable_inv in Hreach.
  pose proof (inv_keys_below _ _ _ Hreach) as Hbelow.
  pose proof (inv_nodup _ _ _ Hreach) as Hnd.
  destruct (process_message_breakpoints msg st) as [-> _].
  destruct (set_breakpoints msg st) as [out st1] eqn:Hset.
  apply set_breakpoints_frame in Hset
    as (_ & _ & (added & Hb & Hfresh & _) & _); [| done].
  cbn [snd]. rewrite Hb.
  assert (∀ kb : Z * AnsibleLineBreakpoint.t,
            kb ∈ added → _breakpoint_counter st ≤ kb.1) as Hadded.
  { intros kb Hin. eapply Forall_forall in Hfresh; [| exact Hin].
    destruct Hfresh as [? _]. lia. }
  split_and!.
  - intros k b Hin Hpath Hk.
    rewrite fmap_app in Hk. apply elem_of_app in Hk as [Hk | Hk].
    + apply list_elem_of_fmap in Hk as ([k' b'] & Hk' & Hin').
      cbn in Hk'. subst k'.
      apply list_elem_of_filter in Hin' as [Hne Hin']. cbn in Hne.
      assert (b' = b) as ->; [| done].
      eapply nodup_keys_unique; [exact Hnd | exact Hin' | exact Hin].
    + apply list_elem_of_fmap in Hk as (kb & Hk' & Hin').
      apply Hadded in Hin'.
      eapply Forall_forall in Hbelow; [| exact Hin]. cbn in Hbelow. lia.
  - intros k b Hin Hpath. apply elem_of_app. left.
    by apply list_elem_of_filter.
  - exists added. split; [done |].
    apply Forall_forall. intros kb Hin.
    pose proof (Hadded kb Hin) as Hge.
    eapply Forall_forall in Hfresh; [| exact Hin].
    destruct Hfresh as (_ & _ & _ & Hsp & _).
    split_and!; try done.
    intros Hk. apply list_elem_of_fmap in Hk as (kb' & Hk' & Hin').
    eapply Forall_forall in Hbelow; [| exact Hin']. cbn in Hbelow. lia.
Qed.

Lemma set_breakpoints_replaces_witness :
  reachable
    (run [OpConnectionMade;
          OpSetBreakpoints (request "site.yml" [3] false);
          OpSetBreakpoints (request "tasks.yml" [2; 4] false)] init)
  ∧ ∃ b1 b2 b3 b4,
      _breakpoints
        (run [OpConnectionMade;
              OpSetBreakpoints (request "site.yml" [3] false);
              OpSetBreakpoints (request "tasks.yml" [2; 4] false)] init)
      = [(1, b1); (2, b2); (3, b3)]
      ∧ _breakpoints
          (process_message (request "tasks.yml" [5] false)
             (run [OpConnectionMade;
                   OpSetBreakpoints (request "site.yml" [3] false);
                   OpSetBreakpoints (request "tasks.yml" [2; 4] false)] init)).2
        = [(1, b1); (4, b4)].
Proof.
  assert (reachable
            (run [OpConnectionMade;
                  OpSetBreakpoints (request "site.yml" [3] false);
                  OpSetBreakpoints (request "tasks.yml" [2; 4] false)] init))
    as Hreach by (by eexists).
  split; [exact Hreach |].
  destruct (set_breakpoints_replaces _ (request "tasks.yml" [5] false) Hreach)
    as (_ & _ & added & Hb & _).
  eexists _, _, _, _. split; [vm_compute; reflexivity |].
  clear Hb. vm_compute. reflexivity.
Defined.

(** ** Path mappings *)

Lemma append_cons (c : Ascii.ascii) (p s : string) :
  String c p +:+ s = String c (p +:+ s).
Proof. reflexivity. Qed.

Lemma startswith_app (p s : string) : Py.startswith (p +:+ s) p = true.
Proof.
  induction p as [| c p IH]; [done |].
  rewrite append_cons. cbn -[Ascii.eqb]. by rewrite Ascii.eqb_refl.
Qed.

Lemma slice_from_app (p s : string) :
  Py.slice_from (p +:+ s) (String.length p) = s.
Proof.
  induction p as [| c p IH]; [done |]. rewrite append_cons. cbn. exact IH.
Qed.

Lemma startswith_split (s p : string) :
  Py.startswith s p = true → s = p +:+ Py.slice_from s (String.length p).
Proof.
  revert s. induction p as [| c p IH]; intros s Hs; [done |].
  destruct s as [| d s]; cbn -[Ascii.eqb] in Hs; [done |].
  destruct (Ascii.eqb_spec c d) as [-> |]; [| done].
  rewrite append_cons. cbn. f_equal. by apply IH.
Qed.

Lemma convert_to_actual_path_first (ms1 ms2 : list PathMapping)
    (m : PathMapping) (p : string) :
  Forall (fun m' => Py.startswith p (local_root m') = false) ms1 →
  Py.startswith p (local_root m) = true →
  convert_to_actual_path (ms1 ++ m :: ms2) p
  = remote_root m +:+ Py.slice_from p (String.length (local_root m)).
Proof.
  induction 1 as [| m' ms1 Hm' _ IH]; intros Hm; cbn.
  - by rewrite Hm.
  - rewrite Hm'. by apply IH.
Qed.

Lemma convert_path_mappings_first (ms1 ms2 : list PathMapping)
    (m : PathMapping) (q : string) :
  Forall (fun m' => Py.startswith q (remote_root m') = false) ms1 →
  Py.startswith q (remote_root m) = true →
  convert_path_mappings (ms1 ++ m :: ms2) q
  = local_root m +:+ Py.slice_from q (String.length (remote_root m)).
Proof.
  induction 1 as [| m' ms1 Hm' _ IH]; intros Hm; cbn.
  - by rewrite Hm.
  - rewrite Hm'. by apply IH.
Qed.

(** C5, as the code has it: when the client to runtime translation applies
    the mapping [m] (the first whose [local_root] starts the client path)
    and no mapping configured before [m] has a [remote_root] that starts
    the runtime path, [convert_to_client_path] gives the client path back;
    a client path that no [local_root] starts is passed through
    unchanged. *)
Theorem path_round_trip (st : AnsibleDebugger) (ms1 ms2 : list PathMapping)
    (m : PathMapping) (p : string) :
  path_mappings (_debug_config st) = ms1 ++ m :: ms2 →
  Forall (fun m' => Py.startswith p (local_root m') = false) ms1 →
  Py.startswith p (local_root m) = true →
  Forall (fun m' =>
            Py.startswith
              (remote_root m +:+ Py.slice_from p (String.length (local_root m)))
              (remote_root m') = false) ms1 →
  convert_to_actual_path (path_mappings (_debug_config st)) p
  = remote_root m +:+ Py.slice_from p (String.length (local_root m))
  ∧ convert_to_client_path st
      (convert_to_actual_path (path_mappings (_debug_config st)) p) = p
  ∧ ∀ q, Forall (fun m' => Py.startswith q (local_root m') = false)
           (path_mappings (_debug_config st)) →
         convert_to_actual_path (path_mappings (_debug_config st)) q = q.
Proof.
  intros Hms Hlocal Hm Hremote. unfold convert_to_client_path. rewrite Hms.
  rewrite convert_to_actual_path_first by done.
  split; [done |]. split.
  - rewrite convert_path_mappings_first; [| done | apply startswith_app].
    rewrite slice_from_app. symmetry. by apply startswith_split.
  - intros q. generalize (ms1 ++ m :: ms2). intros ms.
    induction 1 as [| m' ms' Hm' _ IH]; [done |]. cbn. by rewrite Hm'.
Qed.

Lemma path_round_trip_witness :
  convert_to_client_path
    (with_debug_config init
       {| path_mappings :=
            [ {| local_root := "/home/me/roles"; remote_root := "/srv/roles" |};
              {| local_root := "/home/me"; remote_root := "/srv/play" |} ] |})
    (convert_to_actual_path
       [ {| local_root := "/home/me/roles"; remote_root := "/srv/roles" |};
         {| local_root := "/home/me"; remote_root := "/srv/play" |} ]
       "/home/me/site.yml")
  = "/home/me/site.yml"%string.
Proof.
  apply (path_round_trip
           (with_debug_config init
              {| path_mappings :=
                   [ {| local_root := "/home/me/roles";
                        remote_root := "/srv/roles" |};
                     {| local_root := "/home/me";
                        remote_root := "/srv/play" |} ] |})
           [ {| local_root := "/home/me/roles"; remote_root := "/srv/roles" |} ]
           []
           {| local_root := "/home/me"; remote_root := "/srv/play" |}
           "/home/me/site.yml").
  - reflexivity.
  - repeat constructor.
  - reflexivity.
  - repeat constructor.
Defined.

(** With two mappings whose remote roots nest, the way back takes the
    first mapping although the way there took the second. *)
Lemma path_round_trip_counterexample :
  Py.startswith "/b/site.yml" "/a" = false
  ∧ Py.startswith "/b/site.yml" "/b" = true
  ∧ convert_to_actual_path
      [ {| local_root := "/a"; remote_root := "/x" |};
        {| local_root := "/b"; remote_root := "/x/y" |} ] "/b/site.yml"
    = "/x/y/site.yml"%string
  ∧ convert_to_client_path
      (with_debug_config init
         {| path_mappings :=
              [ {| local_root := "/a"; remote_root := "/x" |};
                {| local_root := "/b"; remote_root := "/x/y" |} ] |})
      "/x/y/site.yml"
    = "/a/y/site.yml"%string
  ∧ convert_to_client_path
      (with_debug_config init
         {| path_mappings :=
              [ {| local_root := "/a"; remote_root := "/x" |};
                {| local_root := "/b"; remote_root := "/x/y" |} ] |})
      (convert_to_actual_path
         [ {| local_root := "/a"; remote_root := "/x" |};
           {| local_root := "/b"; remote_root := "/x/y" |} ] "/b/site.yml")
    ≠ "/b/site.yml"%string.
Proof. split_and!; try reflexivity. vm_compute. discriminate. Qed.

(** ** Breakpoints of a modified source *)

Lemma get_breakpoint_stored (st : AnsibleDebugger) (path : string) (line : Z)
    (b : AnsibleLineBreakpoint.t) :
  get_breakpoint st path line = Some b →
  _send_queue_active st = true
  ∧ (∃ k, (k, b) ∈ _breakpoints st)
  ∧ AnsibleLineBreakpoint.actual_path b = path
  ∧ line_matches (AnsibleLineBreakpoint.breakpoint b) line = true.
Proof.
  unfold get_breakpoint. destruct (_send_queue_active st); [| done]. cbn.
  intros Hfind. apply find_some in Hfind as [Hin Htest].
  apply andb_true_iff in Htest as [Hp Hm]. apply bool_decide_eq_true in Hp.
  split_and!; try done.
  apply in_map_iff in Hin as ([k b'] & Hb & Hin). cbn in Hb. subst b'.
  exists k. by apply list_elem_of_In.
Qed.

(** C6: a set-breakpoints request with the source-modified flag set returns
    a response with one entry per requested line, in order, each unverified
    with the message "Cannot set breakpoint on a modified source." and the
    next id of the counter; none of them is stored (the dictionary only
    loses the old entries of the client path), and after any further run of
    the debugger no lookup returns a breakpoint with the id or the state of
    one of these entries. *)
Theorem modified_source_transient (st : AnsibleDebugger)
    (msg : SetBreakpointsRequest) :
  reachable st → source_modified msg = true →
  ∃ entries st',
    set_breakpoints msg st
    = (Ok (SetBreakpointsResponse (seq msg) entries), st')
    ∧ length entries = length (req_breakpoints msg)
    ∧ (∀ (i : nat) sb,
         req_breakpoints msg !! i = Some sb →
         entries !! i
         = Some (Breakpoint.mk (_breakpoint_counter st + Z.of_nat i) false
                   (Some modified_source) (req_source msg) None None))
    ∧ _breakpoint_counter (process_message msg st).2
      = _breakpoint_counter st + Z.of_nat (length (req_breakpoints msg))
    ∧ _breakpoints (process_message msg st).2
      = filter (fun kb : Z * AnsibleLineBreakpoint.t =>
                  AnsibleLineBreakpoint.source_path kb.2
                  ≠ request_source_path msg)
          (_breakpoints st)
    ∧ (∀ bp k b, bp ∈ entries →
                 (k, b) ∈ _breakpoints (process_message msg st).2 →
                 k ≠ Breakpoint.id bp
                 ∧ AnsibleLineBreakpoint.breakpoint b ≠ bp)
    ∧ (∀ ops path line b bp,
         get_breakpoint (run ops (process_message msg st).2) path line
         = Some b →
         bp ∈ entries →
         AnsibleLineBreakpoint.id b ≠ Breakpoint.id bp
         ∧ AnsibleLineBreakpoint.breakpoint b ≠ bp).
Proof.
  intros Hreach Hmod. apply reachable_inv in Hreach.
  pose proof (inv_keys_below _ _ _ Hreach) as Hbelow.
  destruct (process_message_breakpoints msg st) as [Hpb Hpc].
  destruct (set_breakpoints_ok msg st Hbelow) as (st' & Hrun & Hc & Hb & _).
  { intros Hf. congruence. }
  rewrite Hmod, app_nil_r in Hb. rewrite Hrun in Hpb, Hpc. cbn [snd] in Hpb, Hpc.
  set (c := _breakpoint_counter st) in *.
  set (n := Z.of_nat (length (req_breakpoints msg))) in *.
  set (entries := imap _ _) in Hrun.
  assert (∀ bp, bp ∈ entries → c ≤ Breakpoint.id bp < c + n) as Hids.
  { intros bp Hin. subst entries.
    apply elem_of_lookup_imap in Hin as (i & sb & -> & Hsb).
    apply lookup_lt_Some in Hsb. unfold classified. rewrite Hmod. cbn.
    subst n. lia. }
  assert (inv c (c + n) (process_message msg st).2) as Hinv.
  { assert (_source_info (process_message msg st).2 = _source_info st) as Hs.
    { unfold process_message, bind. rewrite Hrun.
      pose proof (send_frame (Some (SetBreakpointsResponse (seq msg) entries))
                    st') as (_ & _ & _ & _ & _ & Hs & _).
      rewrite Hs. apply set_breakpoints_frame in Hrun; [| done].
      apply Hrun. }
    split.
    - intros p T. rewrite Hs. apply Hreach.
    - rewrite Hpc, Hc. lia.
    - rewrite Hpb, Hpc, Hb, Hc. apply Forall_forall.
      intros kb Hkb%list_elem_of_filter.
      destruct Hkb as [_ Hkb].
      pose proof (inv_keys _ _ _ Hreach) as Hkeys.
      eapply Forall_forall in Hkeys; [| exact Hkb].
      destruct Hkeys as (? & ? & ? & ?). fold c in H1.
      split_and!; try done; lia.
    - rewrite Hpb, Hb. eapply sublist_NoDup; [apply (inv_nodup _ _ _ Hreach) |].
      apply fmap_sublist, sublist_filter. }
  assert (∀ ops bp k b,
            bp ∈ entries →
            (k, b) ∈ _breakpoints (run ops (process_message msg st).2) →
            k ≠ Breakpoint.id bp
            ∧ AnsibleLineBreakpoint.id b ≠ Breakpoint.id bp
            ∧ AnsibleLineBreakpoint.breakpoint b ≠ bp) as Hnever.
  { intros ops bp k b Hbp Hin.
    pose proof (inv_keys _ _ _ (run_inv _ _ ops _ Hinv)) as Hkeys.
    eapply Forall_forall in Hkeys; [| exact Hin].
    cbn in Hkeys. destruct Hkeys as (Hk1 & Hk2 & _ & Hk3).
    apply Hids in Hbp.
    split_and!; [lia | lia |]. intros <-. lia. }
  exists entries, st'. split; [exact Hrun |].
  split; [apply length_imap |]. split.
  { intros i sb Hsb. subst entries. rewrite list_lookup_imap, Hsb.
    unfold classified. by rewrite Hmod. }
  split; [by rewrite Hpc |]. split; [by rewrite Hpb |]. split.
  - intros bp k b Hbp Hin.
    destruct (Hnever [] bp k b Hbp Hin) as (? & _ & ?). done.
  - intros ops path line b bp Hget Hbp.
    apply get_breakpoint_stored in Hget as (_ & (k & Hin) & _).
    destruct (Hnever ops bp k b Hbp Hin) as (_ & ? & ?). done.
Qed.

Lemma modified_source_transient_witness :
  reachable (run [OpConnectionMade] init)
  ∧ ∃ st',
      set_breakpoints (request "site.yml" [3; 8] true)
        (run [OpConnectionMade] init)
      = (Ok (SetBreakpointsResponse 7
               [Breakpoint.mk 1 false (Some modified_source)
                  (Source.mk None (Some "site.yml"%string)) None None;
                Breakpoint.mk 2 false (Some modified_source)
                  (Source.mk None (Some "site.yml"%string)) None None]),
         st')
      ∧ get_breakpoint
          (run [OpRegister "site.yml" 3 1]
             (process_message (request "site.yml" [3; 8] true)
                (run [OpConnectionMade] init)).2)
          "site.yml" 3
        = None.
Proof.
  assert (reachable (run [OpConnectionMade] init)) as Hreach by (by eexists).
  split; [exact Hreach |].
  destruct (modified_source_transient _ (request "site.yml" [3; 8] true)
              Hreach eq_refl)
    as (entries & st' & Hrun & _).
  exists st'. split; [| vm_compute; reflexivity].
  rewrite Hrun. pose proof Hrun as Hrun'. vm_compute in Hrun'.
  injection Hrun' as <- <-. reflexivity.
Defined.

(** ** Lookup *)

Lemma line_matches_spec (path : string) (line : Z)
    (b : AnsibleLineBreakpoint.t) :
  bool_decide (AnsibleLineBreakpoint.actual_path b = path)
  && line_matches (AnsibleLineBreakpoint.breakpoint b) line = true
  ↔ matches path line b.
Proof.
  unfold matches, line_matches.
  rewrite !andb_true_iff, bool_decide_eq_true.
  destruct (Breakpoint.line _) as [l |], (Breakpoint.end_line _) as [e |];
    rewrite ?Z.leb_le; split; intros (Hp & Hl & He);
    (split; [exact Hp |]); split.
  all: try (intros x [= <-]; assumption).
  all: try (intros x Hx; discriminate Hx).
  all: try reflexivity.
  all: try (by apply Hl).
  all: try (by apply He).
Qed.

Lemma find_snd_Some {K A} (f : A → bool) (l : list (K * A)) (x : A) :
  List.find f (map snd l) = Some x
  ↔ ∃ l1 k l2, l = l1 ++ (k, x) :: l2 ∧ f x = true
               ∧ Forall (fun kb : K * A => f kb.2 = false) l1.
Proof.
  induction l as [| [k0 a] l IH]; cbn.
  - split; [done |]. intros (l1 & k & l2 & Hl & _). by destruct l1.
  - destruct (f a) eqn:Hfa; split.
    + intros [= <-]. by exists [], k0, l.
    + intros (l1 & k & l2 & Hl & Hx & Hl1).
      destruct l1 as [| [k1 a1] l1]; [by injection Hl as -> -> |].
      injection Hl as -> -> ->. apply Forall_cons in Hl1 as [Hf _].
      cbn in Hf. congruence.
    + intros Hfind. apply IH in Hfind as (l1 & k & l2 & -> & Hx & Hl1).
      exists ((k0, a) :: l1), k, l2. split_and!; try done.
      by constructor.
    + intros (l1 & k & l2 & Hl & Hx & Hl1).
      destruct l1 as [| [k1 a1] l1].
      * injection Hl as -> -> ->. congruence.
      * injection Hl as -> -> ->. apply Forall_cons in Hl1 as [_ Hl1].
        apply IH. by exists l1, k, l2.
Qed.

Lemma find_snd_None {K A} (f : A → bool) (l : list (K * A)) :
  List.find f (map snd l) = None
  ↔ Forall (fun kb : K * A => f kb.2 = false) l.
Proof.
  induction l as [| [k0 a] l IH]; cbn.
  - split; [constructor | done].
  - destruct (f a) eqn:Hfa; split.
    + done.
    + intros [Hf _]%Forall_cons. cbn in Hf. congruence.
    + intros Hfind. constructor; [done | by apply IH].
    + intros [_ Hl]%Forall_cons. by apply IH.
Qed.

Lemma not_matches_spec (path : string) (line : Z)
    (b : AnsibleLineBreakpoint.t) :
  bool_decide (AnsibleLineBreakpoint.actual_path b = path)
  && line_matches (AnsibleLineBreakpoint.breakpoint b) line = false
  ↔ ¬ matches path line b.
Proof.
  rewrite <- line_matches_spec. by destruct (_ && _).
Qed.

(** C7: with the send queue inactive [get_breakpoint] returns nothing,
    whatever is stored; with the send queue active it returns the first
    stored breakpoint, in the order of the dictionary, whose runtime path
    is the queried path and whose resolved range holds the queried line,
    and nothing when no stored breakpoint is such. *)
Theorem get_breakpoint_first (st : AnsibleDebugger) (path : string)
    (line : Z) :
  (_send_queue_active st = false → get_breakpoint st path line = None)
  ∧ (_send_queue_active st = true →
     (∀ b, get_breakpoint st path line = Some b
           ↔ ∃ l1 k l2,
               _breakpoints st = l1 ++ (k, b) :: l2
               ∧ matches path line b
               ∧ Forall (fun kb : Z * AnsibleLineBreakpoint.t =>
                           ¬ matches path line kb.2) l1)
     ∧ (get_breakpoint st path line = None
        ↔ Forall (fun kb : Z * AnsibleLineBreakpoint.t =>
                    ¬ matches path line kb.2) (_breakpoints st))).
Proof.
  unfold get_breakpoint. split; intros Ha; rewrite Ha; cbn; [done |].
  split.
  - intros b. rewrite find_snd_Some.
    split; intros (l1 & k & l2 & Hl & Hb & Hl1); exists l1, k, l2;
      (split; [done |]); (split; [by apply line_matches_spec |]);
      (eapply Forall_impl; [exact Hl1 |]); intros kb Hkb;
      by apply not_matches_spec.
  - rewrite find_snd_None.
    split; intros Hall; (eapply Forall_impl; [exact Hall |]); intros kb Hkb;
      by apply not_matches_spec.
Qed.

Lemma get_breakpoint_first_witness :
  get_breakpoint
    (run [OpConnectionMade; OpSetBreakpoints (request "site.yml" [3] false);
          OpSessionEnd] init)
    "site.yml" 3
  = None.
Proof.
  apply (proj1 (get_breakpoint_first
                  (run [OpConnectionMade;
                        OpSetBreakpoints (request "site.yml" [3] false);
                        OpSessionEnd] init) "site.yml" 3)).
  reflexivity.
Defined.

(** ** Breakpoints without an end line *)

Lemma get_breakpoint_active (st : AnsibleDebugger) (path : string) (line : Z) :
  _send_queue_active st = true →
  get_breakpoint st path line
  = List.find
      (fun b => bool_decide (AnsibleLineBreakpoint.actual_path b = path)
                && line_matches (AnsibleLineBreakpoint.breakpoint b) line)
      (map snd (_breakpoints st)).
Proof. intros Ha. unfold get_breakpoint. by rewrite Ha. Qed.

(** C10, as the code has it: a stored breakpoint without an end line (the
    state in which the handler stores a breakpoint of a path that has no
    table: unverified, "not loaded", with the requested line as its line)
    answers, with the send queue active, every queried line of its runtime
    path from its line on, and every line when it has no line either,
    verified or not; [get_breakpoint] then returns a stored breakpoint for
    such a query: the first one of the dictionary that answers it, which is
    this breakpoint when none stored before it does. *)
Theorem lookup_unbounded (st : AnsibleDebugger)
    (l1 l2 : list (Z * AnsibleLineBreakpoint.t)) (k : Z)
    (b : AnsibleLineBreakpoint.t) (q : Z) :
  _send_queue_active st = true →
  _breakpoints st = l1 ++ (k, b) :: l2 →
  Breakpoint.end_line (AnsibleLineBreakpoint.breakpoint b) = None →
  (∀ l, Breakpoint.line (AnsibleLineBreakpoint.breakpoint b) = Some l →
        l ≤ q) →
  matches (AnsibleLineBreakpoint.actual_path b) q b
  ∧ (∃ b', get_breakpoint st (AnsibleLineBreakpoint.actual_path b) q = Some b'
           ∧ matches (AnsibleLineBreakpoint.actual_path b) q b')
  ∧ (Forall (fun kb : Z * AnsibleLineBreakpoint.t =>
               ¬ matches (AnsibleLineBreakpoint.actual_path b) q kb.2) l1 →
     get_breakpoint st (AnsibleLineBreakpoint.actual_path b) q = Some b)
  ∧ (∀ st0 msg,
       reachable st0 → source_modified msg = false →
       _source_info st0 !! request_actual_path st0 msg = None →
       ∃ resp st',
         set_breakpoints msg st0 = (Ok resp, st')
         ∧ ∀ k' b',
             (k', b') ∈ _breakpoints st' →
             AnsibleLineBreakpoint.source_path b' = request_source_path msg →
             AnsibleLineBreakpoint.actual_path b' = request_actual_path st0 msg
             ∧ AnsibleLineBreakpoint.breakpoint b'
               = Breakpoint.mk k' false (Some not_loaded) (req_source msg)
                   (Some (SourceBreakpoint.line
                            (AnsibleLineBreakpoint.source_breakpoint b')))
                   None).
Proof.
  intros Ha Hbps Hend Hline.
  assert (matches (AnsibleLineBreakpoint.actual_path b) q b) as Hb.
  { unfold matches. split_and!; [done | done |]. intros e He. congruence. }
  split; [exact Hb |]. rewrite get_breakpoint_active by done.
  split; [| split].
  - destruct (List.find _ _) as [b' |] eqn:Hfind.
    + exists b'. split; [done |].
      apply find_snd_Some in Hfind as (? & ? & ? & _ & Hm & _).
      by apply line_matches_spec.
    + apply find_snd_None in Hfind. rewrite Hbps in Hfind.
      apply Forall_app in Hfind as [_ Hfind].
      apply Forall_cons in Hfind as [Hfind _].
      apply not_matches_spec in Hfind. done.
  - intros Hl1. apply find_snd_Some. exists l1, k, l2.
    split; [done |]. split; [by apply line_matches_spec |].
    eapply Forall_impl; [exact Hl1 |]. intros kb Hkb.
    by apply not_matches_spec.
  - intros st0 msg Hreach Hmod Hnone. apply reachable_inv in Hreach.
    destruct (set_breakpoints_ok msg st0) as (st' & Hrun & _ & Hb' & _).
    { by eapply inv_keys_below. }
    { intros _. rewrite Hnone. by apply Forall_forall. }
    eexists _, st'. split; [exact Hrun |].
    intros k' b' Hin Hsp. rewrite Hb', Hmod, Hnone in Hin.
    apply elem_of_app in Hin as [Hin | Hin].
    + apply list_elem_of_filter in Hin as [Hne _]. done.
    + apply elem_of_lookup_imap in Hin as (i & sb & Heq & _).
      unfold stored, classified in Heq. rewrite Hmod in Heq.
      injection Heq as -> ->. done.
Qed.

Lemma lookup_unbounded_witness :
  ∃ b,
    _breakpoints
      (run [OpConnectionMade;
            OpSetBreakpoints (request "site.yml" [3; 5] false)] init)
      !! 0%nat = Some (1, b)
    ∧ get_breakpoint
        (run [OpConnectionMade;
              OpSetBreakpoints (request "site.yml" [3; 5] false)] init)
        (AnsibleLineBreakpoint.actual_path b) 4
      = Some b.
Proof.
  eexists. split; [vm_compute; reflexivity |].
  eapply (lookup_unbounded _ [] _ 1 _ 4).
  - vm_compute. reflexivity.
  - vm_compute. reflexivity.
  - reflexivity.
  - intros l [= <-]. lia.
  - constructor.
Defined.

(** For a line that two stored breakpoints without an end line answer,
    [get_breakpoint] returns the one stored first, not the other. *)
Lemma lookup_unbounded_counterexample :
  ∃ b1 b2,
    _breakpoints
      (run [OpConnectionMade;
            OpSetBreakpoints (request "site.yml" [3; 5] false)] init)
    = [(1, b1); (2, b2)]
    ∧ _send_queue_active
        (run [OpConnectionMade;
              OpSetBreakpoints (request "site.yml" [3; 5] false)] init)
      = true
    ∧ Breakpoint.end_line (AnsibleLineBreakpoint.breakpoint b2) = None
    ∧ Breakpoint.line (AnsibleLineBreakpoint.breakpoint b2) = Some 5
    ∧ SourceBreakpoint.line (AnsibleLineBreakpoint.source_breakpoint b2) = 5
    ∧ 5 ≤ 7
    ∧ get_breakpoint
        (run [OpConnectionMade;
              OpSetBreakpoints (request "site.yml" [3; 5] false)] init)
        (AnsibleLineBreakpoint.actual_path b2) 7
      = Some b1
    ∧ b1 ≠ b2.
Proof.
  eexists _, _. split; [vm_compute; reflexivity |].
  split_and!; try (vm_compute; reflexivity); [lia | discriminate].
Qed.

(** * Further properties of the code *)

(** ** The resolved range is the run around the requested line *)

Lemma is_run_unique (T : list (option Z)) (m : Z) (r r' : Resolved) :
  is_run T m r → is_run T m r' → r = r'.
Proof.
  intros (Hs & He & (v & Hv & Hver & Hmsg) & Hnone & Hnext)
         (Hs' & He' & (v' & Hv' & Hver' & Hmsg') & Hnone' & Hnext').
  assert (r_start r = r_start r') as Hstart.
  { destruct (Z.lt_trichotomy (r_start r) (r_start r')) as [Hlt | [Heq | Hgt]];
      [| done |].
    - specialize (Hnone (r_start r') ltac:(lia)). congruence.
    - specialize (Hnone' (r_start r) ltac:(lia)). congruence. }
  assert (r_end r = r_end r') as Hend.
  { destruct (Z.lt_trichotomy (r_end r) (r_end r')) as [Hlt | [Heq | Hgt]];
      [| done |].
    - destruct (Hnext ltac:(lia)) as [w Hw].
      specialize (Hnone' (r_end r + 1) ltac:(lia)). congruence.
    - destruct (Hnext' ltac:(lia)) as [w Hw].
      specialize (Hnone (r_end r' + 1) ltac:(lia)). congruence. }
  rewrite Hstart in Hv. assert (v = v') as -> by congruence.
  destruct r, r'. cbn in *. congruence.
Qed.

Lemma resolve_is_run (T : list (option Z)) (L : Z) :
  table_ok T → 0 ≤ L →
  ∃ r, resolve T L = Ok r ∧ is_run T (Z.min L (Py.len T - 1)) r.
Proof.
  intros HT HL.
  destruct (resolve_ok T L HT HL)
    as (r & v & Hr & Hs & He & Hv & Hver & Hmsg & Hnone & Hnext).
  exists r. split; [done |]. unfold is_run. split_and!; try done; try lia.
  by exists v.
Qed.

(** X1: on a table whose slot 0 is classified, a requested line that is not
    negative resolves, after clamping to the last slot, to exactly the run
    of the table around it; the resolution never raises there. *)
Theorem resolve_iff_run (T : list (option Z)) (L : Z) (r : Resolved) :
  table_ok T → 0 ≤ L →
  (resolve T L = Ok r ↔ is_run T (Z.min L (Py.len T - 1)) r)
  ∧ ∃ r0, resolve T L = Ok r0.
Proof.
  intros HT HL. destruct (resolve_is_run T L HT HL) as (r0 & Hr0 & Hrun0).
  split; [| by exists r0]. split.
  - intros Hr. rewrite Hr0 in Hr. by injection Hr as <-.
  - intros Hrun. rewrite Hr0. f_equal. by eapply is_run_unique.
Qed.

Lemma resolve_iff_run_witness :
  resolve [Some 0; None; Some 1; None; None; Some 0] 4
  = Ok {| r_verified := true; r_msg := None; r_start := 2; r_end := 4 |}.
Proof.
  apply (resolve_iff_run [Some 0; None; Some 1; None; None; Some 0] 4).
  - by eexists _, _.
  - lia.
  - unfold is_run. cbn [r_start r_end r_verified r_msg].
    change (Py.len _) with 6. change (Z.min 4 (6 - 1)) with 4.
    split; [lia |]. split; [lia |]. split; [by exists 1 |]. split.
    + intros j Hj. assert (j = 3 ∨ j = 4) as [-> | ->] by lia; reflexivity.
    + intros _. by exists 0.
Defined.

(** X2: every line of a resolved range resolves to that same range, and so
    does every line beyond the table when the range reaches the last slot:
    the resolution of a resolved start line changes nothing. *)
Theorem resolve_same_run (T : list (option Z)) (L L' : Z) (r : Resolved) :
  table_ok T → 0 ≤ L → resolve T L = Ok r →
  r_start r ≤ Z.min L' (Py.len T - 1) ≤ r_end r →
  resolve T L' = Ok r ∧ resolve T (r_start r) = Ok r.
Proof.
  intros HT HL Hr HL'.
  destruct (resolve_is_run T L HT HL) as (r0 & Hr0 & Hrun).
  rewrite Hr0 in Hr. injection Hr as ->.
  destruct Hrun as (Hs & He & Hv & Hnone & Hnext).
  assert (∀ m, 0 ≤ m → r_start r ≤ Z.min m (Py.len T - 1) ≤ r_end r →
               resolve T m = Ok r) as Hsame.
  { intros m Hm Hin.
    destruct (resolve_is_run T m HT Hm) as (r1 & Hr1 & Hrun1).
    rewrite Hr1. f_equal. eapply is_run_unique; [exact Hrun1 |].
    unfold is_run. split_and!; try done; lia. }
  split; apply Hsame; lia.
Qed.

Lemma resolve_same_run_witness :
  resolve [Some 0; None; Some 1; None] 99
  = Ok {| r_verified := true; r_msg := None; r_start := 2; r_end := 3 |}
  ∧ resolve [Some 0; None; Some 1; None] 2
    = Ok {| r_verified := true; r_msg := None; r_start := 2; r_end := 3 |}.
Proof.
  apply (resolve_same_run [Some 0; None; Some 1; None] 3 99).
  - by eexists _, _.
  - lia.
  - reflexivity.
  - change (Py.len _) with 4. cbn [r_start r_end]. lia.
Defined.

(** ** Negative requested lines *)

Lemma getitem_neg {A} (l : list A) (i : Z) :
  - Py.len l ≤ i < 0 → Py.getitem l i = l !! Z.to_nat (Py.len l + i).
Proof.
  intros Hi. unfold Py.getitem.
  destruct (Z.leb_spec 0 i); [lia |].
  destruct (Z.leb_spec (- Py.len l) i); [done | lia].
Qed.

Lemma getitem_below {A} (l : list A) (i : Z) :
  i < - Py.len l → Py.getitem l i = None.
Proof.
  intros Hi. unfold Py.getitem. unfold Py.len in *.
  destruct (Z.leb_spec 0 i); [lia |].
  destruct (Z.leb_spec (- Z.of_nat (length l)) i); [lia | done].
Qed.

Lemma getitem_in_range_neg {A} (l : list A) (i : Z) :
  - Py.len l ≤ i < 0 → ∃ x, Py.getitem l i = Some x.
Proof.
  intros Hi. rewrite getitem_neg by done.
  apply lookup_lt_is_Some. unfold Py.len in *. lia.
Qed.

Lemma scan_back_neg (T : list (option Z)) (fuel : nat) :
  table_ok T →
  ∀ start_line line_type,
    - Py.len T ≤ start_line < 0 →
    (Z.to_nat (start_line + Py.len T) ≤ fuel)%nat →
    Py.getitem T start_line = Some line_type →
    ∃ s v, scan_back fuel T start_line line_type = Ok (s, v)
           ∧ - Py.len T ≤ s ≤ start_line.
Proof.
  intros HT.
  assert (Py.getitem T (- Py.len T) = Some (Some (default 0 (mjoin (head T)))))
    as Hfront.
  { destruct HT as (v0 & rest & ->). rewrite getitem_neg.
    - replace (Py.len (Some v0 :: rest) + - Py.len (Some v0 :: rest)) with 0
        by lia. done.
    - unfold Py.len. cbn [length]. lia. }
  induction fuel as [| fuel IH]; intros start_line line_type Hr Hfuel Hget.
  - assert (start_line = - Py.len T) as -> by lia.
    rewrite Hfront in Hget. injection Hget as <-. cbn.
    eexists _, _. split; [done | lia].
  - destruct line_type as [v |]; cbn [scan_back].
    { exists start_line, v. split; [done | lia]. }
    assert (start_line ≠ - Py.len T) as Hne.
    { intros ->. rewrite Hfront in Hget. done. }
    destruct (getitem_in_range_neg T (start_line - 1)) as [lt' Hlt'];
      [lia |].
    rewrite Hlt'.
    destruct (IH (start_line - 1) lt') as (s & v & Hs & Hsr); [lia | lia | done |].
    exists s, v. split; [done | lia].
Qed.

Lemma scan_fwd_neg (T : list (option Z)) (fuel : nat) :
  table_ok T →
  ∀ end_line,
    - Py.len T < end_line ≤ 0 →
    (Z.to_nat (- end_line) ≤ fuel)%nat →
    ∃ e, scan_fwd fuel T end_line = Ok e ∧ end_line ≤ e ≤ 0.
Proof.
  intros HT. pose proof (table_ok_len T HT) as Hlen.
  assert (∀ fuel', scan_fwd fuel' T 0 = Ok 0) as Hzero.
  { intros fuel'. destruct HT as (v0 & rest & ->).
    destruct fuel'; cbn [scan_fwd];
      (destruct (Z.ltb_spec 0 (Py.len (Some v0 :: rest))); [| lia]); done. }
  induction fuel as [| fuel IH]; intros end_line Hr Hfuel.
  - assert (end_line = 0) as -> by lia. exists 0. split; [apply Hzero | lia].
  - destruct (decide (end_line = 0)) as [-> | Hne].
    { exists 0. split; [apply Hzero | lia]. }
    cbn [scan_fwd].
    destruct (Z.ltb_spec end_line (Py.len T)); [| lia].
    destruct (getitem_in_range_neg T end_line) as [[v |] Hx]; [lia | |];
      rewrite Hx.
    + exists end_line. split; [done | lia].
    + destruct (IH (end_line + 1)) as (e & He & Her); [lia | lia |].
      exists e. split; [done | lia].
Qed.

(** X3: on a table whose slot 0 is classified the resolution raises
    [IndexError] exactly for the requested lines below [-len(T)]; a
    negative line from [-len(T)] on is taken as an index from the end of
    the table and resolves to a range of negative line numbers. *)
Theorem resolve_raises_iff (T : list (option Z)) (L : Z) :
  table_ok T →
  (resolve T L = Raise IndexError ↔ L < - Py.len T)
  ∧ (- Py.len T ≤ L < 0 →
     ∃ r, resolve T L = Ok r
          ∧ - Py.len T ≤ r_start r ≤ L ∧ L ≤ r_end r < 0).
Proof.
  intros HT. pose proof (table_ok_len T HT) as Hlen.
  assert (- Py.len T ≤ L < 0 →
          ∃ r, resolve T L = Ok r
               ∧ - Py.len T ≤ r_start r ≤ L ∧ L ≤ r_end r < 0) as Hneg.
  { intros HL. unfold resolve.
    replace (Z.min L (Py.len T - 1)) with L by lia.
    destruct (getitem_in_range_neg T L HL) as [line_type Hget]. rewrite Hget.
    destruct (scan_back_neg T (S (2 * length T)) HT L line_type)
      as (s & v & -> & Hs); [done | | done |].
    { unfold Py.len in *. lia. }
    destruct (scan_fwd_neg T (S (2 * length T)) HT (L + 1))
      as (e & -> & He); [lia | |].
    { unfold Py.len in *. lia. }
    replace (Z.min (e - 1) (Py.len T)) with (e - 1) by lia.
    destruct (v =? 0); eexists; (split; [reflexivity |]);
      cbn [r_start r_end]; lia. }
  split; [| exact Hneg]. split.
  - intros Hraise.
    destruct (Z.lt_ge_cases L (- Py.len T)) as [| Hge]; [done |].
    destruct (Z.lt_ge_cases L 0) as [Hlt | Hnn].
    + destruct (Hneg ltac:(lia)) as (r & Hr & _). congruence.
    + destruct (resolve_ok T L HT Hnn) as (r & _ & Hr & _). congruence.
  - intros HL. unfold resolve.
    replace (Z.min L (Py.len T - 1)) with L by lia.
    by rewrite getitem_below.
Qed.

Lemma resolve_raises_iff_witness :
  resolve [Some 0; None; Some 1; None] (-5) = Raise IndexError
  ∧ ∃ r, resolve [Some 0; None; Some 1; None] (-1) = Ok r
         ∧ r_start r = -2 ∧ r_end r = -1 ∧ r_verified r = true.
Proof.
  destruct (resolve_raises_iff [Some 0; None; Some 1; None] (-5)) as [Hiff _].
  { by eexists _, _. }
  split; [apply Hiff; vm_compute; reflexivity |].
  eexists. split; [vm_compute; reflexivity |]. done.
Defined.

(** ** What a registration puts on the send queue *)

Lemma reresolve_loop_events (path : string) (T : list (option Z))
    (todo : list (Z * AnsibleLineBreakpoint.t)) :
  ∀ (before : list (Z * AnsibleLineBreakpoint.t)) (st st' : AnsibleDebugger)
    (out : outcome unit),
    _breakpoints st = before ++ todo →
    reresolve_loop path T (length before) todo st = (out, st') →
    ∃ todo' evs,
      _breakpoints st' = before ++ todo'
      ∧ _send_queue st' = _send_queue st ++ evs
      ∧ (_send_queue_active st = false → evs = [])
      ∧ (length evs ≤ length todo)%nat
      ∧ Forall (changed_event_of path todo') evs.
Proof.
  induction todo as [| [k b] rest IH]; intros before st st' out Hbps Hrun.
  - cbn in Hrun. injection Hrun as <- <-. exists [], [].
    rewrite app_nil_r in Hbps. rewrite !app_nil_r.
    split_and!; done.
  - cbn [reresolve_loop] in Hrun.
    assert (∀ b' st1 new,
      _breakpoints st1 = before ++ (k, b') :: rest →
      _send_queue st1 = _send_queue st ++ new →
      _send_queue_active st1 = _send_queue_active st →
      (_send_queue_active st = false → new = []) →
      (length new ≤ 1)%nat →
      Forall (changed_event_of path [(k, b')]) new →
      reresolve_loop path T (S (length before)) rest st1 = (out, st') →
      ∃ todo' evs,
        _breakpoints st' = before ++ todo'
        ∧ _send_queue st' = _send_queue st ++ evs
        ∧ (_send_queue_active st = false → evs = [])
        ∧ (length evs ≤ length ((k, b) :: rest))%nat
        ∧ Forall (changed_event_of path todo') evs) as Hnext.
    { intros b' st1 new Hb1 Hq1 Ha1 Hnew Hlen Hev Hrun1.
      rewrite <- length_snoc with (x := (k, b')) in Hrun1.
      apply IH in Hrun1 as (todo' & evs & Hb' & Hq' & Hoff & Hlen' & Hall);
        [| by rewrite <- app_assoc].
      exists ((k, b') :: todo'), (new ++ evs).
      rewrite <- app_assoc in Hb'. split; [done |]. split.
      { rewrite Hq', Hq1. by rewrite app_assoc. }
      split.
      { intros Ha. rewrite Hnew by done. apply Hoff. congruence. }
      split. { rewrite length_app. cbn [length]. lia. }
      apply Forall_app. split.
      - eapply Forall_impl; [exact Hev |].
        intros m (k0 & b0 & -> & Hin & Hp & Hid). exists k0, b0.
        split_and!; try done. apply elem_of_cons. left.
        by apply list_elem_of_singleton in Hin.
      - eapply Forall_impl; [exact Hall |].
        intros m (k0 & b0 & -> & Hin & Hp & Hid). exists k0, b0.
        split_and!; try done. apply elem_of_cons. by right. }
    case_bool_decide as Hpath.
    + eapply (Hnext b st []);
        [done | by rewrite app_nil_r | done | done | cbn; lia | constructor
        | exact Hrun].
    + unfold bind at 1, lift in Hrun.
      destruct (resolve T _) as [r | e |].
      2,3: injection Hrun as <- <-; exists ((k, b) :: rest), [];
           rewrite app_nil_r; split_and!; try done; cbn; lia.
      destruct (changed (AnsibleLineBreakpoint.breakpoint b) r).
      * unfold bind, modify, send in Hrun. cbn beta iota in Hrun.
        rewrite Hbps, insert_at_length in Hrun.
        cbn [_send_queue_active with_breakpoints] in Hrun.
        assert (AnsibleLineBreakpoint.actual_path b = path) as Hp
          by (by destruct (decide (AnsibleLineBreakpoint.actual_path b = path))).
        destruct (_send_queue_active st) eqn:Hactive.
        -- eapply (Hnext _ _ [_]); [| | | | | | exact Hrun];
             [reflexivity | reflexivity | done | done | cbn; lia |].
           repeat constructor.
           exists k, (with_breakpoint b (resolved_breakpoint b r)).
           split; [reflexivity |].
           split; [apply list_elem_of_singleton; reflexivity |]. done.
        -- eapply (Hnext _ _ []); [| | | | | | exact Hrun];
             [reflexivity | by rewrite app_nil_r | done | done | cbn; lia
             | constructor].
      * unfold bind, ret in Hrun. cbn beta iota in Hrun.
        eapply (Hnext b st []);
          [done | by rewrite app_nil_r | done | done | cbn; lia | constructor
          | exact Hrun].
Qed.

(** X4: whatever the debugger holds and however the call ends,
    [register_path_breakpoint] only appends to the send queue; what it
    appends are "changed" events, at most one for each stored breakpoint,
    each carrying the state now stored for a breakpoint of the registered
    path; with the send queue inactive it appends nothing. *)
Theorem register_events (st st' : AnsibleDebugger) (path : string)
    (line kind : Z) (out : outcome unit) :
  register_path_breakpoint path line kind st = (out, st') →
  ∃ evs,
    _send_queue st' = _send_queue st ++ evs
    ∧ (_send_queue_active st = false → evs = [])
    ∧ (length evs ≤ length (_breakpoints st))%nat
    ∧ Forall (changed_event_of path (_breakpoints st')) evs.
Proof.
  unfold register_path_breakpoint.
  destruct (Py.setitem _ line (Some kind)) as [T' |].
  - intros Hrun.
    apply (reresolve_loop_events path T' _ []) in Hrun
      as (todo' & evs & Hb & Hq & Hoff & Hlen & Hall); [| done].
    exists evs. cbn in Hb, Hq, Hoff, Hlen. rewrite Hb. done.
  - intros [= <- <-]. exists []. cbn. rewrite app_nil_r.
    split_and!; try done. lia.
Qed.

Lemma register_events_witness :
  ∃ evs,
    _send_queue
      (register_path_breakpoint "site.yml" 3 1
         (run [OpConnectionMade;
               OpSetBreakpoints (request "site.yml" [3] false);
               OpDequeue] init)).2
    = [] ++ evs
    ∧ Forall
        (changed_event_of "site.yml"
           (_breakpoints
              (register_path_breakpoint "site.yml" 3 1
                 (run [OpConnectionMade;
                       OpSetBreakpoints (request "site.yml" [3] false);
                       OpDequeue] init)).2))
        evs.
Proof.
  destruct (register_path_breakpoint "site.yml" 3 1
              (run [OpConnectionMade;
                    OpSetBreakpoints (request "site.yml" [3] false);
                    OpDequeue] init)) as [out st'] eqn:Hrun.
  destruct (register_events _ _ _ _ _ _ Hrun) as (evs & Hq & _ & _ & Hall).
  exists evs. split; [exact Hq | exact Hall].
Defined.

(** ** The send queue along a run *)

Lemma set_breakpoints_loop_queue (msg : SetBreakpointsRequest)
    (sp ap : string) (si : option (list (option Z)))
    (todo : list SourceBreakpoint.t) :
  ∀ (info : list Breakpoint.t) (st st' : AnsibleDebugger)
    (out : outcome (list Breakpoint.t)),
    set_breakpoints_loop msg sp ap si todo info st = (out, st') →
    _send_queue st' = _send_queue st
    ∧ _send_queue_active st' = _send_queue_active st.
Proof.
  induction todo as [| sb rest IH]; intros info st st' out Hrun.
  - cbn in Hrun. by injection Hrun as <- <-.
  - cbn [set_breakpoints_loop] in Hrun.
    unfold bind at 1 2, get, modify in Hrun. cbn beta iota in Hrun.
    destruct (source_modified msg).
    + apply IH in Hrun. done.
    + unfold bind at 1 in Hrun.
      destruct si as [[| x T] |].
      * unfold ret at 1 in Hrun. unfold bind, modify in Hrun.
        cbn beta iota in Hrun. apply IH in Hrun. done.
      * unfold bind at 1, lift in Hrun.
        destruct (resolve (x :: T) _) as [r | e |].
        -- unfold ret at 1 in Hrun. unfold bind, modify in Hrun.
           cbn beta iota in Hrun. apply IH in Hrun. done.
        -- by injection Hrun as <- <-.
        -- by injection Hrun as <- <-.
      * unfold ret at 1 in Hrun. unfold bind, modify in Hrun.
        cbn beta iota in Hrun. apply IH in Hrun. done.
Qed.

Lemma set_breakpoints_queue (msg : SetBreakpointsRequest)
    (st st' : AnsibleDebugger) (out : outcome ProtocolMessage) :
  set_breakpoints msg st = (out, st') →
  _send_queue st' = _send_queue st
  ∧ _send_queue_active st' = _send_queue_active st.
Proof.
  unfold set_breakpoints. unfold bind at 1 2, get, modify. cbn beta iota.
  unfold bind.
  destruct (set_breakpoints_loop _ _ _ _ _ _ _) as [out1 st1] eqn:Hloop.
  apply set_breakpoints_loop_queue in Hloop. cbn in Hloop.
  destruct out1; intros [= <- <-]; done.
Qed.

(** The handler of a request puts exactly one message on an active queue:
    the response, or the error response when the handler raised. *)
Lemma on_msg_received_queue (msg : SetBreakpointsRequest)
    (st : AnsibleDebugger) :
  ∃ m,
    _send_queue (on_msg_received msg st)
    = _send_queue st ++ (if _send_queue_active st then [Some m] else [])
    ∧ _send_queue_active (on_msg_received msg st) = _send_queue_active st
    ∧ match (set_breakpoints msg st).1 with
      | Ok resp => m = resp
      | _ => m = error_response msg
      end.
Proof.
  unfold on_msg_received, process_message, bind.
  destruct (set_breakpoints msg st) as [out st1] eqn:Hset.
  apply set_breakpoints_queue in Hset as [Hq Ha]. cbn [fst].
  destruct out as [resp | e |].
  - exists resp.
    pose proof (send_frame (Some resp) st1) as (Hok & Hq' & Ha' & _).
    destruct (send (Some resp) st1) as [o st2]. cbn in *. subst o.
    rewrite Hq', Ha', Hq, Ha. done.
  - exists (error_response msg).
    pose proof (send_frame (Some (error_response msg)) st1)
      as (_ & Hq' & Ha' & _).
    rewrite Hq', Ha', Hq, Ha. done.
  - exists (error_response msg).
    pose proof (send_frame (Some (error_response msg)) st1)
      as (_ & Hq' & Ha' & _).
    rewrite Hq', Ha', Hq, Ha. done.
Qed.

Lemma reresolve_or_raise (path : string) (line kind : Z)
    (st st' : AnsibleDebugger) (out : outcome unit) :
  register_path_breakpoint path line kind st = (out, st') →
  ∃ evs, _send_queue st' = _send_queue st ++ evs
         ∧ (_send_queue_active st = false → evs = []).
Proof.
  unfold register_path_breakpoint.
  destruct (Py.setitem _ line (Some kind)) as [T' |].
  - intros Hrun.
    apply (reresolve_loop_events path T' _ []) in Hrun
      as (todo' & evs & _ & Hq & Hoff & _); [| done].
    by exists evs.
  - intros [= <- <-]. exists []. cbn. by rewrite app_nil_r.
Qed.

Lemma step_queue (o : op) (st : AnsibleDebugger) :
  match o with
  | OpDequeue =>
      _send_queue (step o st) = tail (_send_queue st)
      ∧ _send_queue_active (step o st) = _send_queue_active st
  | OpSessionEnd =>
      _send_queue (step o st) = [] ∧ _send_queue_active (step o st) = false
  | OpConnectionMade =>
      _send_queue (step o st) = _send_queue st
      ∧ _send_queue_active (step o st) = true
  | _ =>
      (∃ new, _send_queue (step o st) = _send_queue st ++ new
              ∧ (_send_queue_active st = false → new = []))
      ∧ _send_queue_active (step o st) = _send_queue_active st
  end.
Proof.
  destruct o as [path line bp_type | msg | m | c | | |]; cbn [step]; try done.
  - destruct (register_path_breakpoint path line bp_type st) as [out st'] eqn:Hrun.
    pose proof Hrun as Hframe.
    apply register_frame in Hframe as (_ & _ & _ & Ha & _).
    apply reresolve_or_raise in Hrun as (evs & Hq & Hoff).
    cbn [snd]. split; [by exists evs | done].
  - destruct (on_msg_received_queue msg st) as (m & Hq & Ha & _).
    split; [| done]. eexists. split; [exact Hq |].
    intros Hoff. by rewrite Hoff.
  - pose proof (send_frame m st) as (_ & Hq & Ha & _).
    split; [| done]. eexists. split; [exact Hq |].
    intros Hoff. by rewrite Hoff.
  - split; [| done]. exists []. by rewrite app_nil_r.
Qed.

(** X5: along a run in which the receive task does not end, the messages
    taken off the send queue, followed by those still on it, are the
    messages that were on it at the start followed by those the steps put
    on it, in that order: the queue hands messages on in the order in
    which they were sent. *)
Theorem queue_fifo (ops : list op) (st : AnsibleDebugger) :
  Forall (fun o => ¬ is_session_end o) ops →
  trace dequeued ops st ++ _send_queue (run ops st)
  = _send_queue st ++ trace enqueued ops st.
Proof.
  revert st. induction ops as [| o ops IH]; intros st Hops.
  - cbn. by rewrite app_nil_r.
  - apply Forall_cons in Hops as [Ho Hops].
    cbn [trace run fold_left]. fold (run ops (step o st)).
    rewrite <- app_assoc, (IH _ Hops).
    pose proof (step_queue o st) as Hstep.
    destruct o as [path line bp_type | msg | m | c | | |];
      try (destruct Hstep as [(new & Hq & _) _]; unfold dequeued, enqueued;
           rewrite Hq, drop_app_length, <- app_assoc; reflexivity).
    + destruct Hstep as [Hq _]. unfold dequeued, enqueued.
      rewrite Hq, drop_all. reflexivity.
    + destruct Hstep as [Hq _]. unfold dequeued, enqueued. rewrite Hq.
      destruct (_send_queue st); reflexivity.
    + by destruct Ho.
Qed.

Lemma queue_fifo_witness :
  trace dequeued
    [OpConnectionMade; OpSetBreakpoints (request "site.yml" [3] false);
     OpRegister "site.yml" 3 1; OpDequeue] init
  ++ _send_queue
       (run [OpConnectionMade; OpSetBreakpoints (request "site.yml" [3] false);
             OpRegister "site.yml" 3 1; OpDequeue] init)
  = [] ++ trace enqueued
            [OpConnectionMade; OpSetBreakpoints (request "site.yml" [3] false);
             OpRegister "site.yml" 3 1; OpDequeue] init.
Proof.
  apply (queue_fifo
           [OpConnectionMade; OpSetBreakpoints (request "site.yml" [3] false);
            OpRegister "site.yml" 3 1; OpDequeue] init).
  repeat constructor; intros [].
Defined.

Lemma step_quiet (o : op) (st : AnsibleDebugger) :
  (_send_queue_active st = false → _send_queue st = []) →
  _send_queue_active (step o st) = false → _send_queue (step o st) = [].
Proof.
  intros Hquiet. pose proof (step_queue o st) as Hstep.
  destruct o as [path line bp_type | msg | m | c | | |];
    try (destruct Hstep as [(new & Hq & Hoff) Ha]; intros Ha';
         rewrite Ha in Ha'; rewrite Hq, Hquiet, Hoff by done; reflexivity).
  - destruct Hstep as [_ Ha]. congruence.
  - destruct Hstep as [Hq Ha]. intros Ha'. rewrite Ha in Ha'.
    rewrite Hq, Hquiet by done. done.
  - by destruct Hstep as [Hq _].
Qed.

Lemma reachable_quiet (st : AnsibleDebugger) :
  reachable st → _send_queue_active st = false → _send_queue st = [].
Proof.
  intros [ops ->]. induction ops as [| o ops IH] using rev_ind; [done |].
  rewrite run_app. cbn [run fold_left]. by apply step_quiet.
Qed.

(** X6: while no transport session has been opened, or after the receive
    task has ended, the debugger is silent until a connection is made:
    nothing that the runtime or a handler sends reaches the queue, which
    stays empty, and no lookup returns a breakpoint, whatever is stored. *)
Theorem detached_silent (st : AnsibleDebugger) (ops : list op) :
  reachable st → _send_queue_active st = false →
  Forall (fun o => ¬ is_connection_made o) ops →
  _send_queue (run ops st) = []
  ∧ _send_queue_active (run ops st) = false
  ∧ ∀ path line, get_breakpoint (run ops st) path line = None.
Proof.
  intros Hreach Hoff Hops.
  assert (_send_queue_active (run ops st) = false) as Hoff'.
  { clear Hreach. revert st Hoff.
    induction Hops as [| o ops Ho _ IH]; intros st Hoff; [done |].
    cbn [run fold_left]. apply IH.
    pose proof (step_queue o st) as Hstep.
    destruct o as [path line bp_type | msg | m | c | | |].
    1-4: by destruct Hstep as [_ ->].
    - by destruct Ho.
    - by destruct Hstep as [_ ->].
    - by destruct Hstep as [_ ->]. }
  split; [| split; [done |]].
  - apply reachable_quiet; [by apply reachable_run | done].
  - intros path line. unfold get_breakpoint. by rewrite Hoff'.
Qed.

Lemma detached_silent_witness :
  _send_queue
    (run [OpRegister "site.yml" 3 1; OpSend None]
       (run [OpConnectionMade; OpSetBreakpoints (request "site.yml" [3] false);
             OpSessionEnd] init))
  = []
  ∧ get_breakpoint
      (run [OpRegister "site.yml" 3 1; OpSend None]
         (run [OpConnectionMade;
               OpSetBreakpoints (request "site.yml" [3] false);
               OpSessionEnd] init))
      "site.yml" 3
    = None.
Proof.
  destruct (detached_silent
              (run [OpConnectionMade;
                    OpSetBreakpoints (request "site.yml" [3] false);
                    OpSessionEnd] init)
              [OpRegister "site.yml" 3 1; OpSend None])
    as (Hq & _ & Hget).
  - by eexists.
  - reflexivity.
  - repeat constructor; intros [].
  - split; [exact Hq | apply Hget].
Defined.

(** ** Breakpoint ids *)

(** The loop over the requested lines, one line at a time. *)
Lemma set_breakpoints_loop_cons (msg : SetBreakpointsRequest)
    (sp ap : string) (si : option (list (option Z)))
    (sb : SourceBreakpoint.t) (rest : list SourceBreakpoint.t)
    (info : list Breakpoint.t) (st st' : AnsibleDebugger)
    (out : outcome (list Breakpoint.t)) :
  set_breakpoints_loop msg sp ap si (sb :: rest) info st = (out, st') →
  (∃ bp st1,
     Breakpoint.id bp = _breakpoint_counter st
     ∧ _breakpoint_counter st1 = _breakpoint_counter st + 1
     ∧ (if source_modified msg then True else resolvable si sb)
     ∧ set_breakpoints_loop msg sp ap si rest (info ++ [bp]) st1 = (out, st'))
  ∨ (out = Raise IndexError
     ∧ _breakpoint_counter st' = _breakpoint_counter st + 1
     ∧ _breakpoints st' = _breakpoints st
     ∧ source_modified msg = false
     ∧ ¬ resolvable si sb).
Proof.
  cbn [set_breakpoints_loop].
  unfold bind at 1 2, get, modify. cbn beta iota.
  destruct (source_modified msg).
  - intros Hrun. left. eexists _, _. split; [| split; [| split; [| exact Hrun]]];
      done.
  - unfold bind at 1. destruct si as [[| x T] |].
    + unfold ret at 1. unfold bind, modify. cbn beta iota.
      intros Hrun. left. eexists _, _.
      split; [| split; [| split; [| exact Hrun]]]; done.
    + unfold bind at 1, lift.
      pose proof (resolve_terminates (x :: T) (SourceBreakpoint.line sb))
        as Hterm.
      destruct (resolve (x :: T) _) as [r | [] |] eqn:Hr; [| | done].
      * unfold ret at 1. unfold bind, modify. cbn beta iota.
        intros Hrun. left. eexists _, _.
        split; [| split; [| split; [| exact Hrun]]]; try done.
        cbn. rewrite Hr. by exists r.
      * intros [= <- <-]. right. cbn. rewrite Hr.
        split_and!; try done. intros [r' Hr']. done.
    + unfold ret at 1. unfold bind, modify. cbn beta iota.
      intros Hrun. left. eexists _, _.
      split; [| split; [| split; [| exact Hrun]]]; done.
Qed.

(** However the loop ends the counter has moved forward; when it returns,
    it has answered every requested line under the next id, in order, and
    no resolution has raised. *)
Lemma set_breakpoints_loop_ids (msg : SetBreakpointsRequest)
    (sp ap : string) (si : option (list (option Z)))
    (todo : list SourceBreakpoint.t) :
  ∀ (info : list Breakpoint.t) (st st' : AnsibleDebugger)
    (out : outcome (list Breakpoint.t)),
    set_breakpoints_loop msg sp ap si todo info st = (out, st') →
    _breakpoint_counter st ≤ _breakpoint_counter st'
                           ≤ _breakpoint_counter st + Z.of_nat (length todo)
    ∧ ∀ info', out = Ok info' →
        (∃ new, info' = info ++ new
                ∧ Breakpoint.id <$> new
                  = imap (fun (i : nat) _ =>
                            _breakpoint_counter st + Z.of_nat i) todo)
        ∧ _breakpoint_counter st'
          = _breakpoint_counter st + Z.of_nat (length todo)
        ∧ (source_modified msg = false → Forall (resolvable si) todo).
Proof.
  induction todo as [| sb rest IH]; intros info st st' out Hrun.
  - cbn in Hrun. injection Hrun as <- <-. cbn. split; [lia |].
    intros info' [= <-]. split; [| split; [lia | done]].
    exists []. by rewrite app_nil_r.
  - apply set_breakpoints_loop_cons in Hrun
      as [(bp & st1 & Hid & Hc1 & Hres & Hrun) | (-> & Hc & _)].
    2:{ cbn [length]. split; [lia | done]. }
    apply IH in Hrun as [Hc Hok]. rewrite Hc1 in Hc. cbn [length].
    split; [lia |].
    intros info' ->. destruct (Hok info' eq_refl) as ((new & -> & Hids) & Hc' & Hall).
    split; [| split; [lia |]].
    + exists (bp :: new). rewrite <- app_assoc. split; [done |].
      rewrite fmap_cons, Hid, Hids, Hc1.
      rewrite (imap_shift (fun id _ => id)). done.
    + intros Hmod. rewrite Hmod in Hres. constructor; [done | by apply Hall].
Qed.

Lemma set_breakpoints_ids (msg : SetBreakpointsRequest)
    (st st' : AnsibleDebugger) (out : outcome ProtocolMessage) :
  set_breakpoints msg st = (out, st') →
  _breakpoint_counter st ≤ _breakpoint_counter st'
  ∧ ∀ s entries, out = Ok (SetBreakpointsResponse s entries) →
      s = seq msg
      ∧ Breakpoint.id <$> entries
        = imap (fun (i : nat) _ => _breakpoint_counter st + Z.of_nat i)
            (req_breakpoints msg)
      ∧ _breakpoint_counter st'
        = _breakpoint_counter st + Z.of_nat (length (req_breakpoints msg))
      ∧ (source_modified msg = false →
         Forall (resolvable (_source_info st !! request_actual_path st msg))
           (req_breakpoints msg)).
Proof.
  unfold set_breakpoints. unfold bind at 1 2, get, modify. cbn beta iota.
  fold (request_source_path msg). fold (request_actual_path st msg).
  unfold bind.
  destruct (set_breakpoints_loop _ _ _ _ _ _ _) as [out1 st1] eqn:Hloop.
  apply set_breakpoints_loop_ids in Hloop as [Hc Hok]. cbn in Hc, Hok.
  destruct out1 as [info | e |]; intros [= <- <-]; (split; [lia |]); try done.
  intros s entries [= <- <-].
  destruct (Hok info eq_refl) as ((new & -> & Hids) & Hc' & Hall). done.
Qed.

Lemma step_counter_mono (o : op) (st : AnsibleDebugger) :
  _breakpoint_counter st ≤ _breakpoint_counter (step o st).
Proof.
  destruct o as [path line bp_type | msg | m | c | | |]; cbn [step];
    try (cbn; lia).
  - destruct (register_path_breakpoint path line bp_type st) as [out st'] eqn:Hrun.
    apply register_frame in Hrun as (_ & _ & _ & _ & Hc & _). cbn. lia.
  - unfold on_msg_received, process_message, bind.
    destruct (set_breakpoints msg st) as [out st1] eqn:Hset.
    apply set_breakpoints_ids in Hset as [Hc _].
    destruct out as [resp | e |].
    + pose proof (send_frame (Some resp) st1) as (Hok & _ & _ & _ & Hc' & _).
      destruct (send (Some resp) st1) as [o st2]. cbn in Hok, Hc'. subst o.
      cbn. lia.
    + pose proof (send_frame (Some (error_response msg)) st1)
        as (_ & _ & _ & _ & Hc' & _). lia.
    + pose proof (send_frame (Some (error_response msg)) st1)
        as (_ & _ & _ & _ & Hc' & _). lia.
  - pose proof (send_frame m st) as (_ & _ & _ & _ & Hc & _). lia.
Qed.

Lemma run_counter_mono (ops : list op) (st : AnsibleDebugger) :
  _breakpoint_counter st ≤ _breakpoint_counter (run ops st).
Proof.
  revert st. induction ops as [| o ops IH]; intros st; [cbn; lia |].
  cbn [run fold_left]. fold (run ops (step o st)).
  pose proof (step_counter_mono o st). pose proof (IH (step o st)). lia.
Qed.

(** X7: a response of the set-breakpoints handler numbers its entries with
    consecutive ids from the counter on, in the order of the request, and
    no id comes back: whatever happens in between, the ids of a later
    response are larger than those of an earlier one. *)
Theorem breakpoint_ids_never_reused (st st1 st2 : AnsibleDebugger)
    (msg1 msg2 : SetBreakpointsRequest) (ops : list op) (s1 s2 : Z)
    (entries1 entries2 : list Breakpoint.t) :
  set_breakpoints msg1 st = (Ok (SetBreakpointsResponse s1 entries1), st1) →
  set_breakpoints msg2 (run ops (process_message msg1 st).2)
  = (Ok (SetBreakpointsResponse s2 entries2), st2) →
  Breakpoint.id <$> entries1
  = imap (fun (i : nat) _ => _breakpoint_counter st + Z.of_nat i)
      (req_breakpoints msg1)
  ∧ length entries1 = length (req_breakpoints msg1)
  ∧ (∀ i j b1 b2, entries1 !! i = Some b1 → entries1 !! j = Some b2 →
                  (i < j)%nat → Breakpoint.id b1 < Breakpoint.id b2)
  ∧ (∀ b1 b2, b1 ∈ entries1 → b2 ∈ entries2 →
              Breakpoint.id b1 < Breakpoint.id b2).
Proof.
  intros Hset1 Hset2.
  pose proof (process_message_breakpoints msg1 st) as [_ Hpc].
  rewrite Hset1 in Hpc. cbn [snd] in Hpc.
  apply set_breakpoints_ids in Hset1 as [_ Hok1].
  destruct (Hok1 _ _ eq_refl) as (_ & Hids1 & Hc1 & _).
  apply set_breakpoints_ids in Hset2 as [_ Hok2].
  destruct (Hok2 _ _ eq_refl) as (_ & Hids2 & _ & _).
  pose proof (run_counter_mono ops (process_message msg1 st).2) as Hmono.
  rewrite Hpc, Hc1 in Hmono.
  assert (∀ (c : Z) (reqs : list SourceBreakpoint.t) entries i b,
            Breakpoint.id <$> entries
            = imap (fun (i : nat) _ => c + Z.of_nat i) reqs →
            entries !! i = Some b →
            Breakpoint.id b = c + Z.of_nat i ∧ (i < length reqs)%nat) as Hat.
  { intros c reqs entries i b Hids Hb.
    assert ((Breakpoint.id <$> entries) !! i = Some (Breakpoint.id b)) as Hi
      by (by rewrite list_lookup_fmap, Hb).
    rewrite Hids in Hi. apply list_lookup_imap_Some in Hi as (sb & Hsb & ->).
    split; [done |]. by apply lookup_lt_Some in Hsb. }
  split; [done |]. split.
  { rewrite <- (length_fmap Breakpoint.id), Hids1. apply length_imap. }
  split.
  - intros i j b1 b2 Hb1 Hb2 Hij.
    destruct (Hat _ _ _ _ _ Hids1 Hb1) as [-> _].
    destruct (Hat _ _ _ _ _ Hids1 Hb2) as [-> _]. lia.
  - intros b1 b2 Hb1 Hb2.
    apply list_elem_of_lookup in Hb1 as [i Hb1].
    apply list_elem_of_lookup in Hb2 as [j Hb2].
    destruct (Hat _ _ _ _ _ Hids1 Hb1) as [-> Hi].
    destruct (Hat _ _ _ _ _ Hids2 Hb2) as [-> _]. lia.
Qed.

Lemma breakpoint_ids_never_reused_witness :
  Breakpoint.id
    (Breakpoint.mk 1 false (Some not_loaded)
       (Source.mk None (Some "site.yml"%string)) (Some 3) None)
  < Breakpoint.id
      (Breakpoint.mk 2 false (Some modified_source)
         (Source.mk None (Some "site.yml"%string)) None None).
Proof.
  destruct (breakpoint_ids_never_reused init
              (set_breakpoints (request "site.yml" [3] false) init).2
              (set_breakpoints (request "site.yml" [3] true)
                 (run [OpConnectionMade]
                    (process_message (request "site.yml" [3] false) init).2)).2
              (request "site.yml" [3] false) (request "site.yml" [3] true)
              [OpConnectionMade] 7 7
              [Breakpoint.mk 1 false (Some not_loaded)
                 (Source.mk None (Some "site.yml"%string)) (Some 3) None]
              [Breakpoint.mk 2 false (Some modified_source)
                 (Source.mk None (Some "site.yml"%string)) None None])
    as (_ & _ & _ & Hlater).
  - vm_compute. reflexivity.
  - vm_compute. reflexivity.
  - apply Hlater; apply list_elem_of_singleton; reflexivity.
Defined.

(** ** A request with a line that cannot be resolved *)

Lemma resolve_below (T : list (option Z)) (L : Z) :
  L < - Py.len T → resolve T L = Raise IndexError.
Proof.
  intros HL. unfold resolve.
  assert (0 ≤ Py.len T) as Hlen by (unfold Py.len; lia).
  replace (Z.min L (Py.len T - 1)) with L by lia.
  by rewrite getitem_below.
Qed.

Lemma set_breakpoints_loop_app (msg : SetBreakpointsRequest)
    (sp ap : string) (si : option (list (option Z)))
    (l1 l2 : list SourceBreakpoint.t) :
  ∀ (info : list Breakpoint.t) (st : AnsibleDebugger),
    set_breakpoints_loop msg sp ap si (l1 ++ l2) info st
    = bind (set_breakpoints_loop msg sp ap si l1 info)
        (set_breakpoints_loop msg sp ap si l2) st.
Proof.
  induction l1 as [| sb l1 IH]; intros info st; [done |].
  cbn [app set_breakpoints_loop].
  unfold bind at 1 2 4 5, get, modify. cbn beta iota.
  destruct (source_modified msg); [apply IH |].
  unfold bind at 1 3.
  destruct si as [[| x T] |].
  - unfold ret at 1 2. unfold bind at 1 3, modify. cbn beta iota. apply IH.
  - unfold bind at 1 3, lift.
    destruct (resolve (x :: T) _) as [r | e |]; [| done | done].
    unfold ret at 1 2. unfold bind at 1 3, modify. cbn beta iota. apply IH.
  - unfold ret at 1 2. unfold bind at 1 3, modify. cbn beta iota. apply IH.
Qed.

(** X8: when a request for a loaded file holds a line below [-len(T)]
    after lines that are not negative, the handler raises [IndexError] at
    that line: by then the old breakpoints of the client path are gone and
    the lines before it are stored under fresh ids, the line itself has
    used up an id, the lines after it are not looked at; the client gets
    the error response in place of the response. *)
Theorem set_breakpoints_raises (st : AnsibleDebugger)
    (msg : SetBreakpointsRequest) (T : list (option Z))
    (good rest : list SourceBreakpoint.t) (bad : SourceBreakpoint.t) :
  reachable st → source_modified msg = false →
  _source_info st !! request_actual_path st msg = Some T →
  req_breakpoints msg = good ++ bad :: rest →
  Forall (fun sb => 0 ≤ SourceBreakpoint.line sb) good →
  SourceBreakpoint.line bad < - Py.len T →
  ∃ st',
    set_breakpoints msg st = (Raise IndexError, st')
    ∧ _breakpoint_counter st'
      = _breakpoint_counter st + Z.of_nat (length good) + 1
    ∧ _breakpoints st'
      = filter (fun kb : Z * AnsibleLineBreakpoint.t =>
                  AnsibleLineBreakpoint.source_path kb.2
                  ≠ request_source_path msg)
          (_breakpoints st)
        ++ imap (fun i : nat =>
                   stored msg (Some T) (request_source_path msg)
                     (request_actual_path st msg)
                     (_breakpoint_counter st + Z.of_nat i))
             good
    ∧ _breakpoints (on_msg_received msg st) = _breakpoints st'
    ∧ _send_queue (on_msg_received msg st)
      = _send_queue st
        ++ (if _send_queue_active st then [Some (error_response msg)] else []).
Proof.
  intros Hreach Hmod HT Hreqs Hgood Hbad. apply reachable_inv in Hreach.
  pose proof (inv_tables _ _ _ Hreach _ _ HT) as Hok.
  pose proof (inv_keys_below _ _ _ Hreach) as Hbelow.
  assert (∃ x T0, T = x :: T0) as (x & T0 & HTeq).
  { destruct Hok as (v & T0 & ->). by eexists _, _. }
  set (sp := request_source_path msg).
  set (ap := request_actual_path st msg) in *.
  set (st0 := with_breakpoints st
                (filter (fun kb : Z * AnsibleLineBreakpoint.t =>
                           AnsibleLineBreakpoint.source_path kb.2 ≠ sp)
                   (_breakpoints st))).
  destruct (set_breakpoints_loop_ok msg sp ap (Some T) good [] st0)
    as (st1 & Hrun1 & Hc1 & Hb1 & Hq1 & Ha1 & _).
  { cbn. apply Forall_forall. intros kb Hkb%list_elem_of_filter.
    eapply Forall_forall in Hbelow; [exact Hbelow | apply Hkb]. }
  { intros _. eapply Forall_impl; [exact Hgood |]. intros sb Hsb.
    cbv beta in Hsb. unfold resolvable. rewrite HTeq. rewrite <- HTeq.
    destruct (resolve_ok T _ Hok Hsb) as (r & _ & Hr & _). by exists r. }
  rewrite Hmod in Hb1. cbn [app] in Hrun1.
  destruct (set_breakpoints_loop msg sp ap (Some T) (bad :: rest)
              (imap (fun i : nat =>
                       classified msg (Some T)
                         (_breakpoint_counter st0 + Z.of_nat i)) good) st1)
    as [out2 st2] eqn:Hrun2.
  pose proof Hrun2 as Hq2. apply set_breakpoints_loop_queue in Hq2 as [Hq2 Ha2].
  pose proof Hrun2 as Hcons.
  apply set_breakpoints_loop_cons in Hcons
    as [(bp & st3 & _ & _ & Hres & _) | (-> & Hc2 & Hb2 & _)].
  { exfalso. rewrite Hmod in Hres. unfold resolvable in Hres.
    rewrite HTeq in Hres. rewrite <- HTeq in Hres.
    destruct Hres as [r Hr]. rewrite resolve_below in Hr by done. done. }
  assert (set_breakpoints msg st = (Raise IndexError, st2)) as Hset.
  { unfold set_breakpoints. unfold bind at 1 2, get, modify.
    cbn beta iota zeta.
    change (default EmptyString (Source.path (req_source msg))) with sp.
    change (convert_to_actual_path (path_mappings (_debug_config st)) sp)
      with ap.
    fold st0. rewrite HT, Hreqs.
    unfold bind at 1. rewrite set_breakpoints_loop_app.
    unfold bind at 1. rewrite Hrun1, Hrun2. done. }
  exists st2. split; [exact Hset |].
  split; [rewrite Hc2, Hc1; cbn; lia |].
  split; [by rewrite Hb2, Hb1 |].
  unfold on_msg_received, process_message, bind. rewrite Hset.
  pose proof (send_frame (Some (error_response msg)) st2)
    as (_ & Hqs & _ & Hbs & _).
  rewrite Hbs, Hqs, Hq2, Ha2, Hq1, Ha1. done.
Qed.

Lemma set_breakpoints_raises_witness :
  ∃ st',
    set_breakpoints (request "site.yml" [2; -9; 4] false)
      (run [OpConnectionMade; OpRegister "site.yml" 3 1] init)
    = (Raise IndexError, st')
    ∧ _breakpoint_counter st' = 1 + 1 + 1
    ∧ _send_queue
        (on_msg_received (request "site.yml" [2; -9; 4] false)
           (run [OpConnectionMade; OpRegister "site.yml" 3 1] init))
      = [Some (error_response (request "site.yml" [2; -9; 4] false))].
Proof.
  destruct (set_breakpoints_raises
              (run [OpConnectionMade; OpRegister "site.yml" 3 1] init)
              (request "site.yml" [2; -9; 4] false)
              [Some 0; None; None; Some 1]
              [SourceBreakpoint.mk 2 None] [SourceBreakpoint.mk 4 None]
              (SourceBreakpoint.mk (-9) None))
    as (st' & Hset & Hc & _ & _ & Hq).
  - by eexists.
  - reflexivity.
  - vm_compute. reflexivity.
  - reflexivity.
  - repeat constructor. cbn. lia.
  - vm_compute. reflexivity.
  - exists st'. split; [exact Hset |]. split; [exact Hc | exact Hq].
Defined.

(** ** What a successful request leaves in the registry *)

Lemma filter_all {A} (P : A → Prop) `{∀ x, Decision (P x)} (l : list A) :
  Forall P l → filter P l = l.
Proof.
  induction 1 as [| x l Hx _ IH]; [done |].
  rewrite filter_cons_True by done. by rewrite IH.
Qed.

Lemma filter_none {A} (P : A → Prop) `{∀ x, Decision (P x)} (l : list A) :
  Forall (fun x => ¬ P x) l → filter P l = [].
Proof.
  induction 1 as [| x l Hx _ IH]; [done |].
  by rewrite filter_cons_False.
Qed.

(** X9: after a request that the handler answers with a response, the
    breakpoints stored for the client path of the request are exactly the
    requested lines, in the order of the request and in the states that
    the response reports; none is stored when the source is modified. *)
Theorem set_breakpoints_stores_request (st st' : AnsibleDebugger)
    (msg : SetBreakpointsRequest) (s : Z) (entries : list Breakpoint.t) :
  reachable st →
  set_breakpoints msg st = (Ok (SetBreakpointsResponse s entries), st') →
  length entries = length (req_breakpoints msg)
  ∧ AnsibleLineBreakpoint.source_breakpoint ∘ snd
    <$> filter (fun kb : Z * AnsibleLineBreakpoint.t =>
                  AnsibleLineBreakpoint.source_path kb.2
                  = request_source_path msg)
          (_breakpoints st')
    = (if source_modified msg then [] else req_breakpoints msg)
  ∧ AnsibleLineBreakpoint.breakpoint ∘ snd
    <$> filter (fun kb : Z * AnsibleLineBreakpoint.t =>
                  AnsibleLineBreakpoint.source_path kb.2
                  = request_source_path msg)
          (_breakpoints st')
    = (if source_modified msg then [] else entries)
  ∧ Forall (fun kb : Z * AnsibleLineBreakpoint.t =>
              AnsibleLineBreakpoint.source_path kb.2
              = request_source_path msg →
              AnsibleLineBreakpoint.actual_path kb.2
              = request_actual_path st msg)
      (_breakpoints st').
Proof.
  intros Hreach Hset. apply reachable_inv in Hreach.
  pose proof (inv_keys_below _ _ _ Hreach) as Hbelow.
  pose proof Hset as Hids. apply set_breakpoints_ids in Hids as [_ Hok].
  destruct (Hok _ _ eq_refl) as (_ & _ & _ & Hres).
  destruct (set_breakpoints_ok msg st Hbelow Hres) as (st1 & Hrun & _ & Hb & _).
  rewrite Hset in Hrun. injection Hrun as _ -> <-.
  set (P := request_source_path msg) in *.
  set (old := filter _ (_breakpoints st)) in Hb.
  assert (filter (fun kb : Z * AnsibleLineBreakpoint.t =>
                    AnsibleLineBreakpoint.source_path kb.2 = P) old = [])
    as Hold.
  { apply filter_none, Forall_forall.
    intros kb Hkb%list_elem_of_filter. apply Hkb. }
  split; [apply length_imap |].
  rewrite Hb, filter_app, Hold. cbn [app].
  destruct (source_modified msg).
  - rewrite app_nil_r. split; [done |]. split; [done |].
    apply Forall_forall. intros kb Hkb%list_elem_of_filter. by destruct Hkb.
  - rewrite filter_all.
    2:{ apply Forall_forall. intros kb Hkb.
        apply elem_of_lookup_imap in Hkb as (i & sb & -> & _). done. }
    rewrite !fmap_imap. split; [| split].
    + rewrite <- (list_fmap_id (req_breakpoints msg)) at 2.
      rewrite <- imap_const. apply imap_ext. done.
    + apply imap_ext. done.
    + apply Forall_app. split.
      * apply Forall_forall. intros kb Hkb%list_elem_of_filter.
        by destruct Hkb.
      * apply Forall_forall. intros kb Hkb.
        apply elem_of_lookup_imap in Hkb as (i & sb & -> & _). done.
Qed.

Lemma set_breakpoints_stores_request_witness :
  length
    [Breakpoint.mk 3 false (Some not_loaded)
       (Source.mk None (Some "site.yml"%string)) (Some 5) None]
  = length (req_breakpoints (request "site.yml" [5] false)).
Proof.
  eapply (set_breakpoints_stores_request
            (run [OpConnectionMade;
                  OpSetBreakpoints (request "site.yml" [3; 4] false)] init)
            _ (request "site.yml" [5] false) 7).
  - by eexists.
  - vm_compute. reflexivity.
Defined.

(** ** Registering a line twice *)

Lemma debugger_eq (st st' : AnsibleDebugger) :
  _debug_config st' = _debug_config st →
  _send_queue st' = _send_queue st →
  _send_queue_active st' = _send_queue_active st →
  _breakpoints st' = _breakpoints st →
  _breakpoint_counter st' = _breakpoint_counter st →
  _source_info st' = _source_info st →
  st' = st.
Proof. destruct st, st'. cbn. by intros -> -> -> -> -> ->. Qed.

Lemma register_path_breakpoint_ok (st : AnsibleDebugger) (path : string)
    (line kind : Z) :
  0 ≤ line →
  Forall (fun kb : Z * AnsibleLineBreakpoint.t =>
            AnsibleLineBreakpoint.actual_path kb.2 = path →
            ∃ r, resolve (registered (table_of st path) line kind)
                   (SourceBreakpoint.line
                      (AnsibleLineBreakpoint.source_breakpoint kb.2)) = Ok r)
    (_breakpoints st) →
  ∃ st',
    register_path_breakpoint path line kind st = (Ok tt, st')
    ∧ _source_info st'
      = <[path := registered (table_of st path) line kind]> (_source_info st)
    ∧ _breakpoints st'
      = map (reresolved path (registered (table_of st path) line kind))
          (_breakpoints st)
    ∧ _send_queue st'
      = _send_queue st
        ++ (if _send_queue_active st
            then flat_map
                   (changed_events path
                      (registered (table_of st path) line kind))
                   (_breakpoints st)
            else [])
    ∧ _send_queue_active st' = _send_queue_active st
    ∧ _breakpoint_counter st' = _breakpoint_counter st
    ∧ _debug_config st' = _debug_config st.
Proof.
  intros Hline Hres.
  set (T' := registered (table_of st path) line kind) in *.
  assert (Py.setitem (extended (table_of st path) line) line (Some kind)
          = Some T') as Hset.
  { subst T'. rewrite registered_nonneg by done.
    unfold extended, Py.repeat, Py.len.
    replace (Z.to_nat (1 + line - Z.of_nat (length (table_of st path))))
      with (S (Z.to_nat line) - length (table_of st path))%nat by lia.
    apply setitem_nonneg. unfold Py.len.
    rewrite length_app, length_replicate. lia. }
  set (st1 := with_source_info st (<[path := T']> (_source_info st))).
  destruct (reresolve_loop_ok path T' (_breakpoints st1) [] st1)
    as (st' & Hrun & Hb & Hq & Ha & Hc & Hs & Hd); [done | done |].
  exists st'. split; [| done].
  unfold register_path_breakpoint. fold (table_of st path).
  fold (extended (table_of st path) line). rewrite Hset. exact Hrun.
Qed.

Lemma registered_again (T : list (option Z)) (line kind : Z) :
  0 ≤ line →
  registered (registered T line kind) line kind = registered T line kind.
Proof.
  intros Hline. rewrite (registered_nonneg (registered T line kind)) by done.
  rewrite registered_nonneg by done.
  set (T0 := T ++ replicate (S (Z.to_nat line) - length T) None).
  assert (S (Z.to_nat line) ≤ length T0)%nat as Hlen.
  { subst T0. rewrite length_app, length_replicate. lia. }
  rewrite length_insert.
  replace (S (Z.to_nat line) - length T0)%nat with 0%nat by lia.
  cbn [replicate]. rewrite app_nil_r. apply list_insert_insert_eq.
Qed.

Lemma reresolved_again (path : string) (T : list (option Z))
    (kb : Z * AnsibleLineBreakpoint.t) :
  reresolved path T (reresolved path T kb) = reresolved path T kb
  ∧ changed_events path T (reresolved path T kb) = [].
Proof.
  destruct kb as [k b].
  destruct (bool_decide (AnsibleLineBreakpoint.actual_path b ≠ path)) eqn:Hp.
  { assert (reresolved path T (k, b) = (k, b)) as Hk
      by (unfold reresolved; cbn [snd]; by rewrite Hp).
    rewrite !Hk. split; [done |].
    unfold changed_events. cbn [snd]. by rewrite Hp. }
  destruct (resolve T (SourceBreakpoint.line
                         (AnsibleLineBreakpoint.source_breakpoint b)))
    as [r | e |] eqn:Hr.
  2,3: assert (reresolved path T (k, b) = (k, b)) as Hk
         by (unfold reresolved; cbn [snd]; by rewrite Hp, Hr);
       rewrite !Hk; (split; [done |]);
       unfold changed_events; cbn [snd]; by rewrite Hp, Hr.
  destruct (changed (AnsibleLineBreakpoint.breakpoint b) r) eqn:Hch.
  - assert (reresolved path T (k, b)
            = (k, with_breakpoint b (resolved_breakpoint b r))) as Hk
      by (unfold reresolved; cbn [fst snd]; by rewrite Hp, Hr, Hch).
    assert (changed (resolved_breakpoint b r) r = false) as Hch'.
    { apply changed_false. done. }
    rewrite !Hk. unfold reresolved, changed_events. cbn.
    by rewrite Hp, Hr, Hch'.
  - assert (reresolved path T (k, b) = (k, b)) as Hk
      by (unfold reresolved; cbn [snd]; by rewrite Hp, Hr, Hch).
    rewrite !Hk. split; [done |].
    unfold changed_events. cbn [snd]. by rewrite Hp, Hr, Hch.
Qed.

(** X10: a registration that is repeated right away changes nothing and
    sends nothing: after [register_path_breakpoint path line kind] with
    [line >= 0], on stored breakpoints of [path] whose requested lines are
    not negative, the same call returns the debugger as it is. *)
Theorem register_twice (st : AnsibleDebugger) (path : string)
    (line kind : Z) :
  reachable st → 0 ≤ line →
  Forall (fun kb : Z * AnsibleLineBreakpoint.t =>
            AnsibleLineBreakpoint.actual_path kb.2 = path →
            0 ≤ SourceBreakpoint.line
                  (AnsibleLineBreakpoint.source_breakpoint kb.2))
    (_breakpoints st) →
  ∃ st1,
    register_path_breakpoint path line kind st = (Ok tt, st1)
    ∧ register_path_breakpoint path line kind st1 = (Ok tt, st1).
Proof.
  intros Hreach Hline Hlines. apply reachable_inv in Hreach.
  pose proof (table_of_ok _ _ st path Hreach) as Hok0.
  pose proof (registered_ok _ line kind Hok0) as Hok.
  set (T' := registered (table_of st path) line kind) in *.
  assert (Forall (fun kb : Z * AnsibleLineBreakpoint.t =>
            AnsibleLineBreakpoint.actual_path kb.2 = path →
            ∃ r, resolve T' (SourceBreakpoint.line
                   (AnsibleLineBreakpoint.source_breakpoint kb.2)) = Ok r)
            (_breakpoints st)) as Hres.
  { eapply Forall_impl; [exact Hlines |]. intros kb Hkb Hp.
    destruct (resolve_ok T' _ Hok (Hkb Hp)) as (r & _ & Hr & _). by exists r. }
  destruct (register_path_breakpoint_ok st path line kind Hline Hres)
    as (st1 & Hrun1 & Hs1 & Hb1 & Hq1 & Ha1 & Hc1 & Hd1).
  fold T' in Hs1, Hb1, Hq1.
  exists st1. split; [exact Hrun1 |].
  assert (table_of st1 path = T') as Ht1.
  { unfold table_of. by rewrite Hs1, lookup_insert_eq. }
  assert (registered (table_of st1 path) line kind = T') as HT1.
  { rewrite Ht1. subst T'. by apply registered_again. }
  destruct (register_path_breakpoint_ok st1 path line kind Hline)
    as (st2 & Hrun2 & Hs2 & Hb2 & Hq2 & Ha2 & Hc2 & Hd2).
  { rewrite HT1, Hb1. apply Forall_forall. intros kb' Hin Hp.
    apply list_elem_of_fmap in Hin as (kb & -> & Hin).
    eapply Forall_forall in Hres; [| exact Hin].
    assert (AnsibleLineBreakpoint.actual_path kb.2 = path
            ∧ AnsibleLineBreakpoint.source_breakpoint (reresolved path T' kb).2
              = AnsibleLineBreakpoint.source_breakpoint kb.2) as [Hp' ->].
    { revert Hp. unfold reresolved. destruct kb as [k b]. cbn [fst snd].
      case_bool_decide; [done |].
      destruct (resolve T' _); [| done | done].
      by destruct (changed _ _). }
    by apply Hres. }
  rewrite HT1 in Hs2, Hb2, Hq2. rewrite Hrun2. f_equal.
  apply debugger_eq; try congruence.
  - rewrite Hq2. replace (flat_map _ _) with (@nil (option ProtocolMessage)).
    { by destruct (_send_queue_active st1); rewrite app_nil_r. }
    rewrite Hb1. clear. induction (_breakpoints st) as [| kb l IH]; [done |].
    cbn [map flat_map].
    destruct (reresolved_again path T' kb) as [_ ->]. exact IH.
  - rewrite Hb2, Hb1. clear. induction (_breakpoints st) as [| kb l IH]; [done |].
    cbn [map]. destruct (reresolved_again path T' kb) as [-> _]. by rewrite IH.
  - rewrite Hs2, Hs1. apply insert_insert_eq.
Qed.

Lemma register_twice_witness :
  ∃ st1,
    register_path_breakpoint "site.yml" 3 1
      (run [OpConnectionMade; OpSetBreakpoints (request "site.yml" [3; 7] false)]
         init)
    = (Ok tt, st1)
    ∧ register_path_breakpoint "site.yml" 3 1 st1 = (Ok tt, st1).
Proof.
  apply (register_twice
           (run [OpConnectionMade;
                 OpSetBreakpoints (request "site.yml" [3; 7] false)] init)
           "site.yml" 3 1).
  - by eexists.
  - lia.
  - vm_compute. repeat constructor; intros _ Hneg; discriminate Hneg.
Defined.

(** ** Tables only grow *)

Lemma set_breakpoints_loop_tables (msg : SetBreakpointsRequest)
    (sp ap : string) (si : option (list (option Z)))
    (todo : list SourceBreakpoint.t) :
  ∀ (info : list Breakpoint.t) (st st' : AnsibleDebugger)
    (out : outcome (list Breakpoint.t)),
    set_breakpoints_loop msg sp ap si todo info st = (out, st') →
    _source_info st' = _source_info st ∧ _debug_config st' = _debug_config st.
Proof.
  induction todo as [| sb rest IH]; intros info st st' out Hrun.
  - cbn in Hrun. by injection Hrun as <- <-.
  - cbn [set_breakpoints_loop] in Hrun.
    unfold bind at 1 2, get, modify in Hrun. cbn beta iota in Hrun.
    destruct (source_modified msg).
    + apply IH in Hrun. done.
    + unfold bind at 1 in Hrun.
      destruct si as [[| x T] |].
      * unfold ret at 1 in Hrun. unfold bind, modify in Hrun.
        cbn beta iota in Hrun. apply IH in Hrun. done.
      * unfold bind at 1, lift in Hrun.
        destruct (resolve (x :: T) _) as [r | e |].
        -- unfold ret at 1 in Hrun. unfold bind, modify in Hrun.
           cbn beta iota in Hrun. apply IH in Hrun. done.
        -- by injection Hrun as <- <-.
        -- by injection Hrun as <- <-.
      * unfold ret at 1 in Hrun. unfold bind, modify in Hrun.
        cbn beta iota in Hrun. apply IH in Hrun. done.
Qed.

Lemma on_msg_received_tables (msg : SetBreakpointsRequest)
    (st : AnsibleDebugger) :
  _source_info (on_msg_received msg st) = _source_info st
  ∧ _debug_config (on_msg_received msg st) = _debug_config st.
Proof.
  assert (_source_info (set_breakpoints msg st).2 = _source_info st
          ∧ _debug_config (set_breakpoints msg st).2 = _debug_config st)
    as Hset.
  { unfold set_breakpoints. unfold bind at 1 2, get, modify. cbn beta iota.
    unfold bind.
    destruct (set_breakpoints_loop _ _ _ _ _ _ _) as [out1 st1] eqn:Hloop.
    apply set_breakpoints_loop_tables in Hloop. cbn in Hloop.
    by destruct out1. }
  unfold on_msg_received, process_message, bind.
  destruct (set_breakpoints msg st) as [out st1]. cbn [snd] in Hset.
  destruct out as [resp | e |].
  - pose proof (send_frame (Some resp) st1) as (Hok & _ & _ & _ & _ & Hs & Hd).
    destruct (send (Some resp) st1) as [o st2]. cbn in Hok, Hs, Hd. subst o.
    rewrite Hs, Hd. done.
  - pose proof (send_frame (Some (error_response msg)) st1)
      as (_ & _ & _ & _ & _ & Hs & Hd).
    rewrite Hs, Hd. done.
  - pose proof (send_frame (Some (error_response msg)) st1)
      as (_ & _ & _ & _ & _ & Hs & Hd).
    rewrite Hs, Hd. done.
Qed.

Lemma registered_grows (T : list (option Z)) (line kind : Z) :
  (length T ≤ length (registered T line kind))%nat
  ∧ ∀ (i : nat) v, T !! i = Some (Some v) →
                   ∃ v', registered T line kind !! i = Some (Some v').
Proof.
  unfold registered.
  assert ((length T ≤ length (extended T line))%nat
          ∧ ∀ (i : nat) v, T !! i = Some (Some v) →
                           extended T line !! i = Some (Some v)) as [Hlen Hext].
  { unfold extended. rewrite length_app. split; [lia |].
    intros i v Hi. rewrite lookup_app_l; [done |]. by eapply lookup_lt_Some. }
  destruct (Py.setitem _ line (Some kind)) as [T' |] eqn:Hset; simpl.
  - apply setitem_Some in Hset as (n & Hn & -> & _).
    rewrite length_insert. split; [done |].
    intros i v Hi. destruct (decide (i = n)) as [-> | Hne].
    + exists kind. by apply list_lookup_insert_eq.
    + exists v. rewrite list_lookup_insert_ne by done. by apply Hext.
  - split; [done |]. intros i v Hi. exists v. by apply Hext.
Qed.

Lemma step_tables (o : op) (st : AnsibleDebugger) (path : string)
    (T : list (option Z)) :
  _source_info st !! path = Some T →
  ∃ T', _source_info (step o st) !! path = Some T'
        ∧ (length T ≤ length T')%nat
        ∧ ∀ (i : nat) v, T !! i = Some (Some v) →
                         ∃ v', T' !! i = Some (Some v').
Proof.
  intros HT.
  assert (∀ st', _source_info st' = _source_info st →
            ∃ T', _source_info st' !! path = Some T'
                  ∧ (length T ≤ length T')%nat
                  ∧ ∀ (i : nat) v, T !! i = Some (Some v) →
                                   ∃ v', T' !! i = Some (Some v')) as Hsame.
  { intros st' ->. exists T. split_and!; [done | lia | by eauto]. }
  destruct o as [p line bp_type | msg | m | c | | |]; cbn [step];
    try (by apply Hsame).
  - destruct (register_path_breakpoint p line bp_type st) as [out st'] eqn:Hrun.
    apply register_frame in Hrun as (_ & Hs & _). cbn [snd]. rewrite Hs.
    destruct (decide (p = path)) as [-> | Hne].
    + rewrite lookup_insert_eq. eexists. split; [done |].
      unfold table_of. rewrite HT. simpl. apply registered_grows.
    + rewrite lookup_insert_ne by done. exists T.
      split_and!; [done | lia | by eauto].
  - apply Hsame, on_msg_received_tables.
  - apply Hsame. pose proof (send_frame m st) as (_ & _ & _ & _ & _ & Hs & _).
    done.
Qed.

(** X11: along every run the table of a path is never removed and never
    gets shorter, and a slot that holds a classification never goes back to
    a continuation (a later registration may only overwrite it with
    another classification). *)
Theorem tables_only_grow (ops : list op) (st : AnsibleDebugger)
    (path : string) (T : list (option Z)) :
  _source_info st !! path = Some T →
  ∃ T', _source_info (run ops st) !! path = Some T'
        ∧ (length T ≤ length T')%nat
        ∧ ∀ (i : nat) v, T !! i = Some (Some v) →
                         ∃ v', T' !! i = Some (Some v').
Proof.
  revert st T. induction ops as [| o ops IH]; intros st T HT.
  - exists T. split_and!; [done | lia | by eauto].
  - cbn [run fold_left]. fold (run ops (step o st)).
    destruct (step_tables o st path T HT) as (T1 & HT1 & Hlen1 & Hcl1).
    destruct (IH _ _ HT1) as (T' & HT' & Hlen' & Hcl').
    exists T'. split; [done |]. split; [lia |].
    intros i v Hi. destruct (Hcl1 i v Hi) as [v1 Hv1]. by eapply Hcl'.
Qed.

Lemma tables_only_grow_witness :
  ∃ T',
    _source_info
      (run [OpRegister "site.yml" 1 0;
            OpSetBreakpoints (request "site.yml" [2] false);
            OpRegister "site.yml" (-9) 1]
         (run [OpRegister "site.yml" 3 1] init))
      !! "site.yml"%string = Some T'
    ∧ (length [Some 0; None; None; Some 1] ≤ length T')%nat.
Proof.
  destruct (tables_only_grow
              [OpRegister "site.yml" 1 0;
               OpSetBreakpoints (request "site.yml" [2] false);
               OpRegister "site.yml" (-9) 1]
              (run [OpRegister "site.yml" 3 1] init)
              "site.yml" [Some 0; None; None; Some 1])
    as (T' & HT' & Hlen & _).
  - vm_compute. reflexivity.
  - exists T'. split; [exact HT' | exact Hlen].
Defined.

(** ** The id allocators *)

Lemma next_id_spec (k0 k : id_kind) (c : IdCounters) :
  (next_id k0 c).1 = counter_of k0 c
  ∧ counter_of k (next_id k0 c).2
    = counter_of k c + (if decide (k0 = k) then 1 else 0).
Proof.
  destruct k0, k; cbn -[decide]; (split; [done |]); case_decide; try done; lia.
Qed.

(** X12: in any interleaving of calls of the three allocators, the ids
    that one allocator returns are the consecutive numbers from its counter
    on, in the order of its calls, whatever the calls of the other two in
    between: they are distinct, and from the initial counters no thread id
    is below 2. *)
Theorem allocated_ids (calls : list id_kind) (c : IdCounters) (k : id_kind) :
  ids_of k (allocate calls c).1
  = seqZ (counter_of k c) (Z.of_nat (length (filter (fun k' => k' = k) calls)))
  ∧ counter_of k (allocate calls c).2
    = counter_of k c + Z.of_nat (length (filter (fun k' => k' = k) calls))
  ∧ NoDup (ids_of k (allocate calls c).1)
  ∧ (∀ id, id ∈ ids_of ThreadId (allocate calls init_counters).1 → 2 ≤ id).
Proof.
  assert (∀ calls c k,
    ids_of k (allocate calls c).1
    = seqZ (counter_of k c)
        (Z.of_nat (length (filter (fun k' => k' = k) calls)))
    ∧ counter_of k (allocate calls c).2
      = counter_of k c
        + Z.of_nat (length (filter (fun k' => k' = k) calls))) as Hids.
  { clear. intros calls. induction calls as [| k0 calls IH]; intros c k.
    - cbn. split; [done | lia].
    - cbn [allocate].
      destruct (next_id k0 c) as [id c1] eqn:Hnext.
      destruct (next_id_spec k0 k c) as [Hid Hc1]. rewrite Hnext in Hid, Hc1.
      cbn [fst snd] in Hid, Hc1.
      destruct (allocate calls c1) as [ids c2] eqn:Halloc.
      destruct (IH c1 k) as [Hids Hc2]. rewrite Halloc in Hids, Hc2.
      cbn [fst snd] in *. unfold ids_of in *.
      rewrite Hc1 in Hids, Hc2.
      destruct (decide (k0 = k)) as [-> | Hne].
      + rewrite !filter_cons_True by done. cbn [length].
        rewrite fmap_cons, Hids. cbn [snd]. split; [| lia].
        rewrite (seqZ_cons (counter_of k c)) by lia. rewrite Hid.
        f_equal. f_equal; lia.
      + rewrite !filter_cons_False by done.
        rewrite Z.add_0_r in Hids, Hc2. done. }
  destruct (Hids calls c k) as [Heq Hc]. split; [done |]. split; [done |].
  split.
  - rewrite Heq. apply NoDup_seqZ.
  - intros id. destruct (Hids calls init_counters ThreadId) as [-> _].
    intros Hin%elem_of_seqZ. cbn in Hin. lia.
Qed.

Lemma allocated_ids_witness :
  ids_of ThreadId
    (allocate [ThreadId; VariableId; ThreadId; StackFrameId; ThreadId]
       init_counters).1
  = seqZ 2 3.
Proof.
  apply (allocated_ids
           [ThreadId; VariableId; ThreadId; StackFrameId; ThreadId]
           init_counters ThreadId).
Defined.

(** ** From the runtime path to the client path and back *)

(** X13: [convert_to_client_path] rewrites a runtime path with the first
    mapping whose [remote_root] starts it, and leaves a path that no
    [remote_root] starts as it is; when no mapping configured before the
    applied one has a [local_root] that starts the client path, the
    translation at the head of the set-breakpoints handler gives the
    runtime path back. *)
Theorem client_path_round_trip (st : AnsibleDebugger)
    (ms1 ms2 : list PathMapping) (m : PathMapping) (q : string) :
  path_mappings (_debug_config st) = ms1 ++ m :: ms2 →
  Forall (fun m' => Py.startswith q (remote_root m') = false) ms1 →
  Py.startswith q (remote_root m) = true →
  Forall (fun m' =>
            Py.startswith
              (local_root m +:+ Py.slice_from q (String.length (remote_root m)))
              (local_root m') = false) ms1 →
  convert_to_client_path st q
  = local_root m +:+ Py.slice_from q (String.length (remote_root m))
  ∧ convert_to_actual_path (path_mappings (_debug_config st))
      (convert_to_client_path st q) = q
  ∧ ∀ q', Forall (fun m' => Py.startswith q' (remote_root m') = false)
            (path_mappings (_debug_config st)) →
          convert_to_client_path st q' = q'.
Proof.
  intros Hms Hremote Hm Hlocal. unfold convert_to_client_path. rewrite Hms.
  rewrite convert_path_mappings_first by done.
  split; [done |]. split.
  - rewrite convert_to_actual_path_first; [| done | apply startswith_app].
    rewrite slice_from_app. symmetry. by apply startswith_split.
  - intros q'. generalize (ms1 ++ m :: ms2). intros ms.
    induction 1 as [| m' ms' Hm' _ IH]; [done |]. cbn. by rewrite Hm'.
Qed.

Lemma client_path_round_trip_witness :
  convert_to_client_path
    (with_debug_config init
       {| path_mappings :=
            [ {| local_root := "/home/me/roles"; remote_root := "/srv/roles" |};
              {| local_root := "/home/me"; remote_root := "/srv/play" |} ] |})
    "/srv/play/site.yml"
  = "/home/me/site.yml"%string.
Proof.
  apply (client_path_round_trip
           (with_debug_config init
              {| path_mappings :=
                   [ {| local_root := "/home/me/roles";
                        remote_root := "/srv/roles" |};
                     {| local_root := "/home/me";
                        remote_root := "/srv/play" |} ] |})
           [ {| local_root := "/home/me/roles"; remote_root := "/srv/roles" |} ]
           []
           {| local_root := "/home/me"; remote_root := "/srv/play" |}
           "/srv/play/site.yml").
  - reflexivity.
  - repeat constructor.
  - reflexivity.
  - repeat constructor.
Defined.

(** ** The debug configuration *)

(** X14: the handler of output events takes the configuration of an event
    only when its category is the reserved one and its data is a debug
    configuration; after any sequence of output events the path mappings
    are those of the last event taken, or the old ones when none was
    taken, never a merge, and the stored breakpoints, with the runtime
    paths they were given, the tables, the counter and the send queue are
    as before. *)
Theorem output_events_last_wins (events : list OutputEvent)
    (st : AnsibleDebugger) :
  _debug_config
    (fold_left (fun st e => (process_output_event e st).2) events st)
  = default (_debug_config st) (last (omap accepted events))
  ∧ _breakpoints
      (fold_left (fun st e => (process_output_event e st).2) events st)
    = _breakpoints st
  ∧ _source_info
      (fold_left (fun st e => (process_output_event e st).2) events st)
    = _source_info st
  ∧ _breakpoint_counter
      (fold_left (fun st e => (process_output_event e st).2) events st)
    = _breakpoint_counter st
  ∧ _send_queue
      (fold_left (fun st e => (process_output_event e st).2) events st)
    = _send_queue st
  ∧ Forall (fun e => ∀ st0, (process_output_event e st0).1 = Ok tt) events.
Proof.
  revert st. induction events as [| e events IH]; intros st.
  - cbn. split_and!; done.
  - cbn [fold_left].
    destruct (IH (process_output_event e st).2)
      as (Hd & Hb & Hs & Hc & Hq & Hall).
    rewrite Hd, Hb, Hs, Hc, Hq.
    assert ((process_output_event e st).2
            = match accepted e with
              | Some c => with_debug_config st c
              | None => st
              end
            ∧ ∀ st0, (process_output_event e st0).1 = Ok tt) as [Hstep Hok].
    { unfold process_output_event, accepted, is_debug_configuration.
      destruct (data e) as [c |];
        destruct (decide (category e = OUTPUT_CATEGORY)) as [Hcat | Hcat].
      - rewrite bool_decide_eq_false_2 by (intros Hne; by apply Hne).
        rewrite bool_decide_eq_true_2 by done. done.
      - rewrite bool_decide_eq_true_2 by done.
        rewrite bool_decide_eq_false_2 by done. done.
      - rewrite orb_true_r. done.
      - rewrite orb_true_r. done. }
    rewrite Hstep.
    change (omap accepted (e :: events))
      with (match accepted e with
            | Some c => c :: omap accepted events
            | None => omap accepted events
            end).
    destruct (accepted e) as [c |].
    + split_and!; try done; [| by constructor].
      rewrite last_cons. cbn [_debug_config with_debug_config].
      by destruct (last (omap accepted events)).
    + split_and!; try done. by constructor.
Qed.

Lemma output_events_last_wins_witness :
  path_mappings
    (_debug_config
       (fold_left (fun st e => (process_output_event e st).2)
          [ {| category := OUTPUT_CATEGORY;
               data := DataDebugConfiguration
                         {| path_mappings :=
                              [ {| local_root := "/a"; remote_root := "/x" |} ] |} |};
            {| category := "stdout";
               data := DataDebugConfiguration {| path_mappings := [] |} |};
            {| category := OUTPUT_CATEGORY; data := DataOther |} ]
          init))
  = [ {| local_root := "/a"; remote_root := "/x" |} ].
Proof.
  destruct (output_events_last_wins
              [ {| category := OUTPUT_CATEGORY;
                   data := DataDebugConfiguration
                             {| path_mappings :=
                                  [ {| local_root := "/a";
                                       remote_root := "/x" |} ] |} |};
                {| category := "stdout";
                   data := DataDebugConfiguration {| path_mappings := [] |} |};
                {| category := OUTPUT_CATEGORY; data := DataOther |} ]
              init) as [Hd _].
  rewrite Hd. reflexivity.
Defined.

(** ** A request for a file that has no table *)

(** X15: a request, not marked as modified, for a runtime path without a
    table never raises, whatever lines it asks for: every entry of its
    response is unverified with the "not loaded" message, the requested
    line as its line and no end line, under the next ids and in the order
    of the request; the response is put on the queue when the queue is
    active, the entries are stored after the breakpoints of the other
    client paths, and the path still has no table. *)
Theorem not_loaded_response (st : AnsibleDebugger)
    (msg : SetBreakpointsRequest) :
  reachable st → source_modified msg = false →
  _source_info st !! request_actual_path st msg = None →
  ∃ st',
    process_message msg st = (Ok tt, st')
    ∧ _send_queue st'
      = _send_queue st
        ++ (if _send_queue_active st
            then [Some (SetBreakpointsResponse (seq msg)
                          (imap (fun (i : nat) sb =>
                                   Breakpoint.mk
                                     (_breakpoint_counter st + Z.of_nat i)
                                     false (Some not_loaded) (req_source msg)
                                     (Some (SourceBreakpoint.line sb)) None)
                             (req_breakpoints msg)))]
            else [])
    ∧ _breakpoints st'
      = filter (fun kb : Z * AnsibleLineBreakpoint.t =>
                  AnsibleLineBreakpoint.source_path kb.2
                  ≠ request_source_path msg)
          (_breakpoints st)
        ++ imap (fun (i : nat) sb =>
                   (_breakpoint_counter st + Z.of_nat i,
                    AnsibleLineBreakpoint.mk
                      (_breakpoint_counter st + Z.of_nat i) (req_source msg) sb
                      (Breakpoint.mk (_breakpoint_counter st + Z.of_nat i)
                         false (Some not_loaded) (req_source msg)
                         (Some (SourceBreakpoint.line sb)) None)
                      (request_actual_path st msg) (request_source_path msg)))
             (req_breakpoints msg)
    ∧ _breakpoint_counter st'
      = _breakpoint_counter st + Z.of_nat (length (req_breakpoints msg))
    ∧ _source_info st' !! request_actual_path st msg = None.
Proof.
  intros Hreach Hmod Hnone. apply reachable_inv in Hreach.
  destruct (set_breakpoints_ok msg st) as (st1 & Hrun & Hc & Hb & Hq & Ha & Hs & _).
  { by eapply inv_keys_below. }
  { intros _. rewrite Hnone. by apply Forall_forall. }
  rewrite Hnone, Hmod in *.
  unfold process_message, bind. rewrite Hrun.
  pose proof (send_frame
                (Some (SetBreakpointsResponse (seq msg)
                         (imap (fun i : nat =>
                                  classified msg None
                                    (_breakpoint_counter st + Z.of_nat i))
                            (req_breakpoints msg)))) st1)
    as (Hok & Hq' & _ & Hb' & Hc' & Hs' & _).
  destruct (send _ st1) as [o st2]. cbn [fst snd] in *. subst o.
  exists st2. split; [done |].
  assert (∀ id sb, classified msg None id sb
                   = Breakpoint.mk id false (Some not_loaded) (req_source msg)
                       (Some (SourceBreakpoint.line sb)) None) as Hcl.
  { intros id sb. unfold classified. by rewrite Hmod. }
  split.
  { rewrite Hq', Hq, Ha. destruct (_send_queue_active st); [| done].
    do 4 f_equal. apply imap_ext. intros i sb _. apply Hcl. }
  split.
  { rewrite Hb', Hb. f_equal. apply imap_ext. intros i sb _.
    unfold stored. by rewrite Hcl. }
  split; [by rewrite Hc', Hc |]. by rewrite Hs', Hs.
Qed.

Lemma not_loaded_response_witness :
  ∃ st',
    process_message (request "site.yml" [3; -20] false)
      (run [OpConnectionMade] init)
    = (Ok tt, st')
    ∧ _breakpoint_counter st' = 1 + 2.
Proof.
  destruct (not_loaded_response (run [OpConnectionMade] init)
              (request "site.yml" [3; -20] false))
    as (st' & Hrun & _ & _ & Hc & _).
  - by eexists.
  - reflexivity.
  - reflexivity.
  - exists st'. split; [exact Hrun | exact Hc].
Defined.
